(** * remind: notebooks, notes and templates

  A shallow embedding of [remind/remind.py]: the notebook and note
  addressing ([find_note], [Notebook.discover], [Notebook.search],
  [Notebook.find], [Notebook.sift]), the template engine
  ([Template._resolve], [Template._configure], [Template._tokenize],
  [Template.render]) and note deletion ([_delete_note],
  [Notebook.delete], [Template.delete]).

  Conventions of the model.
  - Text is [string]: sequences of 8-bit characters.  The classes
    [\s] and [\w] and [str.strip] are the ASCII ones, so the model is
    exact on ASCII text; comparison of strings is by character code,
    as in Python.
  - The filesystem is a tree of files and directories; a directory
    keeps its entries in the order [os.listdir] reports them, which
    the operating system does not promise to be sorted.
  - A path is the list of its ["/"]-separated components, from the
    root of the modelled tree; [""], ["."] and [".."] are resolved
    when the path is used, as the kernel does.
  - Effects are explicit: a world carries the filesystem, the lines
    waiting on standard input, what was printed, the environment and
    the behaviour of external programs. *)

From Stdlib Require Import Ascii String ZArith.
From stdpp Require Import gmap strings list sorting.

Local Open Scope string_scope.
Local Open Scope list_scope.
Local Open Scope stdpp_scope.

(** ** Python strings *)

Module Str.

(** [c in s] for a one-character [c]. *)
Fixpoint contains (c : ascii) (s : string) : bool :=
  match s with
  | EmptyString => false
  | String a s' => if Ascii.eqb a c then true else contains c s'
  end.

(** [s.startswith(p)] *)
Fixpoint startswith (p s : string) : bool :=
  match p, s with
  | EmptyString, _ => true
  | String a p', String b s' => if Ascii.eqb a b then startswith p' s' else false
  | String _ _, EmptyString => false
  end.

(** [s.split(sep, maxsplit)] for a one-character separator: at most
    [n] cuts, taken from the left. *)
Fixpoint split_max (sep : ascii) (n : nat) (s : string) : list string :=
  match s with
  | EmptyString => [EmptyString]
  | String a s' =>
      if Ascii.eqb a sep then
        match n with
        | 0 => [s]
        | S n' => EmptyString :: split_max sep n' s'
        end
      else
        match split_max sep n s' with
        | h :: t => String a h :: t
        | [] => [String a EmptyString]
        end
  end.

(** [s.split(sep)]: no bound on the number of cuts. *)
Definition split (sep : ascii) (s : string) : list string :=
  split_max sep (String.length s) s.

(** [s.rsplit(sep, maxsplit)]: at most [n] cuts, taken from the
    right; the mirror image of [split_max]. *)
Definition rsplit (sep : ascii) (n : nat) (s : string) : list string :=
  reverse (String.rev <$> split_max sep n (String.rev s)).

(** [l[-2:]] *)
Definition last_two {A} (l : list A) : list A := drop (length l - 2) l.

(** [str.isspace] on ASCII: tab, line feed, vertical tab, form feed,
    carriage return, the separators 0x1c-0x1f and the space. *)
Definition is_space (c : ascii) : bool :=
  let n := nat_of_ascii c in
  (((9 <=? n) && (n <=? 13)) || ((28 <=? n) && (n <=? 32)))%nat.

(** [\w] on ASCII: letters, digits and the underscore. *)
Definition is_word (c : ascii) : bool :=
  let n := nat_of_ascii c in
  (((48 <=? n) && (n <=? 57)) || ((65 <=? n) && (n <=? 90))
   || ((97 <=? n) && (n <=? 122)) || (n =? 95))%nat.

Fixpoint lstrip (s : string) : string :=
  match s with
  | EmptyString => EmptyString
  | String a s' => if is_space a then lstrip s' else s
  end.

Definition rstrip (s : string) : string := String.rev (lstrip (String.rev s)).

(** [s.strip()] *)
Definition strip (s : string) : string := lstrip (rstrip s).

(** [s[2:-2]] *)
Definition slice_2_m2 (s : string) : string :=
  substring 2 (String.length s - 2 - 2) s.

(** ["".join(l)] *)
Definition join (l : list string) : string := foldr String.append "" l.

(** [sep.join(l)] *)
Definition join_with (sep : string) (l : list string) : string := String.concat sep l.

End Str.

(** ** The pattern of [Template._tokenize] *)

Module Re.

(** The longest prefix of [s] made of [\s] and [\w] characters, and
    what follows it. *)
Fixpoint span_class (s : string) : string * string :=
  match s with
  | EmptyString => (EmptyString, EmptyString)
  | String a s' =>
      if Str.is_space a || Str.is_word a then
        let '(run, rest) := span_class s' in (String a run, rest)
      else (EmptyString, s)
  end.

(** A match of [{{[\s\w]*}}] at the start of [s]: the matched text and
    the rest.  The class excludes the closing brace, so the greedy star
    has one way to succeed: the whole run, then two closing braces. *)
Definition match_placeholder (s : string) : option (string * string) :=
  match s with
  | String "{" (String "{" s1) =>
      let '(run, s2) := span_class s1 in
      match s2 with
      | String "}" (String "}" s3) => Some ("{{" +:+ run +:+ "}}", s3)
      | _ => None
      end
  | _ => None
  end.

(** [re.split("({{[\s\w]*}})", s)], scanning left to right: a match
    closes the current literal span and is kept as an item of its own
    (the pattern is one capturing group); otherwise the character joins
    the current literal span.  Every step consumes a character, so
    [length s] steps are enough. *)
Fixpoint split_fuel (fuel : nat) (s : string) : list string :=
  match fuel with
  | 0 => [s]
  | S fuel' =>
      match match_placeholder s with
      | Some (tok, rest) => EmptyString :: tok :: split_fuel fuel' rest
      | None =>
          match s with
          | EmptyString => [EmptyString]
          | String a s' =>
              match split_fuel fuel' s' with
              | h :: t => String a h :: t
              | [] => [String a EmptyString]
              end
          end
      end
  end.

Definition split (s : string) : list string := split_fuel (String.length s) s.

End Re.

(** ** The filesystem *)

Module Fs.

Local Unset Elimination Schemes.
Inductive node : Type :=
| File (content : string)
| Dir (entries : list (string * node)).
Local Set Elimination Schemes.

Abbreviation path := (list string).

Fixpoint lookup_entry (name : string) (es : list (string * node)) : option node :=
  match es with
  | [] => None
  | (k, v) :: es' => if decide (k = name) then Some v else lookup_entry name es'
  end.

Definition remove_entry (name : string) (es : list (string * node)) : list (string * node) :=
  filter (λ e, e.1 ≠ name) es.

(** The node at a path made of entry names only. *)
Fixpoint get (n : node) (p : path) : option node :=
  match p with
  | [] => Some n
  | c :: p' =>
      match n with
      | Dir es => lookup_entry c es ≫= λ n', get n' p'
      | File _ => None
      end
  end.

(** One component of a path walk, from the directory [cur]: [""] and
    ["."] stay, [".."] goes up (the root is its own parent), a name
    goes down.  Walking through anything but a directory fails. *)
Definition resolve_step (root : node) (cur : path) (c : string) : option path :=
  match get root cur with
  | Some (Dir _) =>
      if decide (c = "" ∨ c = ".") then Some cur
      else if decide (c = "..") then Some (removelast cur)
      else match get root (cur ++ [c]) with
           | Some _ => Some (cur ++ [c])
           | None => None
           end
  | _ => None
  end.

Fixpoint resolve_from (root : node) (cur : path) (cs : path) : option path :=
  match cs with
  | [] => Some cur
  | c :: cs' => resolve_step root cur c ≫= λ cur', resolve_from root cur' cs'
  end.

(** The entry names leading to what [p] denotes, if it exists. *)
Definition realpath (root : node) (p : path) : option path := resolve_from root [] p.

Definition stat (root : node) (p : path) : option node :=
  realpath root p ≫= get root.

(** [os.path.exists], [os.path.isfile], [os.path.isdir] *)
Definition exists_ (root : node) (p : path) : bool :=
  match stat root p with Some _ => true | None => false end.
Definition isfile (root : node) (p : path) : bool :=
  match stat root p with Some (File _) => true | _ => false end.
Definition isdir (root : node) (p : path) : bool :=
  match stat root p with Some (Dir _) => true | _ => false end.

(** [os.listdir]: the names, in the directory's own order; [None] when
    [p] is not a directory. *)
Definition listdir (root : node) (p : path) : option (list string) :=
  match stat root p with
  | Some (Dir es) => Some (es.*1)
  | _ => None
  end.

(** [f] applied to the entries of the directory at [p]. *)
Fixpoint alter_dir (p : path) (f : list (string * node) → list (string * node))
    (n : node) : node :=
  match n with
  | File _ => n
  | Dir es =>
      match p with
      | [] => Dir (f es)
      | c :: p' =>
          Dir ((λ e, if decide (e.1 = c) then (e.1, alter_dir p' f e.2) else e) <$> es)
      end
  end.

(** The entry at [p] taken out of its directory, with all below it. *)
Definition unlink (p : path) (n : node) : node :=
  match p with
  | [] => n
  | _ => alter_dir (removelast p) (remove_entry (List.last p "")) n
  end.

(** [os.remove]: [None] unless [p] is a file. *)
Definition remove (root : node) (p : path) : option node :=
  match realpath root p with
  | Some c => match get root c with
              | Some (File _) => Some (unlink c root)
              | _ => None
              end
  | None => None
  end.

(** [shutil.rmtree]: [None] unless [p] is a directory other than the
    root of the tree. *)
Definition rmtree (root : node) (p : path) : option node :=
  match realpath root p with
  | Some (c :: cs) => match get root (c :: cs) with
                      | Some (Dir _) => Some (unlink (c :: cs) root)
                      | _ => None
                      end
  | _ => None
  end.

(** [os.makedirs(p, exist_ok=True)]: the missing directories along [p]
    are created, each one appended to its parent's listing; [None] when
    a file is in the way. *)
Fixpoint makedirs_from (root : node) (cur : path) (cs : path) : option node :=
  match cs with
  | [] => match get root cur with Some (Dir _) => Some root | _ => None end
  | c :: cs' =>
      match get root cur with
      | Some (Dir _) =>
          if decide (c = "" ∨ c = ".") then makedirs_from root cur cs'
          else if decide (c = "..") then makedirs_from root (removelast cur) cs'
          else match get root (cur ++ [c]) with
               | Some _ => makedirs_from root (cur ++ [c]) cs'
               | None =>
                   makedirs_from (alter_dir cur (λ es, es ++ [(c, Dir [])]) root)
                                 (cur ++ [c]) cs'
               end
      | _ => None
      end
  end.

Definition makedirs (root : node) (p : path) : option node := makedirs_from root [] p.

(** [os.path.join(p, s)]: a [s] starting with ["/"] starts over from
    the root. *)
Definition join (p : path) (s : string) : path :=
  if Str.startswith "/" s then Str.split "/" s else p ++ Str.split "/" s.

(** The text of a path, for messages. *)
Definition show (p : path) : string := "/" +:+ Str.join_with "/" p.

End Fs.

(** ** The runtime: outcomes, the world, the monad of commands *)

Inductive exn : Type :=
| ValueError
| EOFError
| OSError
| TypeError
| ImportError.

(** How a call ends: with a value, with [sys.exit(code)], or with an
    exception that nothing in the program catches. *)
Inductive outcome (A : Type) : Type :=
| Ret (a : A)
| SysExit (code : Z)
| Raise (e : exn).
Arguments Ret {A} a.
Arguments SysExit {A} code.
Arguments Raise {A} e.

(** What a render function hands back: a [str], or an object of another
    type ([None] when the function has no [return]). *)
Inductive pyval : Type :=
| PyStr (s : string)
| PyOther.

Inductive call_result : Type :=
| Returns (v : pyval)
| Raises.

(** An attribute of a loaded render unit.  A callable is applied to the
    notebook, given by its root and name, and to the name of the note.
    Of a call only the way it ends is kept, a value or an exception:
    what a render function may do besides, or take from anywhere else
    than its arguments, is not followed. *)
Inductive attr : Type :=
| Callable (f : Fs.path → string → string → call_result)
| NotCallable.

(** A loaded render unit: the module's namespace. *)
Abbreviation module := (gmap string attr).

Inductive git_cmd : Type :=
| GitLsFiles (p : Fs.path)
| GitRm (p : Fs.path) (recursive : bool)
| GitCommit.

(** The programs the code runs and the interpreter it loads render
    units with are outside the repository; they are parameters.  An
    editor is started or not, and when started leaves a tree behind; a
    command of version control ends with a status, an output and a
    tree; the load of a unit gives its namespace or fails, and what
    running the unit's own statements may do besides is not
    followed. *)
Record Proc : Type := {
  editor_call : string → list Fs.path → Fs.node → option Fs.node;
  git_call : git_cmd → Fs.node → Z * string * Fs.node;
  exec_module : string → string → option module
}.

Record World : Type := {
  fs : Fs.node;
  stdin : list string;
  stdout : list string;
  stderr : list string;
  environ : gmap string string;
  proc : Proc
}.

Definition with_fs (n : Fs.node) (w : World) : World :=
  {| fs := n; stdin := stdin w; stdout := stdout w; stderr := stderr w;
     environ := environ w; proc := proc w |}.
Definition with_stdin (l : list string) (w : World) : World :=
  {| fs := fs w; stdin := l; stdout := stdout w; stderr := stderr w;
     environ := environ w; proc := proc w |}.
Definition with_stdout (l : list string) (w : World) : World :=
  {| fs := fs w; stdin := stdin w; stdout := l; stderr := stderr w;
     environ := environ w; proc := proc w |}.
Definition with_stderr (l : list string) (w : World) : World :=
  {| fs := fs w; stdin := stdin w; stdout := stdout w; stderr := l;
     environ := environ w; proc := proc w |}.

Definition M (A : Type) : Type := World → outcome A * World.

Definition ret {A} (a : A) : M A := λ w, (Ret a, w).

Definition bind {A B} (m : M A) (k : A → M B) : M B :=
  λ w, match m w with
       | (Ret a, w') => k a w'
       | (SysExit c, w') => (SysExit c, w')
       | (Raise e, w') => (Raise e, w')
       end.

Notation "'let*' x ':=' m 'in' k" := (bind m (λ x, k))
  (at level 10, x pattern, m at level 100, k at level 200).

Definition raise {A} (e : exn) : M A := λ w, (Raise e, w).

(** [sys.exit(code)] *)
Definition sys_exit {A} (code : Z) : M A := λ w, (SysExit code, w).

(** [print(s)] and [print(s, file=sys.stderr)] *)
Definition print (s : string) : M unit := λ w, (Ret (), with_stdout (stdout w ++ [s]) w).
Definition print_err (s : string) : M unit := λ w, (Ret (), with_stderr (stderr w ++ [s]) w).

(** [os.environ.get(k, d)] *)
Definition environ_get (k d : string) : M string :=
  λ w, (Ret (default d (environ w !! k)), w).

Definition os_path_exists (p : Fs.path) : M bool := λ w, (Ret (Fs.exists_ (fs w) p), w).
Definition os_path_isfile (p : Fs.path) : M bool := λ w, (Ret (Fs.isfile (fs w) p), w).
Definition os_path_isdir (p : Fs.path) : M bool := λ w, (Ret (Fs.isdir (fs w) p), w).

Definition os_listdir (p : Fs.path) : M (list string) :=
  λ w, match Fs.listdir (fs w) p with
       | Some l => (Ret l, w)
       | None => (Raise OSError, w)
       end.

Definition os_remove (p : Fs.path) : M unit :=
  λ w, match Fs.remove (fs w) p with
       | Some n => (Ret (), with_fs n w)
       | None => (Raise OSError, w)
       end.

Definition shutil_rmtree (p : Fs.path) : M unit :=
  λ w, match Fs.rmtree (fs w) p with
       | Some n => (Ret (), with_fs n w)
       | None => (Raise OSError, w)
       end.

Definition os_makedirs (p : Fs.path) : M unit :=
  λ w, match Fs.makedirs (fs w) p with
       | Some n => (Ret (), with_fs n w)
       | None => (Raise OSError, w)
       end.

(** [subprocess.call([editor, ...])]: a program that can be started
    does what it does to the files it is given, and its exit status is
    not looked at; one that cannot be started (no such program, no
    permission) makes the call raise [FileNotFoundError] or another
    [OSError]. *)
Definition subprocess_call (editor : string) (args : list Fs.path) : M unit :=
  λ w, match editor_call (proc w) editor args (fs w) with
       | Some n => (Ret (), with_fs n w)
       | None => (Raise OSError, w)
       end.

(** [open(p).read()] *)
Definition read_file (p : Fs.path) : M string :=
  λ w, match Fs.stat (fs w) p with
       | Some (Fs.File c) => (Ret c, w)
       | _ => (Raise OSError, w)
       end.

(** ** Prompts *)

Definition nl : string := String (ascii_of_nat 10) EmptyString.

(** The text [prompt] hands to [input], with the default prefix. *)
Definition prompt_text (message : string) : string :=
  ">> " +:+ message +:+ nl +:+ ">> ".

(** [re.match("^(y)(es)?", r, re.IGNORECASE)] and the same for [n]:
    the optional group never decides, the first character does. *)
Definition match_yes (r : string) : bool := Str.startswith "y" r || Str.startswith "Y" r.
Definition match_no (r : string) : bool := Str.startswith "n" r || Str.startswith "N" r.

(** The loop of [yesno], one line of input per round; [input] shows
    the prompt, then reads, and raises [EOFError] when nothing is left. *)
Fixpoint yesno_loop (text default : string) (lines : list string) (w : World)
    : outcome bool * World :=
  let w1 := with_stdout (stdout w ++ [text]) w in
  match lines with
  | [] => (Raise EOFError, with_stdin [] w1)
  | line :: rest =>
      let w2 := with_stdin rest w1 in
      let response := Str.strip line in
      if decide (response = "") then (Ret true, w2)
      else if match_yes response then (Ret (bool_decide (default = "yes")), w2)
      else if match_no response then (Ret (bool_decide (default = "no")), w2)
      else yesno_loop text default rest w2
  end.

Definition yesno (message : string) (default : string) : M bool :=
  if bool_decide (default ≠ "yes") && bool_decide (default ≠ "no") then raise ValueError
  else λ w, yesno_loop (prompt_text (message +:+ " [" +:+ default +:+ "]")) default (stdin w) w.

Definition prompt_create_directory (directory : Fs.path) : M bool :=
  yesno (Fs.show directory +:+ " does not exist, create?") "yes".

Definition check_directory (directory : Fs.path) : M bool := os_path_exists directory.

Definition create_directory (directory : Fs.path) : M bool :=
  let* yes := prompt_create_directory directory in
  if yes : bool then let* _ := os_makedirs directory in ret true
  else ret false.

(** ** The objects *)

(** [Template]: [t_notebook] is the name of the owning notebook and
    [t_tld] its root, the two attributes of [self.notebook] the class
    reads. *)
Record Template : Type := {
  t_tld : Fs.path;
  t_notebook : string;
  t_dir : Fs.path;
  t_prompt_create : bool;
  t_resolved : bool;
  t_template : option string;
  t_runner : option module
}.

Record Notebook : Type := {
  nb_tld : Fs.path;
  nb_name : string;
  nb_path : Fs.path;
  nb_template : option Template
}.

Record Note : Type := {
  note_name : string;
  note_notebook : Notebook;
  note_path : Fs.path
}.

Definition TEMPLATE_DIR : string := "REMIND_TEMPLATE_DIR".
Definition EDITOR_ENV_NAME : string := "EDITOR".
Definition EDITOR_DEFAULT : string := "vim".

Module Template.

(** [os.environ.get(TEMPLATE_DIR, os.path.join(tld, "templates"))]; a
    directory taken from the environment is read from the root of the
    tree. *)
Definition storage (env : gmap string string) (tld : Fs.path) : Fs.path :=
  match env !! TEMPLATE_DIR with
  | Some d => Fs.join [] d
  | None => Fs.join tld "templates"
  end.

(** [Template.__init__] *)
Definition init (tld : Fs.path) (notebook : string) (prompt_create : bool) : M Template :=
  λ w, (Ret {| t_tld := tld;
               t_notebook := notebook;
               t_dir := storage (environ w) tld;
               t_prompt_create := prompt_create;
               t_resolved := false;
               t_template := None;
               t_runner := None |}, w).

Definition set_loaded (self : Template) (text : option string) (runner : option module)
    : Template :=
  {| t_tld := t_tld self; t_notebook := t_notebook self; t_dir := t_dir self;
     t_prompt_create := t_prompt_create self; t_resolved := t_resolved self;
     t_template := text; t_runner := runner |}.

Definition set_resolved (self : Template) : Template :=
  {| t_tld := t_tld self; t_notebook := t_notebook self; t_dir := t_dir self;
     t_prompt_create := t_prompt_create self; t_resolved := true;
     t_template := t_template self; t_runner := t_runner self |}.

Definition template_file (self : Template) (notebook : string) : Fs.path :=
  Fs.join (Fs.join (t_dir self) notebook) (notebook +:+ ".txt").
Definition runnable_file (self : Template) (notebook : string) : Fs.path :=
  Fs.join (Fs.join (t_dir self) notebook) (notebook +:+ ".py").

(** [Template._configure]: the answer and the object as it is left. *)
Definition _configure (self : Template) (notebook : string) : M (bool * Template) :=
  let template := template_file self notebook in
  let runnable := runnable_file self notebook in
  let* has_template := os_path_isfile template in
  let* has_runnable := os_path_isfile runnable in
  if has_template && has_runnable then
    let* text := read_file template in
    let* source := read_file runnable in
    λ w, match exec_module (proc w) notebook source with
         | Some runner => (Ret (true, set_loaded self (Some text) (Some runner)), w)
         | None => (Raise ImportError, w)
         end
  else ret (false, self).

(** [Template.create].  The source returns [False] when the user or
    the directory says no, and falls off its end, returning [None],
    after the editor has run: a falsy value on every path. *)
Definition create (self : Template) : M bool :=
  let* yes := yesno "Do you want to create a template?" "yes" in
  if negb yes then ret false
  else
    let ntd := Fs.join (t_dir self) (t_notebook self) in
    let* present := check_directory ntd in
    let* usable := (if present : bool then ret true else create_directory ntd) in
    if negb usable then ret false
    else
      let template := Fs.join ntd (t_notebook self +:+ ".txt") in
      let runnable := Fs.join ntd (t_notebook self +:+ ".py") in
      let* editor := environ_get EDITOR_ENV_NAME EDITOR_DEFAULT in
      let* _ := subprocess_call editor [template; runnable] in
      ret false.

(** [Template._resolve] *)
Definition _resolve (self : Template) : M Template :=
  let* (configured, self) := _configure self (t_notebook self) in
  let* (configured, self) :=
    (if negb configured && t_prompt_create self then
       let* created := create self in
       if created : bool then _configure self (t_notebook self)
       else ret (configured, self)
     else ret (configured, self)) in
  let* self :=
    (if negb configured then
       let* (_, self) := _configure self "default" in ret self
     else ret self) in
  ret (set_resolved self).

(** [Template._tokenize]: [None] and the empty text are both falsy. *)
Definition _tokenize (self : Template) : list string :=
  match t_template self with
  | Some text => if decide (text = "") then [] else Re.split text
  | None => []
  end.

(** The body of the loop of [Template.render]: what is appended to
    [out] for one item of the token list.  Every failure inside the
    [try] leaves the item as it was. *)
Definition render_token (self : Template) (note_name : string) (token : string) : pyval :=
  if Str.startswith "{{" token then
    let fn := Str.strip (Str.slice_2_m2 token) in
    match t_runner self with
    | Some runner =>
        match runner !! fn with
        | Some (Callable f) =>
            match f (t_tld self) (t_notebook self) note_name with
            | Returns v => v
            | Raises => PyStr token
            end
        | Some NotCallable => PyStr token
        | None => PyStr token
        end
    | None => PyStr token
    end
  else PyStr token.

(** ["".join(out)], which accepts strings only. *)
Fixpoint join_out (out : list pyval) : option string :=
  match out with
  | [] => Some ""
  | PyStr s :: out' => (λ r, s +:+ r) <$> join_out out'
  | PyOther :: _ => None
  end.

(** [Template.render]: the text and the object as it is left. *)
Definition render (self : Template) (note_name : string) : M (string * Template) :=
  let* self := (if t_resolved self then ret self else _resolve self) in
  let out := render_token self note_name <$> _tokenize self in
  match join_out out with
  | Some text => ret (text, self)
  | None => raise TypeError
  end.

(** [Template.delete] *)
Definition delete (self : Template) : M unit :=
  let ntd := Fs.join (t_dir self) (t_notebook self) in
  let* present := check_directory ntd in
  if present : bool then
    let* delete := yesno ("Do you want to delete the template for " +:+ t_notebook self) "yes" in
    if delete : bool then shutil_rmtree ntd else ret ()
  else ret ().

End Template.

Module Note.

(** [Note.__init__] *)
Definition init (notebook : Notebook) (name : string) : Note :=
  {| note_name := name; note_notebook := notebook;
     note_path := Fs.join (nb_path notebook) name |}.

Definition exists_ (self : Note) : M bool := os_path_isfile (note_path self).

Definition delete (self : Note) : M unit := os_remove (note_path self).

End Note.

Module Notebook.

Definition set_template (self : Notebook) (t : Template) : Notebook :=
  {| nb_tld := nb_tld self; nb_name := nb_name self; nb_path := nb_path self;
     nb_template := Some t |}.

(** [Notebook._assert_existence]: the object as it is left. *)
Definition _assert_existence (self : Notebook) (prompt_create : bool) : M Notebook :=
  let* present := check_directory (nb_path self) in
  if present : bool then ret self
  else if prompt_create then
    let* created := create_directory (nb_path self) in
    if negb created then
      let* _ := print_err ("Cannot continue without creating " +:+ nb_name self) in
      sys_exit 1
    else
      let* t := Template.init (nb_tld self) (nb_name self) true in
      ret (set_template self t)
  else
    let* _ := print_err ("Notebook " +:+ nb_name self +:+ " does not exist") in
    sys_exit 1.

(** [Notebook.__init__] *)
Definition init (tld : Fs.path) (notebook : string) (prompt_create : bool) : M Notebook :=
  _assert_existence
    {| nb_tld := tld; nb_name := notebook; nb_path := Fs.join tld notebook;
       nb_template := None |}
    prompt_create.

(** The property [Notebook.template]: the template and the object as
    it is left, with the template remembered. *)
Definition template (self : Notebook) : M (Template * Notebook) :=
  match nb_template self with
  | Some t => ret (t, self)
  | None =>
      let* t := Template.init (nb_tld self) (nb_name self) false in
      ret (t, set_template self t)
  end.

(** [sorted] on names: the ascending arrangement by character code. *)
Definition sorted (l : list string) : list string := merge_sort String.le l.

(** [Notebook.sift] *)
Definition sift (self : Notebook) : M (list Note) :=
  let* names := os_listdir (nb_path self) in
  ret (Note.init self <$> sorted names).

(** [Notebook.find] *)
Definition find (self : Notebook) (note : string) : M (option Note) :=
  let path := Fs.join (nb_path self) note in
  let* present := os_path_isfile path in
  if present : bool then ret (Some (Note.init self note)) else ret None.

(** [Notebook.empty] *)
Definition empty (self : Notebook) : M bool :=
  let* names := os_listdir (nb_path self) in
  ret (bool_decide (names = [])).

(** [Notebook.delete] *)
Definition delete (self : Notebook) : M Notebook :=
  let* _ := shutil_rmtree (nb_path self) in
  let* (t, self) := template self in
  let* _ := Template.delete t in
  ret self.

(** The loop of [Notebook.discover] over the names still to visit,
    [notebooks] being the list built so far.  A filter that is [None]
    lets every name through. *)
Fixpoint discover_loop (tld : Fs.path) (filt : option (string → bool))
    (names : list string) (notebooks : list Notebook) : M (list Notebook) :=
  match names with
  | [] => ret notebooks
  | d :: names' =>
      let* is_dir := os_path_isdir (Fs.join tld d) in
      if negb is_dir then discover_loop tld filt names' notebooks
      else if Str.startswith "." d || bool_decide (d = "templates") then
        discover_loop tld filt names' notebooks
      else if match filt with None => true | Some f => f d end then
        let* notebook := init tld d false in
        discover_loop tld filt names' (notebooks ++ [notebook])
      else discover_loop tld filt names' notebooks
  end.

(** [Notebook.discover] *)
Definition discover (tld : Fs.path) (filt : option (string → bool)) : M (list Notebook) :=
  let* names := os_listdir tld in
  discover_loop tld filt names [].

(** The loop of [Notebook.search]. *)
Fixpoint search_loop (note : string) (notebooks : list Notebook) (matches : list Note)
    : M (list Note) :=
  match notebooks with
  | [] => ret matches
  | notebook :: notebooks' =>
      let* found := find notebook note in
      match found with
      | Some n => search_loop note notebooks' (matches ++ [n])
      | None => search_loop note notebooks' matches
      end
  end.

(** [Notebook.search] *)
Definition search (tld : Fs.path) (note : string) : M (list Note) :=
  let* notebooks := discover tld None in
  search_loop note notebooks [].

End Notebook.

(** ** Finding a note *)

(** The truth value of the [notebook] argument: [None] and the empty
    string are falsy. *)
Definition truthy (notebook : option string) : bool :=
  match notebook with
  | Some s => negb (bool_decide (s = ""))
  | None => false
  end.

(** [find_note].  In the second branch the pair taken from the right
    of the name is unpacked into [notebook] and [note]; the unpacking
    raises [ValueError] unless it gets two items; of the two, the code
    goes on with [note] only. *)
Definition find_note (tld : Fs.path) (note : string) (notebook : option string)
    : M (option Note) :=
  if truthy notebook then
    let* nb := Notebook.init tld (default "" notebook) false in
    Notebook.find nb note
  else
    let* note :=
      (if Str.contains "/" note then
         match Str.last_two (Str.rsplit "/" 2 note) with
         | [_; note] => ret note
         | _ => raise ValueError
         end
       else ret note) in
    let* matches := Notebook.search tld note in
    match matches with
    | [] =>
        let* _ := print_err ("Found no match for " +:+ note) in
        sys_exit 1
    | [m] => ret (Some m)
    | _ :: _ :: _ =>
        let* _ := print_err "Found more than one match, specify notebook to disambiguate." in
        sys_exit 1
    end.

(** ** Version control and deletion *)

Record Git : Type := {
  git_tld : Fs.path;
  git_path : string
}.

Module Git.

(** [Git._run_silent] and [Git._run_capture]: the exit code and what
    the program wrote. *)
Definition _run (self : Git) (command : git_cmd) : M (Z * string) :=
  λ w, let '(code, out, n) := git_call (proc w) command (fs w) in
       (Ret (code, out), with_fs n w).

Definition rm (self : Git) (filename : Fs.path) (recursive : bool) : M Z :=
  let* (code, _) := _run self (GitRm filename recursive) in ret code.

Definition commit (self : Git) : M unit :=
  let* _ := _run self GitCommit in ret ().

Definition is_tracked (self : Git) (path : Fs.path) : M bool :=
  let* (_, paths) := _run self (GitLsFiles path) in
  ret (negb (bool_decide (paths = ""))).

End Git.

(** [git_prompt_delete] for a note. *)
Definition git_prompt_delete_note (target : Note) : M bool :=
  yesno ("Git rm the note " +:+ note_name target +:+ "?") "yes".

(** The last statement of [_delete_note]: with version control on, a
    note that is tracked is removed from it and the removal committed,
    if the user agrees. *)
Definition git_rm_note (git : option Git) (note : Note) : M unit :=
  match git with
  | None => ret ()
  | Some g =>
      let* tracked := Git.is_tracked g (note_path note) in
      if negb tracked then ret ()
      else
        let* yes := git_prompt_delete_note note in
        if negb yes then ret ()
        else
          let* _ := Git.rm g (note_path note) false in
          Git.commit g
  end.

(** [_delete_note], with [args.note] as [note_arg]. *)
Definition _delete_note (note_arg : string) (tld : Fs.path) (git : option Git)
    (notebook : Notebook) : M unit :=
  let* found := Notebook.find notebook note_arg in
  match found with
  | None =>
      let* _ := print "Unable to find note" in
      sys_exit 1
  | Some note =>
      let* delete :=
        yesno ("Are you sure you want to delete the note " +:+ note_name note) "yes" in
      if negb delete then ret ()
      else
        let* _ := Note.delete note in
        let* is_empty := Notebook.empty (note_notebook note) in
        let* _ := (if is_empty : bool then
                     let* _ := Notebook.delete (note_notebook note) in ret ()
                   else ret ()) in
        git_rm_note git note
  end.

(** ** Vocabulary of the statements *)

(** An entry name: not empty, not ["."] or [".."], no separator. *)
Definition plain (c : string) : Prop :=
  c ≠ "" ∧ c ≠ "." ∧ c ≠ ".." ∧ Str.contains "/" c = false.

Global Instance plain_dec c : Decision (plain c).
Proof. unfold plain. apply _. Defined.

(** Two nodes of the same kind: the same file, or two directories. *)
Definition same_kind (m m' : Fs.node) : Prop :=
  match m, m' with
  | Fs.File c, Fs.File c' => c = c'
  | Fs.Dir _, Fs.Dir _ => True
  | _, _ => False
  end.

(** The object [Notebook(tld, d)] of a directory that exists. *)
Definition mk_notebook (tld : Fs.path) (d : string) : Notebook :=
  {| nb_tld := tld; nb_name := d; nb_path := Fs.join tld d; nb_template := None |}.

(** Where the templates of the notebook [name] are kept. *)
Definition template_store (w : World) (tld : Fs.path) (name : string) : Fs.path :=
  Fs.join (Template.storage (environ w) tld) name.

(** The test the loop of [Notebook.discover] applies to a name. *)
Definition kept (n : Fs.node) (tld : Fs.path) (filt : option (string → bool))
    (d : string) : bool :=
  Fs.isdir n (Fs.join tld d)
  && negb (Str.startswith "." d)
  && negb (bool_decide (d = "templates"))
  && match filt with None => true | Some f => f d end.

(** The note a notebook contributes to a search. *)
Definition hit (n : Fs.node) (note : string) (nb : Notebook) : option Note :=
  if Fs.isfile n (Fs.join (nb_path nb) note) then Some (Note.init nb note) else None.

(** The two ways [find_note] gives up on a search. *)
Definition fails_NotFound {A} (r : outcome A * World) (w : World) (note : string) : Prop :=
  r = (SysExit 1, with_stderr (stderr w ++ ["Found no match for " +:+ note]) w).
Definition fails_Ambiguous {A} (r : outcome A * World) (w : World) : Prop :=
  r = (SysExit 1,
       with_stderr
         (stderr w ++ ["Found more than one match, specify notebook to disambiguate."]) w).

(** A text with a placeholder somewhere: [{{], a run of [\s\w]
    characters, [}}]. *)
Definition class_run (run : string) : Prop :=
  Re.span_class run = (run, "").
Definition has_placeholder (s : string) : Prop :=
  ∃ pre run post, class_run run ∧ s = pre +:+ "{{" +:+ run +:+ "}}" +:+ post.

(** Both files of the template pair named [name] are there. *)
Definition pair_present (n : Fs.node) (self : Template) (name : string) : bool :=
  Fs.isfile n (Template.template_file self name)
  && Fs.isfile n (Template.runnable_file self name).

(** The lookup of a placeholder's function ends in an error: no such
    attribute, an attribute that cannot be called, or a call that
    raises. *)
Definition lookup_fails (self : Template) (note_name : string) (token : string) : Prop :=
  match t_runner self with
  | Some runner =>
      match runner !! Str.strip (Str.slice_2_m2 token) with
      | Some (Callable f) => f (t_tld self) (t_notebook self) note_name = Raises
      | Some NotCallable => True
      | None => True
      end
  | None => True
  end.

(** ** Worlds for the examples *)

Definition idle_proc : Proc :=
  {| editor_call := λ _ _ n, Some n;
     git_call := λ _ n, (0%Z, "", n);
     exec_module := λ _ _, Some ∅ |}.

Definition world_of (n : Fs.node) (input : list string) : World :=
  {| fs := n; stdin := input; stdout := []; stderr := []; environ := ∅;
     proc := idle_proc |}.

(** Two notebooks with a note of the same name. *)
Definition standup_tree : Fs.node :=
  Fs.Dir [("notes",
           Fs.Dir [("work", Fs.Dir [("standup.md", Fs.File "w")]);
                   ("personal", Fs.Dir [("standup.md", Fs.File "p")])])].

(** A root whose listing is not in name order, with a file, a hidden
    directory and the template storage next to the notebooks. *)
Definition unsorted_tree : Fs.node :=
  Fs.Dir [("notes",
           Fs.Dir [("zeta", Fs.Dir [("b.md", Fs.File ""); ("a.md", Fs.File "")]);
                   ("README", Fs.File "");
                   (".git", Fs.Dir []);
                   ("templates", Fs.Dir []);
                   ("alpha", Fs.Dir [])])].

(** A notebook with one note and a template of its own. *)
Definition journal_tree : Fs.node :=
  Fs.Dir [("notes",
           Fs.Dir [("journal", Fs.Dir [("monday.md", Fs.File "text")]);
                   ("templates",
                    Fs.Dir [("journal",
                             Fs.Dir [("journal.txt", Fs.File "Day: {{day}}");
                                     ("journal.py", Fs.File "def day(nb, n): ...")]);
                            ("default",
                             Fs.Dir [("default.txt", Fs.File "Notes");
                                     ("default.py", Fs.File "")])])])].

(** The template of a notebook [scratch], as [Template.__init__]
    leaves it. *)
Definition scratch_template : Template :=
  {| t_tld := ["notes"]; t_notebook := "scratch"; t_dir := ["notes"; "templates"];
     t_prompt_create := false; t_resolved := false;
     t_template := None; t_runner := None |}.

(** A render unit with one function, [foo], that returns ["BAR"]. *)
Definition foo_runner : module :=
  {[ "foo" := Callable (λ _ _ _, Returns (PyStr "BAR")) ]}.

Definition loaded_template (text : string) (runner : module) : Template :=
  {| t_tld := ["notes"]; t_notebook := "work"; t_dir := ["notes"; "templates"];
     t_prompt_create := false; t_resolved := true;
     t_template := Some text; t_runner := Some runner |}.

(** ** More vocabulary *)

(** A line that [yesno] does not take for an answer: after stripping
    it is not empty and starts with none of [y], [Y], [n], [N]. *)
Definition undecided (line : string) : Prop :=
  Str.strip line ≠ "" ∧ match_yes (Str.strip line) = false
  ∧ match_no (Str.strip line) = false.

Global Instance undecided_dec line : Decision (undecided line).
Proof. unfold undecided. apply _. Defined.

(** The text [yesno] shows for a message and a default. *)
Definition yesno_text (message default : string) : string :=
  prompt_text (message +:+ " [" +:+ default +:+ "]").

(** A placeholder: two opening braces, a run of [\s\w] characters,
    two closing braces. *)
Definition is_placeholder (tok : string) : Prop :=
  ∃ run, class_run run ∧ tok = "{{" +:+ run +:+ "}}".

(** A list of items that starts with a literal span and goes on with
    placeholders and literal spans in turn, no literal span holding a
    placeholder. *)
Inductive alternating : list string → Prop :=
| alternating_last lit :
    ¬ has_placeholder lit → alternating [lit]
| alternating_more lit tok items :
    ¬ has_placeholder lit → is_placeholder tok → alternating items →
    alternating (lit :: tok :: items).

(** The literal spans and the placeholders of such a list, and the
    list with every placeholder replaced by a value. *)
Fixpoint literals (items : list string) : list string :=
  match items with
  | lit :: _ :: items' => lit :: literals items'
  | _ => items
  end.
Fixpoint placeholders (items : list string) : list string :=
  match items with
  | _ :: tok :: items' => tok :: placeholders items'
  | _ => []
  end.
Fixpoint fill (value : string → string) (items : list string) : list string :=
  match items with
  | lit :: tok :: items' => lit :: value tok :: fill value items'
  | _ => items
  end.

(** What the call made for a placeholder comes to, when its name is
    that of a callable of the render unit. *)
Definition call_hook (self : Template) (note_name : string) (token : string)
    : option call_result :=
  match t_runner self with
  | Some runner =>
      match runner !! Str.strip (Str.slice_2_m2 token) with
      | Some (Callable f) => Some (f (t_tld self) (t_notebook self) note_name)
      | _ => None
      end
  | None => None
  end.

(** A template with text and a unit with two functions: [day] returns
    a string, [broken] raises. *)
Definition day_runner : module :=
  {[ "day" := Callable (λ _ nb note, Returns (PyStr (nb +:+ ":" +:+ note)));
     "broken" := Callable (λ _ _ _, Raises) ]}.

(** A machine on which the source of that unit loads as that unit,
    and any other source as a unit with nothing in it. *)
Definition day_proc : Proc :=
  {| editor_call := λ _ _ n, Some n;
     git_call := λ _ n, (0%Z, "", n);
     exec_module := λ _ source,
       if decide (source = "def day(nb, n): ...") then Some day_runner else Some ∅ |}.

Definition day_world (n : Fs.node) (input : list string) : World :=
  {| fs := n; stdin := input; stdout := []; stderr := []; environ := ∅;
     proc := day_proc |}.

(** A root where only the pair named [default] is in the template
    storage. *)
Definition default_tree : Fs.node :=
  Fs.Dir [("notes",
           Fs.Dir [("scratch", Fs.Dir []);
                   ("templates",
                    Fs.Dir [("default",
                             Fs.Dir [("default.txt", Fs.File "Day {{ day }}!");
                                     ("default.py", Fs.File "def day(nb, n): ...")])])])].

(** The template of the notebook [journal] as [Template.__init__]
    leaves it when interactive creation is allowed. *)
Definition journal_template : Template :=
  {| t_tld := ["notes"]; t_notebook := "journal"; t_dir := ["notes"; "templates"];
     t_prompt_create := true; t_resolved := false;
     t_template := None; t_runner := None |}.



(** A machine on which no editor can be started. *)
Definition no_editor_proc : Proc :=
  {| editor_call := λ _ _ _, None;
     git_call := λ _ n, (0%Z, "", n);
     exec_module := λ _ _, Some ∅ |}.

Definition no_editor_world (n : Fs.node) (input : list string) : World :=
  {| fs := n; stdin := input; stdout := []; stderr := []; environ := ∅;
     proc := no_editor_proc |}.

(** ** More of the program: deleting a notebook *)



(** A notebook with two notes. *)
Definition pair_tree : Fs.node :=
  Fs.Dir [("notes",
           Fs.Dir [("journal", Fs.Dir [("monday.md", Fs.File "m");
                                       ("tuesday.md", Fs.File "t")])])].

(** No file stands where [os.makedirs] must find or make a directory:
    no path leading to [p], [p] included, is a file. *)
Definition clear_way (root : Fs.node) (p : Fs.path) : Prop :=
  ∀ q content, q `prefix_of` p → Fs.get root q ≠ Some (Fs.File content).

(** A root with nothing in it yet. *)
Definition bare_tree : Fs.node := Fs.Dir [("home", Fs.Dir [("README", Fs.File "hi")])].

(** ** More of the program: listing *)

(** Blocks of lines with a separator between them. *)
Fixpoint intercalate {A} (sep : list A) (blocks : list (list A)) : list A :=
  match blocks with
  | [] => []
  | [b] => b
  | b :: blocks' => b ++ sep ++ intercalate sep blocks'
  end.

(** The mark [command_list] puts before a note. *)
Definition decoration_of (decorate : bool) (git : option Git) (note : Note) : M string :=
  if decorate then
    match git with
    | Some g =>
        let* tracked := Git.is_tracked g (note_path note) in
        ret (if tracked : bool then "[t] " else "[u] ")
    | None => ret "[u] "
    end
  else ret "".

(** The inner loop of [command_list], over the notes of a notebook. *)
Fixpoint list_notes (decorate oneline : bool) (git : option Git) (notebook : Notebook)
    (notes : list Note) : M unit :=
  match notes with
  | [] => ret ()
  | note :: notes' =>
      let* decoration := decoration_of decorate git note in
      let* _ :=
        (if oneline then
           print (decoration +:+ nb_name notebook +:+ "/" +:+ note_name note)
         else print ("  * " +:+ decoration +:+ note_name note)) in
      list_notes decorate oneline git notebook notes'
  end.

(** The outer loop of [command_list], [i] being the index
    [enumerate] gives the first notebook of the list. *)
Fixpoint list_notebooks (decorate oneline : bool) (git : option Git)
    (n_notebooks i : nat) (notebooks : list Notebook) : M unit :=
  match notebooks with
  | [] => ret ()
  | notebook :: notebooks' =>
      let* _ := (if negb oneline then print (nb_name notebook +:+ "/") else ret ()) in
      let* notes := Notebook.sift notebook in
      let* _ := list_notes decorate oneline git notebook notes in
      let* _ :=
        (if negb oneline && negb (i =? n_notebooks - 1)%nat then print "" else ret ()) in
      list_notebooks decorate oneline git n_notebooks (S i) notebooks'
  end.

(** [command_list], with [args.notebook], [args.decorate] and
    [args.oneline].  What [get_git_config] asks and runs is a matter of
    the machine; it is a parameter. *)
Definition command_list (get_git_config : Fs.path → M (option Git))
    (notebook : option string) (decorate oneline : bool) (tld : Fs.path) : M unit :=
  let filter_by_name (candidate : string) : bool :=
    negb (truthy notebook) || bool_decide (candidate = default "" notebook) in
  let* git := get_git_config tld in
  let* notebooks := Notebook.discover tld (Some filter_by_name) in
  if bool_decide (notebooks = []) then sys_exit 1
  else list_notebooks decorate oneline git (length notebooks) 0 notebooks.

(** The names [os.listdir] gives for a directory, none for what is
    not one. *)
Definition entries (n : Fs.node) (p : Fs.path) : list string :=
  default [] (Fs.listdir n p).

(** A configuration step that finds version control switched off. *)
Definition git_off (tld : Fs.path) : M (option Git) := ret None.

(** The line for a note when no note is marked as tracked, the block
    of lines for a notebook, and the whole listing: in the long form a
    header per notebook and an empty line between notebooks. *)
Definition note_line (decorate oneline : bool) (d name : string) : string :=
  let decoration := if decorate then "[u] " else "" in
  if oneline then decoration +:+ d +:+ "/" +:+ name
  else "  * " +:+ decoration +:+ name.

Definition notebook_block (decorate oneline : bool) (n : Fs.node) (tld : Fs.path)
    (d : string) : list string :=
  let lines := note_line decorate oneline d <$> Notebook.sorted (entries n (Fs.join tld d)) in
  if oneline then lines else (d +:+ "/") :: lines.

Definition listing (decorate oneline : bool) (n : Fs.node) (tld : Fs.path)
    (shown : list string) : list string :=
  intercalate (if oneline then [] else [""])
    (notebook_block decorate oneline n tld <$> shown).

(** * Properties *)

#[local] Arguments Str.startswith : simpl never.
#[local] Arguments Str.split : simpl never.
#[local] Arguments Str.rsplit : simpl never.
#[local] Arguments Str.strip : simpl never.
#[local] Arguments Str.slice_2_m2 : simpl never.
#[local] Arguments Fs.join : simpl never.
#[local] Arguments Fs.stat : simpl never.
#[local] Arguments Fs.isdir : simpl never.
#[local] Arguments Fs.isfile : simpl never.
#[local] Arguments Fs.exists_ : simpl never.
#[local] Arguments Fs.listdir : simpl never.
#[local] Arguments String.append : simpl never.

(** ** The model at work *)

Example rsplit_three : Str.rsplit "/" 2 "a/b/c/d" = ["a/b"; "c"; "d"].
Proof. reflexivity. Qed.
Example rsplit_one : Str.rsplit "/" 2 "work/standup.md" = ["work"; "standup.md"].
Proof. reflexivity. Qed.
Example rsplit_trailing : Str.rsplit "/" 2 "a/" = ["a"; ""].
Proof. reflexivity. Qed.
Example rsplit_bare : Str.rsplit "/" 2 "abc" = ["abc"].
Proof. reflexivity. Qed.
Example split_absolute : Str.split "/" "/home/u/" = [""; "home"; "u"; ""].
Proof. reflexivity. Qed.
Example strip_both : Str.strip "  now " = "now".
Proof. reflexivity. Qed.
Example slice_token : Str.slice_2_m2 "{{ now }}" = " now ".
Proof. reflexivity. Qed.
Example slice_short : Str.slice_2_m2 "{{x" = "".
Proof. reflexivity. Qed.
Example split_tokens :
  Re.split "Hello {{ now }} and {{missing_fn}}! {{a-b}} {{{x}}" =
    ["Hello "; "{{ now }}"; " and "; "{{missing_fn}}"; "! {{a-b}} {"; "{{x}}"; ""].
Proof. reflexivity. Qed.
Example sorted_by_code : Notebook.sorted ["b"; "a"; "B"; "ab"] = ["B"; "a"; "ab"; "b"].
Proof. reflexivity. Qed.
Example walk_up_and_down :
  Fs.isfile standup_tree (Fs.join ["notes"] "work/../personal/./standup.md") = true
  ∧ Fs.isfile standup_tree (Fs.join ["notes"] "nope/../work/standup.md") = false
  ∧ Fs.exists_ standup_tree (Fs.join ["notes"] "work/standup.md/") = false.
Proof. repeat split. Qed.
Example yesno_asks_again :
  (yesno "ok?" "yes" (world_of standup_tree ["maybe"; " No "; "y"])).1 = Ret false
  ∧ stdin (yesno "ok?" "yes" (world_of standup_tree ["maybe"; " No "; "y"])).2 = ["y"].
Proof. split; reflexivity. Qed.

(** ** Strings *)

Section strings.
Implicit Types (s : string) (c sep : ascii).

Lemma contains_rev_app c s1 s2 :
  Str.contains c (String.rev_app s1 s2) = Str.contains c s1 || Str.contains c s2.
Proof.
  revert s2. induction s1 as [|a s1 IH]; intros s2; simpl; [done|].
  rewrite IH. simpl. destruct (Ascii.eqb a c); simpl.
  - by rewrite orb_true_r.
  - done.
Qed.

Lemma contains_rev c s : Str.contains c (String.rev s) = Str.contains c s.
Proof. unfold String.rev. rewrite contains_rev_app. simpl. by rewrite orb_false_r. Qed.

Lemma split_max_bare sep n s :
  Str.contains sep s = false → Str.split_max sep n s = [s].
Proof.
  induction s as [|a s IH]; simpl; [done|].
  destruct (Ascii.eqb a sep); [done|]. intros H. by rewrite IH.
Qed.

Lemma split_max_cut sep n s :
  Str.contains sep s = true →
  ∃ h t, Str.split_max sep (S n) s = h :: t ∧ t ≠ [] ∧ Str.contains sep h = false.
Proof.
  induction s as [|a s IH]; simpl; [done|].
  destruct (Ascii.eqb a sep) eqn:Ha.
  - intros _. exists "", (Str.split_max sep n s). split; [done|]. split; [|done].
    destruct s as [|b s]; simpl; [done|].
    destruct (Ascii.eqb b sep); [by destruct n|by destruct (Str.split_max sep n s)].
  - intros H. destruct (IH H) as (h & t & Hs & Ht & Hh).
    simpl in Hs. rewrite Hs. exists (String a h), t. simpl. by rewrite Ha.
Qed.

Lemma split_bare s : Str.contains "/" s = false → Str.split "/" s = [s].
Proof. apply split_max_bare. Qed.

Lemma last_two_snoc {A} (l : list A) (x y : A) :
  Str.last_two (l ++ [x; y]) = [x; y].
Proof.
  unfold Str.last_two. rewrite length_app. simpl.
  replace (length l + 2 - 2) with (length l) by lia.
  by rewrite drop_app_length.
Qed.

(** A name with a separator always splits into at least two items;
    the last two are a pair whose second item has no separator. *)
Lemma rsplit_pair s :
  Str.contains "/" s = true →
  ∃ a b, Str.last_two (Str.rsplit "/" 2 s) = [a; b] ∧ Str.contains "/" b = false.
Proof.
  intros H. rewrite <-contains_rev in H.
  destruct (split_max_cut "/" 1 _ H) as (h & t & Hs & Ht & Hh).
  unfold Str.rsplit. rewrite Hs. rewrite fmap_cons, reverse_cons.
  destruct (reverse (String.rev <$> t)) as [|x l _] eqn:Hr using rev_ind.
  { apply (f_equal reverse) in Hr. rewrite reverse_involutive in Hr.
    by destruct t. }
  exists x, (String.rev h). rewrite <-(assoc_L (++)). simpl.
  split; [apply last_two_snoc|by rewrite contains_rev].
Qed.

End strings.

(** ** Notebooks: construction, discovery, search *)

Section notebooks.
Implicit Types (w : World) (tld : Fs.path) (d note : string) (nb : Notebook).

Lemma isdir_exists n p : Fs.isdir n p = true → Fs.exists_ n p = true.
Proof. unfold Fs.isdir, Fs.exists_. by destruct (Fs.stat n p) as [[]|]. Qed.

Lemma isfile_exists n p : Fs.isfile n p = true → Fs.exists_ n p = true.
Proof. unfold Fs.isfile, Fs.exists_. by destruct (Fs.stat n p) as [[]|]. Qed.

Lemma init_existing w tld d :
  Fs.exists_ (fs w) (Fs.join tld d) = true →
  Notebook.init tld d false w = (Ret (mk_notebook tld d), w).
Proof.
  intros H. unfold Notebook.init, Notebook._assert_existence, bind,
    check_directory, os_path_exists. simpl. by rewrite H.
Qed.

Lemma init_missing w tld d :
  Fs.exists_ (fs w) (Fs.join tld d) = false →
  Notebook.init tld d false w =
    (SysExit 1, with_stderr (stderr w ++ ["Notebook " +:+ d +:+ " does not exist"]) w).
Proof.
  intros H. unfold Notebook.init, Notebook._assert_existence, bind,
    check_directory, os_path_exists. simpl. by rewrite H.
Qed.

Lemma find_eval w nb note :
  Notebook.find nb note w =
    (Ret (if Fs.isfile (fs w) (Fs.join (nb_path nb) note)
          then Some (Note.init nb note) else None), w).
Proof.
  unfold Notebook.find, bind, os_path_isfile. simpl.
  by destruct (Fs.isfile _ _).
Qed.

Lemma discover_loop_eval w tld filt names acc :
  Notebook.discover_loop tld filt names acc w =
    (Ret (acc ++ (mk_notebook tld <$> filter (λ d, kept (fs w) tld filt d = true) names)), w).
Proof.
  revert acc. induction names as [|d names IH]; intros acc; simpl.
  { by rewrite app_nil_r. }
  unfold bind at 1, os_path_isdir at 1. unfold kept at 1.
  destruct (Fs.isdir (fs w) (Fs.join tld d)) eqn:Hd; simpl.
  2:{ rewrite IH. rewrite filter_cons_False; [done|].
      unfold kept. rewrite Hd. simpl. done. }
  destruct (Str.startswith "." d) eqn:Hdot; simpl.
  { rewrite IH. rewrite filter_cons_False; [done|].
    unfold kept. rewrite Hd, Hdot. simpl. done. }
  destruct (bool_decide (d = "templates")) eqn:Ht; simpl.
  { rewrite IH. rewrite filter_cons_False; [done|].
    unfold kept. rewrite Hd, Hdot, Ht. simpl. done. }
  destruct (match filt with Some f => f d | None => true end) eqn:Hf.
  - unfold bind. rewrite init_existing by by apply isdir_exists.
    rewrite IH. rewrite filter_cons_True.
    + by rewrite fmap_cons, <-(assoc_L (++)).
    + unfold kept. by rewrite Hd, Hdot, Ht, Hf.
  - rewrite IH. rewrite filter_cons_False; [done|].
    unfold kept. rewrite Hd, Hdot, Ht, Hf. simpl. done.
Qed.

Lemma discover_eval w tld filt names :
  Fs.listdir (fs w) tld = Some names →
  Notebook.discover tld filt w =
    (Ret (mk_notebook tld <$> filter (λ d, kept (fs w) tld filt d = true) names), w).
Proof.
  intros H. unfold Notebook.discover, bind, os_listdir. rewrite H.
  by rewrite discover_loop_eval.
Qed.

Lemma discover_no_root w tld filt :
  Fs.listdir (fs w) tld = None →
  Notebook.discover tld filt w = (Raise OSError, w).
Proof. intros H. unfold Notebook.discover, bind, os_listdir. by rewrite H. Qed.

Lemma search_loop_eval w note nbs acc :
  Notebook.search_loop note nbs acc w = (Ret (acc ++ omap (hit (fs w) note) nbs), w).
Proof.
  revert acc. induction nbs as [|nb nbs IH]; intros acc; simpl.
  { by rewrite app_nil_r. }
  unfold bind at 1. rewrite find_eval. fold (hit (fs w) note nb).
  destruct (hit (fs w) note nb); rewrite IH; [|done].
  by rewrite <-(assoc_L (++)).
Qed.

Lemma search_eval w tld note names :
  Fs.listdir (fs w) tld = Some names →
  Notebook.search tld note w =
    (Ret (omap (hit (fs w) note)
            (mk_notebook tld <$> filter (λ d, kept (fs w) tld None d = true) names)), w).
Proof.
  intros H. unfold Notebook.search, bind. rewrite (discover_eval _ _ _ _ H).
  by rewrite search_loop_eval.
Qed.

End notebooks.

(** ** Counting matches *)

Section matches.
Context {A B : Type} (f : A → option B).

Lemma omap_cons (z : A) (l : list A) :
  omap f (z :: l) = match f z with Some y => y :: omap f l | None => omap f l end.
Proof. done. Qed.

Lemma omap_none (l : list A) : (∀ x, x ∈ l → f x = None) → omap f l = [].
Proof.
  induction l as [|z l IH]; intros H; [done|]. rewrite omap_cons.
  rewrite (H z) by left. apply IH. intros x Hx. apply H. by right.
Qed.

Lemma omap_two (l : list A) (x y : A) :
  x ∈ l → y ∈ l → x ≠ y → is_Some (f x) → is_Some (f y) →
  ∃ a b r, omap f l = a :: b :: r.
Proof.
  intros Hx Hy Hne [vx Hvx] [vy Hvy].
  induction l as [|z l IH]; [by apply elem_of_nil in Hx|].
  assert (Hin : ∀ u v, u ∈ l → f u = Some v → ∃ b r, omap f l = b :: r).
  { intros u v Hu Hv.
    assert (v ∈ omap f l) as Hm by (apply list_elem_of_omap; eauto).
    destruct (omap f l) as [|b r]; [by apply elem_of_nil in Hm|eauto]. }
  rewrite omap_cons.
  apply elem_of_cons in Hx as [->|Hx]; apply elem_of_cons in Hy as [Hy|Hy].
  - congruence.
  - rewrite Hvx. destruct (Hin _ _ Hy Hvy) as (b & r & ->). eauto.
  - subst z. rewrite Hvy. destruct (Hin _ _ Hx Hvx) as (b & r & ->). eauto.
  - destruct (f z) as [vz|].
    + destruct (Hin _ _ Hx Hvx) as (b & r & ->). eauto.
    + by apply IH.
Qed.

Lemma omap_one (l : list A) (x : A) (v : B) :
  NoDup l → x ∈ l → f x = Some v →
  (∀ y, y ∈ l → is_Some (f y) → y = x) →
  omap f l = [v].
Proof.
  intros Hnd Hx Hv Huniq.
  induction Hnd as [|z l Hz Hnd IH]; [by apply elem_of_nil in Hx|].
  rewrite omap_cons. apply elem_of_cons in Hx as [->|Hx].
  - rewrite Hv. f_equal. apply omap_none. intros y Hy.
    destruct (f y) eqn:Hfy; [|done].
    assert (y = z) as -> by (apply Huniq; [by right|eauto]). done.
  - destruct (f z) eqn:Hfz.
    + assert (z = x) as -> by (apply Huniq; [by left|eauto]). done.
    + apply IH; [done|]. intros y Hy. apply Huniq. by right.
Qed.

End matches.

(** ** Resolving a note *)

Section find_note.
Implicit Types (w : World) (tld : Fs.path) (note : string) (nb : Notebook).

Lemma kept_iff n tld filt d :
  kept n tld filt d = true ↔
    Fs.isdir n (Fs.join tld d) = true ∧ Str.startswith "." d = false
    ∧ d ≠ "templates" ∧ (∀ f, filt = Some f → f d = true).
Proof.
  unfold kept. rewrite !andb_true_iff, !negb_true_iff, bool_decide_eq_false.
  split.
  - intros (((H1 & H2) & H3) & H4). repeat split; try done.
    intros f ->. done.
  - intros (H1 & H2 & H3 & H4). repeat split; try done.
    destruct filt as [f|]; [by apply H4|done].
Qed.

Lemma hit_isfile n note nb :
  is_Some (hit n note nb) ↔ Fs.isfile n (Fs.join (nb_path nb) note) = true.
Proof. unfold hit. destruct (Fs.isfile _ _); split; try done; by intros [? ?]. Qed.

Lemma hit_Some n note nb :
  Fs.isfile n (Fs.join (nb_path nb) note) = true → hit n note nb = Some (Note.init nb note).
Proof. unfold hit. by intros ->. Qed.

(** The notebooks a search goes through, by their names. *)
Lemma searched_iff n tld (names : list string) d :
  mk_notebook tld d ∈ (mk_notebook tld <$> filter (λ d, kept n tld None d = true) names) ↔
    d ∈ names ∧ Fs.isdir n (Fs.join tld d) = true
    ∧ Str.startswith "." d = false ∧ d ≠ "templates".
Proof.
  rewrite list_elem_of_fmap. split.
  - intros (d' & Heq & Hin). inv Heq.
    apply list_elem_of_filter in Hin as [Hk Hin].
    apply kept_iff in Hk as (H1 & H2 & H3 & _). done.
  - intros (Hin & H1 & H2 & H3). exists d. split; [done|].
    apply list_elem_of_filter. split; [|done]. apply kept_iff. done.
Qed.

Lemma mk_notebook_inj tld : Inj (=) (=) (mk_notebook tld).
Proof. intros d1 d2 H. by inv H. Qed.

(** A hint that is [None] or empty is no hint. *)
Lemma find_note_falsy_hint w tld note hint :
  truthy hint = false → find_note tld note hint w = find_note tld note None w.
Proof. intros H. unfold find_note. by rewrite H. Qed.

(** The search a call without a hint makes for a name without a
    separator. *)
Lemma find_note_search w tld note names :
  Fs.listdir (fs w) tld = Some names →
  Str.contains "/" note = false →
  find_note tld note None w =
    match omap (hit (fs w) note)
            (mk_notebook tld <$> filter (λ d, kept (fs w) tld None d = true) names) with
    | [] => (SysExit 1, with_stderr (stderr w ++ ["Found no match for " +:+ note]) w)
    | [m] => (Ret (Some m), w)
    | _ :: _ :: _ =>
        (SysExit 1,
         with_stderr
           (stderr w ++ ["Found more than one match, specify notebook to disambiguate."]) w)
    end.
Proof.
  intros Hls Hbare. unfold find_note. simpl. rewrite Hbare.
  unfold bind at 1. unfold ret at 1. unfold bind at 1.
  rewrite (search_eval _ _ _ _ Hls).
  by destruct (omap _ _) as [|m [|m' ms]].
Qed.

(** C2.  Without a hint ([None], or the empty string), a name with
    no separator is looked up in every notebook of the root, that is in
    every entry of the root that is a directory, does not start with a
    dot and is not [templates].  With a file of that name in none of
    them the call ends with "Found no match" and exit status 1; with
    one in two distinct notebooks it ends with "Found more than one
    match" and exit status 1; with one in exactly one notebook it
    returns the note of that notebook. *)
Theorem find_note_bare w tld note hint names :
  Fs.listdir (fs w) tld = Some names →
  NoDup names →
  truthy hint = false →
  Str.contains "/" note = false →
  let holder := λ d : string,
    d ∈ names ∧ Fs.isdir (fs w) (Fs.join tld d) = true
    ∧ Str.startswith "." d = false ∧ d ≠ "templates"
    ∧ Fs.isfile (fs w) (Fs.join (Fs.join tld d) note) = true in
  ((∀ d, ¬ holder d) →
     fails_NotFound (find_note tld note hint w) w note)
  ∧ ((∃ d1 d2, d1 ≠ d2 ∧ holder d1 ∧ holder d2) →
     fails_Ambiguous (find_note tld note hint w) w)
  ∧ (∀ d, holder d → (∀ d', holder d' → d' = d) →
       find_note tld note hint w =
         (Ret (Some {| note_name := note;
                       note_notebook := mk_notebook tld d;
                       note_path := Fs.join (Fs.join tld d) note |}), w)).
Proof.
  intros Hls Hnd Hhint Hbare holder. rewrite (find_note_falsy_hint _ _ _ _ Hhint).
  rewrite (find_note_search _ _ _ _ Hls Hbare).
  set (nbs := mk_notebook tld <$> _).
  assert (Hin : ∀ nb, nb ∈ nbs → ∃ d, nb = mk_notebook tld d ∧ mk_notebook tld d ∈ nbs).
  { intros nb Hnb. pose proof Hnb as Hnb'.
    apply list_elem_of_fmap in Hnb' as (d & -> & _). eauto. }
  assert (Hholder : ∀ d, holder d ↔
            mk_notebook tld d ∈ nbs ∧ is_Some (hit (fs w) note (mk_notebook tld d))).
  { intros d. unfold holder, nbs. rewrite searched_iff, hit_isfile.
    cbn [nb_path mk_notebook]. tauto. }
  split; [|split].
  - intros Hnone. unfold fails_NotFound. rewrite omap_none; [done|].
    intros nb Hnb. destruct (hit (fs w) note nb) eqn:Hh; [|done].
    exfalso. destruct (Hin nb Hnb) as (d & -> & Hd).
    apply (Hnone d). apply Hholder. rewrite Hh. eauto.
  - intros (d1 & d2 & Hne & H1 & H2). unfold fails_Ambiguous.
    apply Hholder in H1 as [H1 Hh1]. apply Hholder in H2 as [H2 Hh2].
    destruct (omap_two (hit (fs w) note) nbs (mk_notebook tld d1) (mk_notebook tld d2))
      as (a & b & r & ->); try done.
    intros Heq. by apply (mk_notebook_inj tld) in Heq.
  - intros d Hd Huniq. apply Hholder in Hd as [Hd Hh].
    rewrite (omap_one (hit (fs w) note) nbs (mk_notebook tld d)
               (Note.init (mk_notebook tld d) note)); try done.
    + pose proof (mk_notebook_inj tld). apply (NoDup_fmap_2 _). by apply NoDup_filter.
    + apply hit_Some. by apply hit_isfile.
    + intros nb' Hnb' Hs. destruct (Hin nb' Hnb') as (d' & -> & Hd').
      f_equal. apply Huniq. apply Hholder. done.
Qed.

End find_note.

Section find_note_cases.
Implicit Types (w : World) (tld : Fs.path) (note hint : string).

Lemma find_note_bare_witness :
  fails_NotFound
    (find_note ["notes"] "nosuch.md" None (world_of standup_tree []))
    (world_of standup_tree []) "nosuch.md"
  ∧ fails_Ambiguous
      (find_note ["notes"] "standup.md" None (world_of standup_tree []))
      (world_of standup_tree [])
  ∧ find_note ["notes"] "b.md" None (world_of unsorted_tree []) =
      (Ret (Some {| note_name := "b.md";
                    note_notebook := mk_notebook ["notes"] "zeta";
                    note_path := ["notes"; "zeta"; "b.md"] |}),
       world_of unsorted_tree []).
Proof.
  split; [|split].
  - destruct (find_note_bare (world_of standup_tree []) ["notes"] "nosuch.md" None
                ["work"; "personal"]) as (H & _).
    + reflexivity.
    + apply (bool_decide_unpack _). vm_compute. exact I.
    + reflexivity.
    + reflexivity.
    + apply H. intros d (Hin & _ & _ & _ & Hf).
      set_unfold in Hin. destruct Hin as [->|[->|[]]]; discriminate Hf.
  - destruct (find_note_bare (world_of standup_tree []) ["notes"] "standup.md" None
                ["work"; "personal"]) as (_ & H & _).
    + reflexivity.
    + apply (bool_decide_unpack _). vm_compute. exact I.
    + reflexivity.
    + reflexivity.
    + apply H. exists "work", "personal". split; [discriminate|].
      split; (split; [set_solver|]); repeat split; discriminate.
  - destruct (find_note_bare (world_of unsorted_tree []) ["notes"] "b.md" None
                ["zeta"; "README"; ".git"; "templates"; "alpha"]) as (_ & _ & H).
    + reflexivity.
    + apply (bool_decide_unpack _). vm_compute. exact I.
    + reflexivity.
    + reflexivity.
    + apply (H "zeta").
      * split; [set_solver|]. repeat split; discriminate.
      * intros d (Hin & Hd & Hdot & Ht & Hf).
        set_unfold in Hin.
        destruct Hin as [->|[->|[->|[->|[->|[]]]]]];
          try done; try discriminate Hd; try discriminate Hdot; try discriminate Hf.
Defined.

(** C1.  In the scenario of the two notebooks [work] and [personal]
    that each hold [standup.md], the bare name ends the call with
    "Found more than one match" and exit status 1, and so does the
    qualified name [work/standup.md]: the notebook taken from the
    qualified name is not used, and the search runs over every
    notebook for [standup.md]. *)
Theorem find_note_standup_scenario :
  let w := world_of standup_tree [] in
  fails_Ambiguous (find_note ["notes"] "standup.md" None w) w
  ∧ Str.last_two (Str.rsplit "/" 2 "work/standup.md") = ["work"; "standup.md"]
  ∧ fails_Ambiguous (find_note ["notes"] "work/standup.md" None w) w
  ∧ find_note ["notes"] "work/standup.md" None w ≠
      (Ret (Some (Note.init (mk_notebook ["notes"] "work") "standup.md")), w).
Proof.
  repeat split; try (vm_compute; reflexivity).
  vm_compute. discriminate.
Qed.

(** A qualified name is searched for as its last segment. *)
Lemma find_note_qualified w tld note a b :
  Str.contains "/" note = true →
  Str.last_two (Str.rsplit "/" 2 note) = [a; b] →
  Str.contains "/" b = false →
  find_note tld note None w = find_note tld b None w.
Proof.
  intros Hs Hp Hb. unfold find_note. simpl. by rewrite Hs, Hp, Hb.
Qed.

Lemma find_note_no_ValueError w tld note :
  Str.contains "/" note = true →
  (find_note tld note None w).1 ≠ Raise ValueError.
Proof.
  intros Hs. destruct (rsplit_pair note Hs) as (a & b & Hp & Hb).
  rewrite (find_note_qualified w tld note a b Hs Hp Hb).
  unfold find_note. simpl. rewrite Hb.
  unfold bind at 1. unfold ret at 1. unfold bind at 1.
  destruct (Notebook.search tld b w) as [[ms| |e] w'] eqn:Hsearch; simpl.
  - destruct ms as [|m [|m' ms]]; simpl; discriminate.
  - discriminate.
  - unfold Notebook.search, bind in Hsearch.
    destruct (Fs.listdir (fs w) tld) as [names|] eqn:Hls.
    + rewrite (discover_eval _ _ _ _ Hls), search_loop_eval in Hsearch.
      discriminate.
    + rewrite (discover_no_root _ _ _ Hls) in Hsearch.
      injection Hsearch as <- <-. discriminate.
Qed.

(** C6, as amended.  A name that contains a separator always yields
    two segments when the last two items of its split from the right
    are taken: the unpacking cannot raise, and the call never ends with
    the fault of a malformed name. *)
Theorem find_note_never_malformed w tld note :
  Str.contains "/" note = true →
  length (Str.last_two (Str.rsplit "/" 2 note)) = 2
  ∧ (find_note tld note None w).1 ≠ Raise ValueError.
Proof.
  intros Hs. destruct (rsplit_pair note Hs) as (a & b & Hp & Hb).
  split; [by rewrite Hp|]. by apply find_note_no_ValueError.
Qed.

Lemma find_note_never_malformed_witness :
  length (Str.last_two (Str.rsplit "/" 2 "/")) = 2
  ∧ (find_note ["notes"] "/" None (world_of standup_tree [])).1 ≠ Raise ValueError.
Proof.
  apply (find_note_never_malformed (world_of standup_tree []) ["notes"] "/").
  reflexivity.
Defined.

(** C6, as stated, fails: no name with a separator splits into fewer
    than two segments, and none makes the unpacking raise. *)
Lemma find_note_malformed_impossible :
  ¬ ∃ w tld note,
      Str.contains "/" note = true
      ∧ (length (Str.last_two (Str.rsplit "/" 2 note)) < 2
         ∨ (find_note tld note None w).1 = Raise ValueError).
Proof.
  intros (w & tld & note & Hs & H).
  destruct (rsplit_pair note Hs) as (a & b & Hp & Hb).
  destruct H as [H|H].
  - rewrite Hp in H. simpl in H. lia.
  - by apply (find_note_no_ValueError w tld note).
Qed.

End find_note_cases.

(** ** A hint, and the order of discovery *)

Section hint_and_order.
Implicit Types (w : World) (tld : Fs.path) (note hint d : string).

Lemma with_stderr_inj w l1 l2 : with_stderr l1 w = with_stderr l2 w → l1 = l2.
Proof. unfold with_stderr. by intros [= ->]. Qed.

Lemma find_note_hint_existing w tld note hint :
  hint ≠ "" →
  Fs.exists_ (fs w) (Fs.join tld hint) = true →
  find_note tld note (Some hint) w = (Ret (hit (fs w) note (mk_notebook tld hint)), w).
Proof.
  intros Hne Hex. unfold find_note, truthy.
  rewrite bool_decide_eq_false_2 by done. simpl.
  unfold bind. rewrite init_existing by done. by rewrite find_eval.
Qed.

Lemma find_note_hint_missing w tld note hint :
  hint ≠ "" →
  Fs.exists_ (fs w) (Fs.join tld hint) = false →
  find_note tld note (Some hint) w =
    (SysExit 1, with_stderr (stderr w ++ ["Notebook " +:+ hint +:+ " does not exist"]) w).
Proof.
  intros Hne Hex. unfold find_note, truthy.
  rewrite bool_decide_eq_false_2 by done. simpl.
  unfold bind. by rewrite init_missing.
Qed.

(** C10, as amended.  With a hint that is not empty only the hinted
    notebook is looked at.  When its directory exists the call returns:
    the note if the notebook holds a file of that name, nothing
    otherwise.  When its directory does not exist the call ends with
    "Notebook ... does not exist" and exit status 1.  In no case does
    the call end as a search does, with "Found no match" or "Found more
    than one match". *)
Theorem find_note_hint w tld note hint :
  hint ≠ "" →
  (Fs.exists_ (fs w) (Fs.join tld hint) = true →
     find_note tld note (Some hint) w =
       (Ret (if Fs.isfile (fs w) (Fs.join (Fs.join tld hint) note)
             then Some (Note.init (mk_notebook tld hint) note) else None), w))
  ∧ (Fs.exists_ (fs w) (Fs.join tld hint) = false →
     find_note tld note (Some hint) w =
       (SysExit 1,
        with_stderr (stderr w ++ ["Notebook " +:+ hint +:+ " does not exist"]) w))
  ∧ ¬ fails_Ambiguous (find_note tld note (Some hint) w) w
  ∧ ¬ fails_NotFound (find_note tld note (Some hint) w) w note.
Proof.
  intros Hne. split; [|split].
  - intros Hex. by rewrite find_note_hint_existing.
  - intros Hex. by rewrite find_note_hint_missing.
  - unfold fails_Ambiguous, fails_NotFound.
    destruct (Fs.exists_ (fs w) (Fs.join tld hint)) eqn:Hex.
    + rewrite find_note_hint_existing by done. split; discriminate.
    + rewrite find_note_hint_missing by done.
      split; intros [= H%app_inv_head]; discriminate.
Qed.

Lemma find_note_hint_witness :
  find_note ["notes"] "standup.md" (Some "work") (world_of standup_tree []) =
    (Ret (Some (Note.init (mk_notebook ["notes"] "work") "standup.md")),
     world_of standup_tree []).
Proof.
  destruct (find_note_hint (world_of standup_tree []) ["notes"] "standup.md" "work")
    as (H & _); [discriminate|].
  rewrite H; reflexivity.
Defined.

(** C10, as stated, fails: a hint that names no directory does not
    make the call return nothing, it ends the process. *)
Lemma find_note_hint_unknown_notebook :
  let w := world_of standup_tree [] in
  Fs.isfile (fs w) (Fs.join (Fs.join ["notes"] "nope") "standup.md") = false
  ∧ find_note ["notes"] "standup.md" (Some "nope") w ≠ (Ret None, w)
  ∧ find_note ["notes"] "standup.md" (Some "nope") w =
      (SysExit 1, with_stderr ["Notebook nope does not exist"] w).
Proof.
  repeat split; try (vm_compute; reflexivity). vm_compute. discriminate.
Qed.

Lemma names_of_mk tld (l : list string) : nb_name <$> (mk_notebook tld <$> l) = l.
Proof. rewrite <-list_fmap_compose. induction l; simpl; f_equal; done. Qed.

Lemma StronglySorted_sublist {A} (R : relation A) (l1 l2 : list A) :
  l1 `sublist_of` l2 → StronglySorted R l2 → StronglySorted R l1.
Proof.
  induction 1 as [|x l1 l2 Hsub IH|x l1 l2 Hsub IH]; intros Hs.
  - constructor.
  - apply StronglySorted_inv in Hs as [Hs Hall]. constructor; [by apply IH|].
    rewrite Forall_forall in Hall |- *. intros y Hy. apply Hall.
    by eapply elem_of_sublist.
  - apply StronglySorted_inv in Hs as [Hs _]. by apply IH.
Qed.

(** C7, as amended.  Over a root that is a directory,
    [Notebook.discover] returns the notebooks of the names that pass,
    in the order of the directory listing: a name passes when it is a
    directory, does not start with a dot, is not [templates] and, with
    a filter, is accepted by it.  The result is sorted by name when the
    listing is. *)
Theorem discover_listing_order w tld filt names :
  Fs.listdir (fs w) tld = Some names →
  ∃ nbs, Notebook.discover tld filt w = (Ret nbs, w)
    ∧ nbs = mk_notebook tld <$> (nb_name <$> nbs)
    ∧ (nb_name <$> nbs) `sublist_of` names
    ∧ (∀ d, d ∈ (nb_name <$> nbs) ↔
         d ∈ names ∧ Fs.isdir (fs w) (Fs.join tld d) = true
         ∧ Str.startswith "." d = false ∧ d ≠ "templates"
         ∧ (∀ f, filt = Some f → f d = true))
    ∧ (Sorted String.le names → Sorted String.le (nb_name <$> nbs)).
Proof.
  intros Hls. eexists. split; [by apply discover_eval|].
  rewrite names_of_mk. split; [done|]. split; [apply sublist_filter|].
  split.
  - intros d. rewrite list_elem_of_filter, kept_iff. tauto.
  - intros Hs. apply StronglySorted_Sorted.
    eapply StronglySorted_sublist; [apply sublist_filter|].
    by apply Sorted_StronglySorted; [apply _|].
Qed.

Lemma discover_listing_order_witness :
  ∃ nbs, Notebook.discover ["notes"] (Some (λ d, bool_decide (d = "alpha")))
           (world_of unsorted_tree []) = (Ret nbs, world_of unsorted_tree [])
    ∧ nb_name <$> nbs = ["alpha"].
Proof.
  destruct (discover_listing_order (world_of unsorted_tree []) ["notes"]
              (Some (λ d, bool_decide (d = "alpha")))
              ["zeta"; "README"; ".git"; "templates"; "alpha"])
    as (nbs & Hd & _); [reflexivity|].
  exists nbs. split; [exact Hd|].
  vm_compute in Hd. injection Hd as <-. reflexivity.
Defined.

(** C7, as stated, fails: the notebooks come in the order of the
    directory listing, which need not be the order of the names. *)
Lemma discover_not_sorted :
  ∃ nbs, Notebook.discover ["notes"] None (world_of unsorted_tree []) =
           (Ret nbs, world_of unsorted_tree [])
    ∧ nb_name <$> nbs = ["zeta"; "alpha"]
    ∧ ¬ Sorted String.le (nb_name <$> nbs).
Proof.
  eexists. split; [vm_compute; reflexivity|]. split; [reflexivity|].
  simpl. intros H. apply Sorted_inv in H as [_ H]. apply HdRel_inv in H.
  vm_compute in H. done.
Qed.

End hint_and_order.

(** ** The notes of a notebook *)

Section sift.
Implicit Types (w : World) (nb : Notebook) (names : list string).

Lemma sift_eval w nb names :
  Fs.listdir (fs w) (nb_path nb) = Some names →
  Notebook.sift nb w = (Ret (Note.init nb <$> Notebook.sorted names), w).
Proof. intros H. unfold Notebook.sift, bind, os_listdir. by rewrite H. Qed.

Lemma names_of_notes nb names : note_name <$> (Note.init nb <$> names) = names.
Proof. rewrite <-list_fmap_compose. induction names; simpl; f_equal; done. Qed.

Lemma sorted_permutation_eq names names' :
  names ≡ₚ names' → Notebook.sorted names = Notebook.sorted names'.
Proof.
  intros Hp. unfold Notebook.sorted.
  apply (StronglySorted_unique String.le);
    try (apply StronglySorted_merge_sort; apply _).
  by rewrite !merge_sort_Permutation.
Qed.

(** C8.  Over a notebook whose path is a directory, [Notebook.sift]
    returns one note per entry, the names in ascending order by
    character code: each name is at most every name after it.  The
    result depends on the set of entries only: two listings of the
    same entries in different orders give the same notes. *)
Theorem sift_ascending w nb names :
  Fs.listdir (fs w) (nb_path nb) = Some names →
  ∃ notes, Notebook.sift nb w = (Ret notes, w)
    ∧ note_name <$> notes ≡ₚ names
    ∧ StronglySorted String.le (note_name <$> notes)
    ∧ (∀ w' names', Fs.listdir (fs w') (nb_path nb) = Some names' →
         names' ≡ₚ names → Notebook.sift nb w' = (Ret notes, w')).
Proof.
  intros Hls. eexists. split; [by apply sift_eval|].
  rewrite names_of_notes. split; [apply merge_sort_Permutation|].
  split; [apply StronglySorted_merge_sort; apply _|].
  intros w' names' Hls' Hp. rewrite (sift_eval _ _ _ Hls').
  by rewrite (sorted_permutation_eq _ _ Hp).
Qed.

Lemma sift_ascending_witness :
  ∃ notes, Notebook.sift (mk_notebook ["notes"] "zeta") (world_of unsorted_tree []) =
             (Ret notes, world_of unsorted_tree [])
    ∧ note_name <$> notes = ["a.md"; "b.md"].
Proof.
  destruct (sift_ascending (world_of unsorted_tree []) (mk_notebook ["notes"] "zeta")
              ["b.md"; "a.md"]) as (notes & Hs & _); [reflexivity|].
  exists notes. split; [exact Hs|].
  vm_compute in Hs. injection Hs as <-. reflexivity.
Defined.

End sift.

(** ** Tokens *)

Section tokens.
Implicit Types (s run pre post : string) (a : ascii).

Lemma append_cons a s t : String a s +:+ t = String a (s +:+ t).
Proof. done. Qed.

Lemma append_nil_l s : "" +:+ s = s.
Proof. done. Qed.

Lemma append_nil_r s : s +:+ "" = s.
Proof. induction s as [|a s IH]; [done|]. by rewrite append_cons, IH. Qed.

Lemma append_assoc s t u : (s +:+ t) +:+ u = s +:+ t +:+ u.
Proof. induction s as [|a s IH]; [done|]. by rewrite !append_cons, IH. Qed.

Lemma span_class_app s run rest : Re.span_class s = (run, rest) → s = run +:+ rest.
Proof.
  revert run rest. induction s as [|a s IH]; intros run rest; simpl.
  { by intros [= <- <-]. }
  destruct (Str.is_space a || Str.is_word a).
  - destruct (Re.span_class s) as [run' rest'] eqn:Hs. intros [= <- <-].
    rewrite append_cons. f_equal. by apply IH.
  - by intros [= <- <-].
Qed.

Lemma span_class_run s run rest : Re.span_class s = (run, rest) → class_run run.
Proof.
  unfold class_run. revert run rest. induction s as [|a s IH]; intros run rest; simpl.
  { by intros [= <- <-]. }
  destruct (Str.is_space a || Str.is_word a) eqn:Ha.
  - destruct (Re.span_class s) as [run' rest'] eqn:Hs. intros [= <- <-].
    simpl. rewrite Ha. by rewrite (IH _ _ eq_refl).
  - by intros [= <- <-].
Qed.

Lemma span_class_closing run post :
  class_run run → Re.span_class (run +:+ "}}" +:+ post) = (run, "}}" +:+ post).
Proof.
  unfold class_run. induction run as [|a run IH]; [done|].
  rewrite append_cons. simpl.
  destruct (Str.is_space a || Str.is_word a); [|done].
  destruct (Re.span_class run) as [run' rest'] eqn:Hs. intros [= -> ->].
  by rewrite IH.
Qed.

(** A match is a placeholder at the head of the text, followed by the
    rest of the text. *)
Lemma match_placeholder_sound s tok rest :
  Re.match_placeholder s = Some (tok, rest) →
  ∃ run, class_run run ∧ tok = "{{" +:+ run +:+ "}}" ∧ s = tok +:+ rest.
Proof.
  unfold Re.match_placeholder.
  destruct s as [|a [|b s1]]; try done.
  { by destruct a as [[|] [|] [|] [|] [|] [|] [|] [|]]. }
  destruct (Re.span_class s1) as [run s2] eqn:Hspan.
  intros H. assert (a = "{"%char ∧ b = "{"%char ∧
                    ∃ s3, s2 = "}}" +:+ s3 ∧ tok = "{{" +:+ run +:+ "}}" ∧ rest = s3)
    as (-> & -> & s3 & -> & -> & ->).
  { destruct a as [[|] [|] [|] [|] [|] [|] [|] [|]]; try discriminate H.
    destruct b as [[|] [|] [|] [|] [|] [|] [|] [|]]; try discriminate H.
    destruct s2 as [|c [|c' s3]]; try discriminate H.
    { destruct c as [[|] [|] [|] [|] [|] [|] [|] [|]]; discriminate H. }
    destruct c as [[|] [|] [|] [|] [|] [|] [|] [|]]; try discriminate H.
    destruct c' as [[|] [|] [|] [|] [|] [|] [|] [|]]; try discriminate H.
    injection H as <- <-. split; [done|]. split; [done|]. by exists s3. }
  exists run. split; [by eapply span_class_run|]. split; [done|].
  rewrite (span_class_app _ _ _ Hspan).
  by rewrite !append_cons, !append_nil_l, !append_assoc.
Qed.

(** Every placeholder at the head of a text is matched. *)
Lemma match_placeholder_complete run post :
  class_run run →
  Re.match_placeholder ("{{" +:+ run +:+ "}}" +:+ post) =
    Some ("{{" +:+ run +:+ "}}", post).
Proof.
  intros Hrun.
  change ("{{" +:+ run +:+ "}}" +:+ post)
    with (String "{" (String "{" (run +:+ "}}" +:+ post))).
  unfold Re.match_placeholder. by rewrite (span_class_closing _ _ Hrun).
Qed.

(** The items of the split, put together again, are the text. *)
Lemma split_fuel_join fuel s : Str.join (Re.split_fuel fuel s) = s.
Proof.
  revert s. induction fuel as [|fuel IH]; intros s; simpl.
  { unfold Str.join. simpl. apply append_nil_r. }
  destruct (Re.match_placeholder s) as [[tok rest]|] eqn:Hm.
  - apply match_placeholder_sound in Hm as (run & _ & _ & ->).
    unfold Str.join in *. simpl. by rewrite IH.
  - destruct s as [|a s]; [done|].
    specialize (IH s). destruct (Re.split_fuel fuel s) as [|h t].
    + unfold Str.join in *. simpl in *. by rewrite <-IH.
    + unfold Str.join in *. simpl in *. by rewrite append_cons, IH.
Qed.

Lemma split_join s : Str.join (Re.split s) = s.
Proof. apply split_fuel_join. Qed.

Lemma has_placeholder_cons a s : has_placeholder s → has_placeholder (String a s).
Proof.
  intros (pre & run & post & Hrun & ->).
  exists (String a pre), run, post. by rewrite append_cons.
Qed.

(** A text without a placeholder is one item, itself. *)
Lemma split_fuel_plain fuel s : ¬ has_placeholder s → Re.split_fuel fuel s = [s].
Proof.
  revert s. induction fuel as [|fuel IH]; intros s Hno; simpl; [done|].
  destruct (Re.match_placeholder s) as [[tok rest]|] eqn:Hm.
  - exfalso. apply Hno.
    apply match_placeholder_sound in Hm as (run & Hrun & -> & ->).
    exists "", run, rest. by rewrite append_nil_l, !append_assoc.
  - destruct s as [|a s]; [done|]. rewrite IH; [done|].
    intros H. by apply Hno, has_placeholder_cons.
Qed.

(** A text with a placeholder is split into more than one item. *)
Lemma split_fuel_placeholder fuel pre run post :
  class_run run →
  String.length pre < fuel →
  ∃ lit tok items,
    Re.split_fuel fuel (pre +:+ "{{" +:+ run +:+ "}}" +:+ post) = lit :: tok :: items.
Proof.
  intros Hrun. revert fuel. induction pre as [|a pre IH]; intros fuel Hlen.
  - destruct fuel as [|fuel]; [simpl in Hlen; lia|].
    rewrite append_nil_l. cbn [Re.split_fuel].
    rewrite (match_placeholder_complete _ _ Hrun). eauto.
  - destruct fuel as [|fuel]; [simpl in Hlen; lia|].
    rewrite append_cons. cbn [Re.split_fuel].
    destruct (Re.match_placeholder _) as [[tok rest]|]; [eauto|].
    destruct (IH fuel) as (lit & tok & items & ->); [simpl in Hlen; lia|]. eauto.
Qed.

Lemma length_append s t : String.length (s +:+ t) = String.length s + String.length t.
Proof. induction s as [|a s IH]; [done|]. rewrite append_cons. simpl. by rewrite IH. Qed.

(** The split has one item exactly when the text has no placeholder. *)
Lemma split_single_iff s : Re.split s = [s] ↔ ¬ has_placeholder s.
Proof.
  split; [|apply split_fuel_plain].
  intros Hs (pre & run & post & Hrun & ->).
  destruct (split_fuel_placeholder
              (String.length (pre +:+ "{{" +:+ run +:+ "}}" +:+ post)) pre run post Hrun)
    as (lit & tok & items & H).
  { rewrite length_append.
    change ("{{" +:+ run +:+ "}}" +:+ post)
      with (String "{" ("{" +:+ run +:+ "}}" +:+ post)).
    simpl. lia. }
  unfold Re.split in Hs. rewrite H in Hs. done.
Qed.

Lemma match_placeholder_shorter s tok rest :
  Re.match_placeholder s = Some (tok, rest) → String.length rest < String.length s.
Proof.
  intros (run & _ & -> & ->)%match_placeholder_sound.
  rewrite length_append.
  change ("{{" +:+ run +:+ "}}") with (String "{" ("{" +:+ run +:+ "}}")).
  simpl. lia.
Qed.

(** The length of the text is fuel enough: more of it changes
    nothing. *)
Lemma split_fuel_enough fuel1 fuel2 s :
  (String.length s ≤ fuel1)%nat → (String.length s ≤ fuel2)%nat →
  Re.split_fuel fuel1 s = Re.split_fuel fuel2 s.
Proof.
  revert fuel2 s. induction fuel1 as [|fuel1 IH]; intros fuel2 s H1 H2.
  - destruct s; [|simpl in H1; lia]. by destruct fuel2.
  - destruct fuel2 as [|fuel2].
    { destruct s; [done|simpl in H2; lia]. }
    cbn [Re.split_fuel].
    destruct (Re.match_placeholder s) as [[tok rest]|] eqn:Hm.
    + apply match_placeholder_shorter in Hm. do 2 f_equal. apply IH; lia.
    + destruct s as [|a s]; [done|]. simpl in H1, H2.
      by rewrite (IH fuel2 s) by lia.
Qed.

Lemma split_with_fuel fuel s :
  (String.length s ≤ fuel)%nat → Re.split_fuel fuel s = Re.split s.
Proof. intros H. by apply split_fuel_enough. Qed.

End tokens.

(** ** Rendering *)

Section render.
Implicit Types (self : Template) (note token : string) (w : World).

Lemma render_eval self self' note w w' :
  (if t_resolved self then ret self else Template._resolve self) w = (Ret self', w') →
  Template.render self note w =
    match Template.join_out (Template.render_token self' note <$> Template._tokenize self') with
    | Some text => (Ret (text, self'), w')
    | None => (Raise TypeError, w')
    end.
Proof.
  intros H. unfold Template.render, bind. rewrite H.
  by destruct (Template.join_out _).
Qed.

Lemma render_token_literal self note token :
  Str.startswith "{{" token = false → Template.render_token self note token = PyStr token.
Proof. intros H. unfold Template.render_token. by rewrite H. Qed.

Lemma render_token_failure self note token :
  lookup_fails self note token → Template.render_token self note token = PyStr token.
Proof.
  unfold lookup_fails, Template.render_token.
  destruct (Str.startswith "{{" token); [|done].
  destruct (t_runner self) as [runner|]; [|done].
  destruct (runner !! _) as [[f|]|]; try done. by intros ->.
Qed.

Lemma render_token_other self note token :
  Template.render_token self note token = PyOther →
  Str.startswith "{{" token = true ∧ ¬ lookup_fails self note token.
Proof.
  unfold lookup_fails, Template.render_token.
  destruct (Str.startswith "{{" token); [|done].
  destruct (t_runner self) as [runner|]; [|done].
  destruct (runner !! _) as [[f|]|]; try done.
  destruct (f _ _ _) as [v|]; [|done]. intros ->. split; [done|]. done.
Qed.

Lemma join_out_None (out : list pyval) : Template.join_out out = None → PyOther ∈ out.
Proof.
  induction out as [|[s|] out IH]; simpl; [done| |intros _; by left].
  destruct (Template.join_out out); [done|]. intros _. right. by apply IH.
Qed.

Lemma join_out_strs (l : list string) : Template.join_out (PyStr <$> l) = Some (Str.join l).
Proof.
  induction l as [|s l IH]; [done|].
  rewrite fmap_cons. cbn [Template.join_out]. by rewrite IH.
Qed.

Lemma tokenize_join self : Str.join (Template._tokenize self) = default "" (t_template self).
Proof.
  unfold Template._tokenize. destruct (t_template self) as [text|]; [|done].
  simpl. destruct (decide (text = "")) as [->|]; [done|]. apply split_join.
Qed.

(** C4.  After the template is resolved, an item whose function
    lookup ends in an error (no such attribute, not callable, or a call
    that raises) is emitted as its own text; the items before and after
    it are rendered all the same; a call of [render] that raises does
    so because some function returned, without error, a value that is
    not a string; and when every item that starts with two braces fails
    its lookup, [render] returns the text of the template. *)
Theorem render_absorbs_failures self self' note w w' :
  (if t_resolved self then ret self else Template._resolve self) w = (Ret self', w') →
  (∀ token, lookup_fails self' note token →
     Template.render_token self' note token = PyStr token)
  ∧ (∀ pre token post,
       Template._tokenize self' = pre ++ token :: post →
       lookup_fails self' note token →
       Template.render_token self' note <$> Template._tokenize self' =
         (Template.render_token self' note <$> pre)
           ++ PyStr token :: (Template.render_token self' note <$> post))
  ∧ (∀ e w'', Template.render self note w = (Raise e, w'') →
       e = TypeError
       ∧ ∃ token, token ∈ Template._tokenize self'
                  ∧ Template.render_token self' note token = PyOther
                  ∧ ¬ lookup_fails self' note token)
  ∧ ((∀ token, token ∈ Template._tokenize self' →
        Str.startswith "{{" token = true → lookup_fails self' note token) →
     Template.render self note w = (Ret (default "" (t_template self'), self'), w')).
Proof.
  intros Hres. split; [|split; [|split]].
  - intros token. apply render_token_failure.
  - intros pre token post -> Hf.
    by rewrite fmap_app, fmap_cons, (render_token_failure _ _ _ Hf).
  - intros e w''. rewrite (render_eval _ _ _ _ _ Hres).
    destruct (Template.join_out _) eqn:Hj; [done|]. intros [= <- <-].
    split; [done|]. apply join_out_None, list_elem_of_fmap in Hj as (token & Ht & Hin).
    exists token. split; [done|]. split; [done|].
    by apply render_token_other.
  - intros Hall. rewrite (render_eval _ _ _ _ _ Hres).
    assert (Template.render_token self' note <$> Template._tokenize self' =
            PyStr <$> Template._tokenize self') as ->.
    { apply list_fmap_ext. intros i token Hi.
      destruct (Str.startswith "{{" token) eqn:Hst.
      - apply render_token_failure, Hall; [|done].
        by eapply list_elem_of_lookup_2.
      - by apply render_token_literal. }
    by rewrite join_out_strs, tokenize_join.
Qed.

(** A text without a placeholder that does not start with two braces
    is rendered as it stands. *)
Lemma render_plain_text self text note w :
  t_resolved self = true → t_template self = Some text →
  ¬ has_placeholder text → Str.startswith "{{" text = false →
  Template.render self note w = (Ret (text, self), w).
Proof.
  intros Hres Htext Hno Hst.
  rewrite (render_eval self self note w w) by by rewrite Hres.
  unfold Template._tokenize. rewrite Htext.
  destruct (decide (text = "")) as [->|Hne]; [reflexivity|].
  rewrite (proj2 (split_single_iff text) Hno).
  cbn [fmap list_fmap]. rewrite (render_token_literal _ _ _ Hst).
  cbn [Template.join_out fmap option_fmap option_map]. by rewrite append_nil_r.
Qed.

Lemma render_absorbs_failures_witness :
  Template.render (loaded_template "Hello {{missing_fn}}!" foo_runner) "today"
    (world_of standup_tree []) =
    (Ret ("Hello {{missing_fn}}!", loaded_template "Hello {{missing_fn}}!" foo_runner),
     world_of standup_tree []).
Proof.
  destruct (render_absorbs_failures
              (loaded_template "Hello {{missing_fn}}!" foo_runner)
              (loaded_template "Hello {{missing_fn}}!" foo_runner)
              "today" (world_of standup_tree []) (world_of standup_tree []))
    as (_ & _ & _ & H); [reflexivity|].
  apply H. intros token Hin Hst.
  change (Template._tokenize (loaded_template "Hello {{missing_fn}}!" foo_runner))
    with ["Hello "; "{{missing_fn}}"; "!"] in Hin.
  apply elem_of_cons in Hin as [->|Hin]; [discriminate Hst|].
  apply elem_of_cons in Hin as [->|Hin]; [vm_compute; exact I|].
  apply list_elem_of_singleton in Hin as ->. discriminate Hst.
Defined.

(** C3, on the code.  The text [{{foo}x] has no placeholder and is
    one item; the item starts with two braces, so [render] takes [foo]
    out of it, calls the function of that name and returns its value
    instead of the text.  In [{{foo}}{{foo}x] the one placeholder
    resolves, and the literal span after it is replaced as well. *)
Theorem render_literal_span_called note w :
  ¬ has_placeholder "{{foo}x"
  ∧ Template._tokenize (loaded_template "{{foo}x" foo_runner) = ["{{foo}x"]
  ∧ Template.render (loaded_template "{{foo}x" foo_runner) note w =
      (Ret ("BAR", loaded_template "{{foo}x" foo_runner), w)
  ∧ Template._tokenize (loaded_template "{{foo}}{{foo}x" foo_runner) =
      [""; "{{foo}}"; "{{foo}x"]
  ∧ Template.render (loaded_template "{{foo}}{{foo}x" foo_runner) note w =
      (Ret ("BARBAR", loaded_template "{{foo}}{{foo}x" foo_runner), w).
Proof.
  split; [by apply split_single_iff|].
  split; [reflexivity|]. split.
  { erewrite render_eval by reflexivity. vm_compute. reflexivity. }
  split; [reflexivity|].
  erewrite render_eval by reflexivity. vm_compute. reflexivity.
Qed.

End render.

(** ** Resolving a template *)

Section resolve.
Implicit Types (self : Template) (name note : string) (w : World).

Lemma configure_absent self name w :
  pair_present (fs w) self name = false →
  Template._configure self name w = (Ret (false, self), w).
Proof.
  unfold pair_present. intros H.
  unfold Template._configure, bind, os_path_isfile. by rewrite H.
Qed.

Lemma configure_present self name w text source runner :
  Fs.stat (fs w) (Template.template_file self name) = Some (Fs.File text) →
  Fs.stat (fs w) (Template.runnable_file self name) = Some (Fs.File source) →
  exec_module (proc w) name source = Some runner →
  Template._configure self name w =
    (Ret (true, Template.set_loaded self (Some text) (Some runner)), w).
Proof.
  intros Ht Hr He.
  unfold Template._configure, bind, os_path_isfile, read_file, Fs.isfile.
  rewrite Ht, Hr. simpl. rewrite Ht, Hr. by rewrite He.
Qed.

(** [Template.create] never answers with a truthy value. *)
Lemma create_falsy self w b w1 : Template.create self w = (Ret b, w1) → b = false.
Proof.
  unfold Template.create. unfold bind at 1.
  destruct (yesno _ _ w) as [[yes| |] wa]; try done.
  destruct yes; simpl; [|by intros [= <- _]].
  unfold bind at 1.
  destruct (check_directory _ wa) as [[present| |] wb]; try done.
  unfold bind at 1.
  destruct ((if present then ret true else create_directory _) wb)
    as [[usable| |] wc]; try done.
  destruct usable; simpl; [|by intros [= <- _]].
  unfold bind, environ_get, subprocess_call, ret.
  destruct (editor_call _ _ _ _); [by intros [= <- _]|done].
Qed.

(** Without the notebook's own pair, resolution is the loading of the
    pair named [default], in the world interactive creation leaves. *)
Lemma resolve_unfold self w w1 b :
  pair_present (fs w) self (t_notebook self) = false →
  (if t_prompt_create self then Template.create self w = (Ret b, w1) else w1 = w) →
  Template._resolve self w =
    match Template._configure self "default" w1 with
    | (Ret (_, self'), w2) => (Ret (Template.set_resolved self'), w2)
    | (SysExit c, w2) => (SysExit c, w2)
    | (Raise e, w2) => (Raise e, w2)
    end.
Proof.
  intros Habs Hcreate. unfold Template._resolve. unfold bind at 1.
  rewrite (configure_absent _ _ _ Habs). simpl. unfold bind at 1.
  destruct (t_prompt_create self).
  - unfold bind at 1. rewrite Hcreate.
    rewrite (create_falsy _ _ _ _ Hcreate). unfold ret at 1. simpl.
    unfold bind.
    by destruct (Template._configure self "default" w1) as [[[c self']| |] w2].
  - subst w1. unfold ret at 1. simpl. unfold bind.
    by destruct (Template._configure self "default" w) as [[[c self']| |] w2].
Qed.

(** C5.  When the pair of files named after the notebook is not
    complete, resolution goes to the pair named [default]: interactive
    creation, where it is allowed and returns, does not bring the
    notebook's own pair back into play.  With the [default] pair in
    place and its unit loaded, the template that resolution returns
    holds the text of [default]'s text file and the unit of
    [default]'s source file, and rendering puts its text together from
    the items of that text, calling that unit: a text of [default]
    without placeholders is rendered as it stands.  With that pair
    missing too, nothing is loaded and rendering any note gives the
    empty string. *)
Theorem resolve_falls_back self w w1 b :
  pair_present (fs w) self (t_notebook self) = false →
  (if t_prompt_create self then Template.create self w = (Ret b, w1) else w1 = w) →
  (∀ text source runner,
     Fs.stat (fs w1) (Template.template_file self "default") = Some (Fs.File text) →
     Fs.stat (fs w1) (Template.runnable_file self "default") = Some (Fs.File source) →
     exec_module (proc w1) "default" source = Some runner →
     let loaded :=
       {| t_tld := t_tld self; t_notebook := t_notebook self; t_dir := t_dir self;
          t_prompt_create := t_prompt_create self; t_resolved := true;
          t_template := Some text; t_runner := Some runner |} in
     (Template._resolve self w).1 = Ret loaded
     ∧ (t_resolved self = false →
        ∀ note,
          (Template.render self note w).1 =
            match Template.join_out
                    (Template.render_token loaded note <$>
                       (if decide (text = "") then [] else Re.split text)) with
            | Some out => Ret (out, loaded)
            | None => Raise TypeError
            end)
     ∧ (t_resolved self = false →
        ¬ has_placeholder text → Str.startswith "{{" text = false →
        ∀ note, (Template.render self note w).1 = Ret (text, loaded)))
  ∧ (pair_present (fs w1) self "default" = false →
     let unloaded :=
       {| t_tld := t_tld self; t_notebook := t_notebook self; t_dir := t_dir self;
          t_prompt_create := t_prompt_create self; t_resolved := true;
          t_template := t_template self; t_runner := t_runner self |} in
     Template._resolve self w = (Ret unloaded, w1)
     ∧ (t_resolved self = false → t_template self = None →
        ∀ note, Template.render self note w = (Ret ("", unloaded), w1))).
Proof.
  intros Habs Hcreate. split.
  - intros text source runner Ht Hr He loaded.
    assert (Hres : Template._resolve self w = (Ret loaded, w1)).
    { rewrite (resolve_unfold _ _ _ _ Habs Hcreate).
      by rewrite (configure_present _ _ _ _ _ _ Ht Hr He). }
    assert (Hrender : t_resolved self = false →
              ∀ note, Template.render self note w = Template.render loaded note w1).
    { intros Hfresh note.
      rewrite (render_eval self loaded note w w1) by by rewrite Hfresh.
      by rewrite (render_eval loaded loaded note w1 w1). }
    split; [by rewrite Hres|]. split.
    + intros Hfresh note. rewrite (Hrender Hfresh).
      rewrite (render_eval loaded loaded note w1 w1) by done.
      unfold Template._tokenize. cbn [t_template loaded].
      by destruct (Template.join_out _).
    + intros Hfresh Hno Hst note. rewrite (Hrender Hfresh).
      by rewrite (render_plain_text loaded text).
  - intros Hdef unloaded.
    assert (Hres : Template._resolve self w = (Ret unloaded, w1)).
    { rewrite (resolve_unfold _ _ _ _ Habs Hcreate).
      by rewrite (configure_absent _ _ _ Hdef). }
    split; [done|]. intros Hfresh Hnone note.
    rewrite (render_eval self unloaded note w w1) by by rewrite Hfresh.
    unfold Template._tokenize. simpl. by rewrite Hnone.
Qed.

Lemma resolve_falls_back_witness :
  (Template.render scratch_template "today" (day_world default_tree [])).1 =
    Ret ("Day scratch:today!",
         {| t_tld := ["notes"]; t_notebook := "scratch"; t_dir := ["notes"; "templates"];
            t_prompt_create := false; t_resolved := true;
            t_template := Some "Day {{ day }}!"; t_runner := Some day_runner |})
  ∧ (Template.render scratch_template "today" (world_of journal_tree [])).1 =
      Ret ("Notes",
           {| t_tld := ["notes"]; t_notebook := "scratch"; t_dir := ["notes"; "templates"];
              t_prompt_create := false; t_resolved := true;
              t_template := Some "Notes"; t_runner := Some ∅ |})
  ∧ Template.render scratch_template "today" (world_of standup_tree []) =
      (Ret ("",
            {| t_tld := ["notes"]; t_notebook := "scratch"; t_dir := ["notes"; "templates"];
               t_prompt_create := false; t_resolved := true;
               t_template := None; t_runner := None |}),
       world_of standup_tree []).
Proof.
  split; [|split].
  - destruct (resolve_falls_back scratch_template (day_world default_tree [])
                (day_world default_tree []) false) as (H & _); [reflexivity..|].
    destruct (H "Day {{ day }}!" "def day(nb, n): ..." day_runner) as (_ & Hr & _);
      [reflexivity..|].
    rewrite (Hr eq_refl "today"). vm_compute. reflexivity.
  - destruct (resolve_falls_back scratch_template (world_of journal_tree [])
                (world_of journal_tree []) false) as (H & _); [reflexivity..|].
    destruct (H "Notes" "" ∅) as (_ & _ & Hr); [reflexivity..|].
    apply Hr; [reflexivity| |reflexivity].
    apply split_single_iff. reflexivity.
  - destruct (resolve_falls_back scratch_template (world_of standup_tree [])
                (world_of standup_tree []) false) as (_ & H); [reflexivity..|].
    apply H; reflexivity.
Defined.

End resolve.

(** ** The filesystem under removal *)

Section filesystem.
Implicit Types (n m root : Fs.node) (p q cur cs : Fs.path) (c k : string)
  (es : list (string * Fs.node)).

Lemma same_kind_refl m : same_kind m m.
Proof. by destruct m. Qed.

Lemma same_kind_trans m1 m2 m3 : same_kind m1 m2 → same_kind m2 m3 → same_kind m1 m3.
Proof. destruct m1, m2, m3; simpl; try done. congruence. Qed.

Lemma lookup_remove_same c es : Fs.lookup_entry c (Fs.remove_entry c es) = None.
Proof.
  unfold Fs.remove_entry. induction es as [|[k v] es IH]; [done|].
  rewrite filter_cons. simpl. destruct (decide (k ≠ c)) as [Hne|Heq]; [|done].
  simpl. by rewrite decide_False.
Qed.

Lemma lookup_remove_other c k es :
  k ≠ c → Fs.lookup_entry k (Fs.remove_entry c es) = Fs.lookup_entry k es.
Proof.
  intros Hne. unfold Fs.remove_entry. induction es as [|[k' v] es IH]; [done|].
  rewrite filter_cons. simpl. destruct (decide (k' ≠ c)) as [Hne'|Heq]; simpl.
  - by rewrite IH.
  - rewrite IH. apply dec_stable in Heq. subst k'. by rewrite decide_False.
Qed.

Lemma lookup_remove_mono c k es v :
  Fs.lookup_entry k (Fs.remove_entry c es) = Some v → Fs.lookup_entry k es = Some v.
Proof.
  destruct (decide (k = c)) as [->|Hne].
  - by rewrite lookup_remove_same.
  - by rewrite lookup_remove_other.
Qed.

Lemma lookup_fmap_alter c k (g : Fs.node → Fs.node) es :
  Fs.lookup_entry k ((λ e, if decide (e.1 = c) then (e.1, g e.2) else e) <$> es) =
    if decide (k = c) then g <$> Fs.lookup_entry k es else Fs.lookup_entry k es.
Proof.
  induction es as [|[k' v] es IH]; [by case_decide|].
  rewrite fmap_cons. cbn [fst snd].
  destruct (decide (k' = c)) as [->|Hne]; cbn [Fs.lookup_entry fst snd]; rewrite IH;
    repeat case_decide; simplify_eq; done.
Qed.

Lemma lookup_None_names k es : Fs.lookup_entry k es = None → k ∉ es.*1.
Proof.
  induction es as [|[k' v] es IH]; simpl; [intros _; apply not_elem_of_nil|].
  case_decide; [done|]. intros Hl. apply not_elem_of_cons. split; [done|by apply IH].
Qed.

Lemma get_app n p q : Fs.get n (p ++ q) = Fs.get n p ≫= λ m, Fs.get m q.
Proof.
  revert n. induction p as [|c p IH]; intros n; simpl; [done|].
  destruct n as [|es]; [done|].
  destruct (Fs.lookup_entry c es) as [n'|]; simpl; [apply IH|done].
Qed.

Lemma alter_kind p f n : same_kind n (Fs.alter_dir p f n).
Proof. destruct n, p; simpl; done. Qed.

(** The directory altered sees its entries changed. *)
Lemma get_alter_at p f n es :
  Fs.get n p = Some (Fs.Dir es) → Fs.get (Fs.alter_dir p f n) p = Some (Fs.Dir (f es)).
Proof.
  revert n. induction p as [|c p IH]; intros n; simpl.
  { intros [= ->]. done. }
  destruct n as [|es']; [done|]. simpl. rewrite lookup_fmap_alter.
  rewrite decide_True by done.
  destruct (Fs.lookup_entry c es') as [n'|]; simpl; [apply IH|done].
Qed.

(** The entry removed is gone. *)
Lemma get_alter_removed p c n :
  Fs.get (Fs.alter_dir p (Fs.remove_entry c) n) (p ++ [c]) = None.
Proof.
  revert n. induction p as [|c0 p IH]; intros n; simpl.
  - destruct n as [|es]; simpl; [done|]. by rewrite lookup_remove_same.
  - destruct n as [|es]; simpl; [done|]. rewrite lookup_fmap_alter.
    rewrite decide_True by done.
    destruct (Fs.lookup_entry c0 es) as [n'|]; simpl; [apply IH|done].
Qed.

(** What is there after a removal was there before, and of the same
    kind. *)
Lemma get_alter_mono q p c n m :
  Fs.get (Fs.alter_dir p (Fs.remove_entry c) n) q = Some m →
  ∃ m', Fs.get n q = Some m' ∧ same_kind m' m.
Proof.
  revert p n. induction q as [|k q IH]; intros p n; simpl.
  { intros [= <-]. eexists. split; [done|apply alter_kind]. }
  destruct n as [|es]; [by destruct p|]. destruct p as [|c0 p]; simpl.
  - destruct (Fs.lookup_entry k (Fs.remove_entry c es)) as [v|] eqn:Hl; [|done].
    rewrite (lookup_remove_mono _ _ _ _ Hl). simpl. intros H.
    eexists. split; [done|apply same_kind_refl].
  - rewrite lookup_fmap_alter. case_decide as Hk.
    + destruct (Fs.lookup_entry k es) as [v|]; simpl; [apply IH|done].
    + destruct (Fs.lookup_entry k es) as [v|]; simpl; [|done]. intros H.
      eexists. split; [done|apply same_kind_refl].
Qed.

(** What is not at or below the entry removed stays, and of the same
    kind. *)
Lemma get_alter_survive q p c n m :
  ¬ (p ++ [c]) `prefix_of` q →
  Fs.get n q = Some m →
  ∃ m', Fs.get (Fs.alter_dir p (Fs.remove_entry c) n) q = Some m' ∧ same_kind m m'.
Proof.
  revert p n. induction q as [|k q IH]; intros p n Hpre; simpl.
  { intros [= <-]. eexists. split; [done|apply alter_kind]. }
  destruct n as [|es]; [done|]. destruct p as [|c0 p]; simpl.
  - rewrite lookup_remove_other.
    + intros H. eexists. split; [done|apply same_kind_refl].
    + intros ->. apply Hpre. by exists q.
  - rewrite lookup_fmap_alter. case_decide as Hk.
    + subst c0. destruct (Fs.lookup_entry k es) as [v|]; simpl; [|done].
      apply IH. intros [r Hr]. apply Hpre. exists r. simpl. by rewrite Hr.
    + intros H. eexists. split; [done|apply same_kind_refl].
Qed.

Lemma unlink_snoc p c n : Fs.unlink (p ++ [c]) n = Fs.alter_dir p (Fs.remove_entry c) n.
Proof.
  unfold Fs.unlink. destruct (p ++ [c]) eqn:Hp; [by destruct p|].
  rewrite <-Hp. by rewrite removelast_last, last_last.
Qed.

Lemma snoc_cases p : p = [] ∨ ∃ q c, p = q ++ [c].
Proof. destruct p as [|c p _] using rev_ind; eauto. Qed.

Lemma get_unlink_self p n : p ≠ [] → Fs.get (Fs.unlink p n) p = None.
Proof.
  destruct (snoc_cases p) as [->|(q & c & ->)]; [done|]. intros _.
  rewrite unlink_snoc. apply get_alter_removed.
Qed.

Lemma get_unlink_mono p q n m :
  Fs.get (Fs.unlink p n) q = Some m → ∃ m', Fs.get n q = Some m' ∧ same_kind m' m.
Proof.
  destruct (snoc_cases p) as [->|(p' & c & ->)].
  - simpl. intros H. eexists. split; [done|apply same_kind_refl].
  - rewrite unlink_snoc. apply get_alter_mono.
Qed.

Lemma get_unlink_none p q n : Fs.get n q = None → Fs.get (Fs.unlink p n) q = None.
Proof.
  intros H. destruct (Fs.get (Fs.unlink p n) q) as [m|] eqn:Hg; [|done].
  apply get_unlink_mono in Hg as (m' & Hm' & _). congruence.
Qed.

Lemma get_unlink_survive p q n m :
  ¬ p `prefix_of` q → Fs.get n q = Some m →
  ∃ m', Fs.get (Fs.unlink p n) q = Some m' ∧ same_kind m m'.
Proof.
  destruct (snoc_cases p) as [->|(p' & c & ->)].
  - intros H. exfalso. apply H. by exists q.
  - rewrite unlink_snoc. apply get_alter_survive.
Qed.

Lemma get_unlink_parent p c n es :
  Fs.get n p = Some (Fs.Dir es) →
  Fs.get (Fs.unlink (p ++ [c]) n) p = Some (Fs.Dir (Fs.remove_entry c es)).
Proof. rewrite unlink_snoc. apply get_alter_at. Qed.

End filesystem.

(** ** Paths of entry names *)

Section paths.
Implicit Types (n m root : Fs.node) (p q cur cs : Fs.path) (c : string).

Lemma join_plain p c : plain c → Fs.join p c = p ++ [c].
Proof.
  intros (Hne & _ & _ & Hbare). unfold Fs.join.
  rewrite (split_bare _ Hbare).
  destruct c as [|a c]; [done|]. unfold Str.startswith.
  simpl in Hbare. rewrite Ascii.eqb_sym.
  by destruct (Ascii.eqb a "/").
Qed.

Lemma resolve_step_plain root cur c :
  plain c →
  Fs.resolve_step root cur c =
    match Fs.get root cur with
    | Some (Fs.Dir _) =>
        match Fs.get root (cur ++ [c]) with
        | Some _ => Some (cur ++ [c])
        | None => None
        end
    | _ => None
    end.
Proof.
  intros (H1 & H2 & H3 & _). unfold Fs.resolve_step.
  destruct (Fs.get root cur) as [[|es]|]; try done.
  rewrite decide_False by (intros [?|?]; done). by rewrite decide_False.
Qed.

Lemma resolve_plain root cur cs :
  Forall plain cs → is_Some (Fs.get root cur) →
  Fs.resolve_from root cur cs = Fs.get root (cur ++ cs) ≫= λ _, Some (cur ++ cs).
Proof.
  intros Hcs. revert cur. induction Hcs as [|c cs Hc Hcs IH]; intros cur [m Hm].
  { rewrite app_nil_r, Hm. done. }
  cbn [Fs.resolve_from]. rewrite (resolve_step_plain _ _ _ Hc), Hm.
  rewrite (get_app root cur (c :: cs)), Hm. cbn [mbind option_bind].
  destruct m as [|es]; [done|].
  rewrite (get_app root cur [c]), Hm. cbn [mbind option_bind Fs.get].
  destruct (Fs.lookup_entry c es) as [n'|] eqn:Hl; cbn [mbind option_bind]; [|done].
  rewrite IH.
  - rewrite <-(assoc_L (++)). cbn [app].
    rewrite (get_app root cur (c :: cs)), Hm. cbn [mbind option_bind Fs.get].
    by rewrite Hl.
  - rewrite (get_app root cur [c]), Hm. cbn [mbind option_bind Fs.get].
    rewrite Hl. by eexists.
Qed.

Lemma realpath_plain root p :
  Forall plain p → Fs.realpath root p = Fs.get root p ≫= λ _, Some p.
Proof. intros Hp. unfold Fs.realpath. by rewrite resolve_plain by eauto. Qed.

(** On a path of entry names the walk is the lookup. *)
Lemma stat_plain root p : Forall plain p → Fs.stat root p = Fs.get root p.
Proof.
  intros Hp. unfold Fs.stat. rewrite (realpath_plain _ _ Hp).
  by destruct (Fs.get root p) eqn:Hg.
Qed.

Lemma resolve_step_mono p root cur c q :
  Fs.resolve_step (Fs.unlink p root) cur c = Some q →
  Fs.resolve_step root cur c = Some q.
Proof.
  unfold Fs.resolve_step.
  destruct (Fs.get (Fs.unlink p root) cur) as [[|es]|] eqn:Hg; try done.
  apply get_unlink_mono in Hg as (m' & -> & Hk). destruct m' as [|es']; [done|].
  repeat case_decide; try done.
  destruct (Fs.get (Fs.unlink p root) (cur ++ [c])) as [m|] eqn:Hc; [|done].
  apply get_unlink_mono in Hc as (m'' & -> & _). done.
Qed.

(** A walk that succeeds after a removal succeeded before it, and led
    to the same place. *)
Lemma resolve_mono p root cur cs q :
  Fs.resolve_from (Fs.unlink p root) cur cs = Some q →
  Fs.resolve_from root cur cs = Some q.
Proof.
  revert cur. induction cs as [|c cs IH]; intros cur; simpl; [done|].
  destruct (Fs.resolve_step (Fs.unlink p root) cur c) as [cur'|] eqn:Hs; [|done].
  rewrite (resolve_step_mono _ _ _ _ _ Hs). simpl. apply IH.
Qed.

Lemma stat_unlink_mono p root q m :
  Fs.stat (Fs.unlink p root) q = Some m →
  ∃ r m', Fs.realpath (Fs.unlink p root) q = Some r ∧ Fs.realpath root q = Some r
          ∧ Fs.get root r = Some m' ∧ same_kind m' m.
Proof.
  unfold Fs.stat.
  destruct (Fs.realpath (Fs.unlink p root) q) as [r|] eqn:Hr; [|done]. simpl.
  intros Hg. apply get_unlink_mono in Hg as (m' & Hm' & Hk).
  exists r, m'. split; [done|]. split; [by apply (resolve_mono p)|done].
Qed.

Lemma exists_unlink_mono p root q :
  Fs.exists_ root q = false → Fs.exists_ (Fs.unlink p root) q = false.
Proof.
  unfold Fs.exists_. intros H.
  destruct (Fs.stat (Fs.unlink p root) q) as [m|] eqn:Hs; [|done].
  apply stat_unlink_mono in Hs as (r & m' & _ & Hr & Hg & _).
  unfold Fs.stat in H. rewrite Hr in H. simpl in H. by rewrite Hg in H.
Qed.

End paths.

(** ** Prompts and the filesystem *)

Section prompts.
Implicit Types (w : World) (n : Fs.node).

Lemma yesno_loop_fs text d lines w n :
  yesno_loop text d lines (with_fs n w) =
    ((yesno_loop text d lines w).1, with_fs n (yesno_loop text d lines w).2).
Proof.
  revert w. induction lines as [|line lines IH]; intros w; [done|].
  cbn [yesno_loop]. repeat case_match; try done.
  apply (IH (with_stdin lines (with_stdout (stdout w ++ [text]) w))).
Qed.

(** A prompt neither reads nor changes the filesystem. *)
Lemma yesno_fs message d w n r w' :
  yesno message d w = (r, w') → yesno message d (with_fs n w) = (r, with_fs n w').
Proof.
  unfold yesno. case_match; [by intros [= <- <-]|].
  intros Hy. change (stdin (with_fs n w)) with (stdin w).
  rewrite yesno_loop_fs. by rewrite Hy.
Qed.

Lemma yesno_loop_keeps text d lines w :
  fs (yesno_loop text d lines w).2 = fs w
  ∧ environ (yesno_loop text d lines w).2 = environ w.
Proof.
  revert w. induction lines as [|line lines IH]; intros w; [done|].
  cbn [yesno_loop]. repeat case_match; try done.
  apply (IH (with_stdin lines (with_stdout (stdout w ++ [text]) w))).
Qed.

Lemma yesno_keeps message d w r w' :
  yesno message d w = (r, w') → fs w' = fs w ∧ environ w' = environ w.
Proof.
  unfold yesno. case_match; [by intros [= <- <-]|].
  intros Hy. pose proof (yesno_loop_keeps (prompt_text (message +:+ " [" +:+ d +:+ "]"))
                           d (stdin w) w) as Hk.
  by rewrite Hy in Hk.
Qed.

Lemma with_fs_same w : with_fs (fs w) w = w.
Proof. by destruct w. Qed.

End prompts.

(** ** Deleting the last note of a notebook *)

Section delete.
Implicit Types (w : World) (root : Fs.node) (tld p q : Fs.path) (nbn note : string).

Lemma remove_plain root p content :
  Forall plain p → Fs.get root p = Some (Fs.File content) →
  Fs.remove root p = Some (Fs.unlink p root).
Proof.
  intros Hp Hg. unfold Fs.remove. rewrite (realpath_plain _ _ Hp), Hg. simpl.
  by rewrite Hg.
Qed.

Lemma rmtree_at root p q es :
  Fs.realpath root p = Some q → q ≠ [] → Fs.get root q = Some (Fs.Dir es) →
  Fs.rmtree root p = Some (Fs.unlink q root).
Proof.
  intros Hr Hne Hg. unfold Fs.rmtree. rewrite Hr.
  destruct q as [|c cs]; [done|]. by rewrite Hg.
Qed.

Lemma listdir_plain root p es :
  Forall plain p → Fs.get root p = Some (Fs.Dir es) → Fs.listdir root p = Some (es.*1).
Proof. intros Hp Hg. unfold Fs.listdir. by rewrite (stat_plain _ _ Hp), Hg. Qed.

Lemma exists_plain root p :
  Forall plain p → Fs.get root p = None → Fs.exists_ root p = false.
Proof. intros Hp Hg. unfold Fs.exists_. by rewrite (stat_plain _ _ Hp), Hg. Qed.

Lemma get_dir_of_child root p c m :
  Fs.get root (p ++ [c]) = Some m → ∃ es, Fs.get root p = Some (Fs.Dir es).
Proof.
  rewrite get_app. destruct (Fs.get root p) as [[|es]|]; simpl; try done. eauto.
Qed.

Lemma not_prefix_longer (p k : Fs.path) : k ≠ [] → ¬ (p ++ k) `prefix_of` p.
Proof.
  intros Hk Hpre. apply prefix_length in Hpre. rewrite length_app in Hpre.
  destruct k; [done|]. simpl in Hpre. lia.
Qed.

(** Once the note and then the emptied notebook are removed, neither
    is there, and the root is still a directory. *)
Lemma after_notebook_removed root tld nbn note content :
  Fs.get root (tld ++ [nbn]) = Some (Fs.Dir [(note, Fs.File content)]) →
  let fs1 := Fs.unlink (tld ++ [nbn; note]) root in
  let fs2 := Fs.unlink (tld ++ [nbn]) fs1 in
  Fs.get fs1 (tld ++ [nbn]) = Some (Fs.Dir [])
  ∧ Fs.get fs2 (tld ++ [nbn; note]) = None
  ∧ Fs.get fs2 (tld ++ [nbn]) = None
  ∧ ∃ es, Fs.get fs2 tld = Some (Fs.Dir es).
Proof.
  intros Hnb fs1 fs2.
  assert (H1 : Fs.get fs1 (tld ++ [nbn]) = Some (Fs.Dir [])).
  { unfold fs1. replace (tld ++ [nbn; note]) with ((tld ++ [nbn]) ++ [note])
      by by rewrite <-(assoc_L (++)).
    rewrite (get_unlink_parent _ _ _ _ Hnb). do 2 f_equal.
    unfold Fs.remove_entry. rewrite filter_cons. simpl.
    by rewrite decide_False by (intros H; by apply H). }
  split; [done|]. split; [|split].
  - apply get_unlink_none, get_unlink_self. by destruct tld.
  - apply get_unlink_self. by destruct tld.
  - destruct (get_dir_of_child _ _ _ _ Hnb) as [es Hes].
    destruct (get_unlink_survive (tld ++ [nbn; note]) tld root _
                (not_prefix_longer tld [nbn; note] ltac:(done)) Hes) as (m1 & Hm1 & Hk1).
    destruct (get_unlink_survive (tld ++ [nbn]) tld fs1 _
                (not_prefix_longer tld [nbn] ltac:(done)) Hm1) as (m2 & Hm2 & Hk2).
    destruct m1 as [|es1]; [done|]. destruct m2 as [|es2]; [done|]. eauto.
Qed.

Lemma stat_located root p ntd m :
  Fs.stat (Fs.unlink p root) ntd = Some m →
  ∃ q m0, Fs.realpath (Fs.unlink p root) ntd = Some q
          ∧ Fs.get (Fs.unlink p root) q = Some m
          ∧ Fs.realpath root ntd = Some q
          ∧ Fs.get root q = Some m0 ∧ same_kind m0 m.
Proof.
  intros Hs. pose proof Hs as Hs'. unfold Fs.stat in Hs'.
  apply stat_unlink_mono in Hs as (q & m0 & Hq & Hq0 & Hm0 & Hk).
  rewrite Hq in Hs'. simpl in Hs'. exists q, m0. done.
Qed.

(** Removing the template directory of the notebook, where there is
    still one after the notebook went. *)
Lemma template_removed root p1 p2 ntd tld :
  let fs2 := Fs.unlink p2 (Fs.unlink p1 root) in
  Fs.exists_ fs2 ntd = true →
  Fs.isfile root ntd = false →
  (∀ q, Fs.realpath root ntd = Some q → ¬ q `prefix_of` tld) →
  ∃ q, Fs.rmtree fs2 ntd = Some (Fs.unlink q fs2)
       ∧ ¬ q `prefix_of` tld
       ∧ Fs.exists_ (Fs.unlink q fs2) ntd = false.
Proof.
  intros fs2 Hex Hfile Hpos. unfold Fs.exists_ in Hex.
  destruct (Fs.stat fs2 ntd) as [m|] eqn:Hs; [|done]. clear Hex.
  apply stat_located in Hs as (q & m1 & Hq & Hm & Hq1 & Hm1 & Hk1).
  fold fs2 in Hq, Hm.
  pose proof (resolve_mono _ _ _ _ _ Hq1) as Hq0. fold (Fs.realpath root ntd) in Hq0.
  apply get_unlink_mono in Hm1 as (m0 & Hm0 & Hk0).
  assert (Hdir : ∃ es, m = Fs.Dir es).
  { destruct m as [content|es]; [|eauto]. exfalso.
    pose proof (same_kind_trans _ _ _ Hk0 Hk1) as Hk. destruct m0 as [c0|]; [|done].
    unfold Fs.isfile, Fs.stat in Hfile. rewrite Hq0 in Hfile. simpl in Hfile.
    by rewrite Hm0 in Hfile. }
  destruct Hdir as [es ->].
  assert (Hne : q ≠ []).
  { intros ->. apply (Hpos [] Hq0). by exists tld. }
  exists q. split; [by eapply rmtree_at|]. split; [by apply Hpos|].
  unfold Fs.exists_. destruct (Fs.stat (Fs.unlink q fs2) ntd) as [m|] eqn:Hs; [|done].
  apply stat_located in Hs as (q' & m1' & _ & Hg & Hq2 & _).
  rewrite Hq in Hq2. injection Hq2 as <-.
  by rewrite get_unlink_self in Hg.
Qed.

(** A name that is not an entry of the root is not discovered. *)
Lemma discover_omits w tld nbn es :
  Forall plain tld →
  Fs.get (fs w) tld = Some (Fs.Dir es) →
  Fs.get (fs w) (tld ++ [nbn]) = None →
  ∃ nbs, Notebook.discover tld None w = (Ret nbs, w) ∧ nbn ∉ nb_name <$> nbs.
Proof.
  intros Htld Hroot Hgone.
  pose proof (listdir_plain _ _ _ Htld Hroot) as Hls.
  eexists. split; [by apply discover_eval|].
  rewrite names_of_mk. rewrite list_elem_of_filter. intros [_ Hin].
  rewrite get_app, Hroot in Hgone. simpl in Hgone.
  destruct (Fs.lookup_entry nbn es) eqn:Hl; [done|].
  by apply lookup_None_names in Hl.
Qed.

Lemma template_delete_absent t w :
  Fs.exists_ (fs w) (Fs.join (t_dir t) (t_notebook t)) = false →
  Template.delete t w = (Ret (), w).
Proof.
  intros H. unfold Template.delete, bind, check_directory, os_path_exists.
  by rewrite H.
Qed.

Lemma template_delete_present t w b w2 :
  Fs.exists_ (fs w) (Fs.join (t_dir t) (t_notebook t)) = true →
  yesno ("Do you want to delete the template for " +:+ t_notebook t) "yes" w = (Ret b, w2) →
  Template.delete t w =
    if b then shutil_rmtree (Fs.join (t_dir t) (t_notebook t)) w2 else (Ret (), w2).
Proof.
  intros H Hy. unfold Template.delete, bind, check_directory, os_path_exists.
  rewrite H, Hy. by destruct b.
Qed.

End delete.

Section delete_note.
Implicit Types (w : World) (tld : Fs.path) (nbn note content : string).

(** C9, as amended.  In a notebook whose directory holds exactly one
    note, deleting that note with the deletion confirmed removes the
    note, then the notebook's directory, so that the root no longer
    lists the notebook and [Notebook.discover] leaves it out.  The
    template directory of the notebook is a matter of a second
    question, asked when that directory is there once the notebook is
    gone: confirmed, the directory goes as well; declined, nothing more
    is removed; and with no such directory nothing is asked and nothing
    more is removed.  All of this is done before the steps of version
    control, which come last and only when version control is on.
    (The names are entry names, and the template directory is not a
    file and does not contain the root.) *)
Theorem delete_last_note w w1 w2 b git tld nbn note content :
  Forall plain tld → plain nbn → plain note →
  Fs.get (fs w) (tld ++ [nbn]) = Some (Fs.Dir [(note, Fs.File content)]) →
  Fs.isfile (fs w) (template_store w tld nbn) = false →
  (∀ q, Fs.realpath (fs w) (template_store w tld nbn) = Some q → ¬ q `prefix_of` tld) →
  yesno ("Are you sure you want to delete the note " +:+ note) "yes" w = (Ret true, w1) →
  let nb := mk_notebook tld nbn in
  let gone := Fs.unlink (nb_path nb) (Fs.unlink (note_path (Note.init nb note)) (fs w)) in
  (if Fs.exists_ gone (template_store w tld nbn)
   then yesno ("Do you want to delete the template for " +:+ nbn) "yes" w1 = (Ret b, w2)
   else b = false ∧ w2 = w1) →
  ∃ w', _delete_note note tld git nb w = git_rm_note git (Note.init nb note) w'
    ∧ _delete_note note tld None nb w = (Ret (), w')
    ∧ Fs.exists_ (fs w') (note_path (Note.init nb note)) = false
    ∧ Fs.exists_ (fs w') (nb_path nb) = false
    ∧ (b = true → Fs.exists_ (fs w') (template_store w tld nbn) = false)
    ∧ (b = false → fs w' = gone)
    ∧ ∃ nbs, Notebook.discover tld None w' = (Ret nbs, w') ∧ nbn ∉ nb_name <$> nbs.
Proof.
  intros Htld Hnbn Hnote Hnb Hfile Hpos Hy1 nb gone Hy2.
  set (P := tld ++ [nbn]). set (N := tld ++ [nbn; note]).
  assert (HP : Forall plain P) by (apply Forall_app; split; [done|by apply Forall_singleton]).
  assert (HN : Forall plain N).
  { apply Forall_app; split; [done|].
    apply Forall_cons; split; [done|by apply Forall_singleton]. }
  assert (HpathP : nb_path nb = P) by (simpl; by apply join_plain).
  assert (HpathN : note_path (Note.init nb note) = N).
  { simpl. rewrite (join_plain _ _ Hnbn), (join_plain _ _ Hnote).
    unfold N. by rewrite <-(assoc_L (++)). }
  unfold gone in *. clear gone. rewrite HpathP, HpathN in Hy2. rewrite HpathP, HpathN.
  destruct (yesno_keeps _ _ _ _ _ Hy1) as [Hfs1 Henv1].
  assert (HgN : Fs.get (fs w) N = Some (Fs.File content)).
  { unfold N. replace (tld ++ [nbn; note]) with (P ++ [note])
      by (unfold P; by rewrite <-(assoc_L (++))).
    rewrite get_app. fold P in Hnb. rewrite Hnb. simpl. by rewrite decide_True. }
  destruct (after_notebook_removed _ _ _ _ _ Hnb) as (Hempty & HgoneN & HgoneP & es2 & Hroot).
  fold P N in Hempty, HgoneN, HgoneP, Hroot.
  set (fs1 := Fs.unlink N (fs w)) in *. set (fs2 := Fs.unlink P fs1) in *.
  (* the run of the command up to the template *)
  assert (Hrun : ∀ git',
    _delete_note note tld git' nb w =
      (let* _ := Template.delete
                   {| t_tld := tld; t_notebook := nbn;
                      t_dir := Template.storage (environ w) tld;
                      t_prompt_create := false; t_resolved := false;
                      t_template := None; t_runner := None |} in
       git_rm_note git' (Note.init nb note)) (with_fs fs2 w1)).
  { intros git'. unfold _delete_note. unfold bind at 1. rewrite find_eval.
    rewrite HpathP. rewrite (join_plain _ _ Hnote).
    replace (P ++ [note]) with N by (unfold N, P; by rewrite <-(assoc_L (++))).
    unfold Fs.isfile. rewrite (stat_plain _ _ HN), HgN.
    unfold bind at 1. cbn [note_name Note.init]. rewrite Hy1. cbn [negb].
    unfold bind at 1. unfold Note.delete, os_remove.
    rewrite HpathN, Hfs1, (remove_plain _ _ _ HN HgN). fold fs1.
    unfold bind at 1. unfold Notebook.empty, bind at 1, os_listdir.
    change (note_notebook (Note.init nb note)) with nb.
    rewrite HpathP. cbn [fs with_fs].
    rewrite (listdir_plain _ _ _ HP Hempty). cbn [fmap list_fmap].
    unfold ret at 1. rewrite bool_decide_eq_true_2 by done.
    unfold bind at 1. unfold bind at 1. unfold Notebook.delete.
    unfold bind at 1. unfold shutil_rmtree. rewrite HpathP. cbn [fs with_fs].
    rewrite (rmtree_at fs1 P P []); [|by rewrite (realpath_plain _ _ HP), Hempty
                                     |by destruct tld|done].
    fold fs2. unfold bind at 1. unfold Notebook.template. cbn [nb_template nb mk_notebook].
    unfold bind at 1. unfold Template.init. cbn [environ with_fs nb_tld nb_name].
    rewrite Henv1. unfold ret at 1. unfold bind at 1.
    unfold bind.
    by destruct (Template.delete _ _) as [[[]| |] w']. }
  set (t := {| t_tld := tld; t_notebook := nbn; t_dir := Template.storage (environ w) tld;
               t_prompt_create := false; t_resolved := false;
               t_template := None; t_runner := None |}) in *.
  assert (Hntd : Fs.join (t_dir t) (t_notebook t) = template_store w tld nbn) by done.
  destruct (Fs.exists_ fs2 (template_store w tld nbn)) eqn:Hex.
  - (* a template directory is still there: the second question *)
    destruct (yesno_keeps _ _ _ _ _ Hy2) as [Hfs2 Henv2].
    pose proof (yesno_fs _ _ _ fs2 _ _ Hy2) as Hy2'.
    destruct b.
    + destruct (template_removed (fs w) N P (template_store w tld nbn) tld Hex Hfile Hpos)
        as (q & Hrm & Hq & Hgone).
      fold fs1 fs2 in Hrm, Hgone.
      assert (Htd : Template.delete t (with_fs fs2 w1) =
                (Ret (), with_fs (Fs.unlink q fs2) w2)).
      { rewrite (template_delete_present t _ true (with_fs fs2 w2)); [|done|done].
        unfold shutil_rmtree. rewrite Hntd. cbn [fs with_fs]. by rewrite Hrm. }
      exists (with_fs (Fs.unlink q fs2) w2).
      split; [rewrite Hrun; unfold bind; by rewrite Htd|].
      split; [rewrite Hrun; unfold bind; by rewrite Htd|].
      cbn [fs with_fs].
      split; [apply exists_plain; [done|by apply get_unlink_none]|].
      split; [apply exists_plain; [done|by apply get_unlink_none]|].
      split; [done|]. split; [done|].
      destruct (get_unlink_survive q tld fs2 _ Hq Hroot) as (m & Hm & Hk).
      destruct m as [|es3]; [done|].
      apply (discover_omits _ _ _ es3); [done|done|].
      cbn [fs with_fs]. by apply get_unlink_none.
    + assert (Htd : Template.delete t (with_fs fs2 w1) = (Ret (), with_fs fs2 w2))
        by by rewrite (template_delete_present t _ false (with_fs fs2 w2)).
      exists (with_fs fs2 w2).
      split; [rewrite Hrun; unfold bind; by rewrite Htd|].
      split; [rewrite Hrun; unfold bind; by rewrite Htd|].
      cbn [fs with_fs].
      split; [by apply exists_plain|]. split; [by apply exists_plain|].
      split; [done|]. split; [done|].
      by apply (discover_omits _ _ _ es2).
  - (* no template directory: no second question *)
    destruct Hy2 as [-> ->].
    assert (Htd : Template.delete t (with_fs fs2 w1) = (Ret (), with_fs fs2 w1))
      by by rewrite template_delete_absent.
    exists (with_fs fs2 w1).
    split; [rewrite Hrun; unfold bind; by rewrite Htd|].
    split; [rewrite Hrun; unfold bind; by rewrite Htd|].
    cbn [fs with_fs].
    split; [by apply exists_plain|]. split; [by apply exists_plain|].
    split; [done|]. split; [done|].
    by apply (discover_omits _ _ _ es2).
Qed.

Lemma delete_last_note_witness :
  (∃ w', _delete_note "monday.md" ["notes"] None (mk_notebook ["notes"] "journal")
           (world_of journal_tree ["y"; "yes"]) = (Ret (), w')
     ∧ Fs.exists_ (fs w') ["notes"; "journal"; "monday.md"] = false
     ∧ Fs.exists_ (fs w') ["notes"; "journal"] = false
     ∧ Fs.exists_ (fs w') ["notes"; "templates"; "journal"] = false
     ∧ ∃ nbs, Notebook.discover ["notes"] None w' = (Ret nbs, w')
              ∧ "journal" ∉ nb_name <$> nbs)
  ∧ (∃ w', _delete_note "standup.md" ["notes"] None (mk_notebook ["notes"] "work")
             (world_of standup_tree ["y"]) = (Ret (), w')
       ∧ fs w' = Fs.Dir [("notes",
                          Fs.Dir [("personal", Fs.Dir [("standup.md", Fs.File "p")])])])
  ∧ (∃ w', _delete_note "standup.md" ["notes"]
             (Some {| git_tld := ["notes"]; git_path := "/usr/bin/git" |})
             (mk_notebook ["notes"] "work") (world_of standup_tree ["y"]) = (Ret (), w')
       ∧ fs w' = Fs.Dir [("notes",
                          Fs.Dir [("personal", Fs.Dir [("standup.md", Fs.File "p")])])]).
Proof.
  split; [|split].
  - destruct (delete_last_note
                (world_of journal_tree ["y"; "yes"])
                (yesno "Are you sure you want to delete the note monday.md" "yes"
                   (world_of journal_tree ["y"; "yes"])).2
                (yesno "Do you want to delete the template for journal" "yes"
                   (yesno "Are you sure you want to delete the note monday.md" "yes"
                      (world_of journal_tree ["y"; "yes"])).2).2
                true None ["notes"] "journal" "monday.md" "text")
      as (w' & _ & H1 & H2 & H3 & H4 & _ & H5).
    + apply Forall_singleton. repeat split; discriminate.
    + repeat split; discriminate.
    + repeat split; discriminate.
    + reflexivity.
    + reflexivity.
    + intros q Hq. vm_compute in Hq. injection Hq as <-. intros [k Hk]. discriminate.
    + vm_compute. reflexivity.
    + vm_compute. reflexivity.
    + exists w'. split; [exact H1|]. split; [exact H2|]. split; [exact H3|].
      split; [apply H4; reflexivity|exact H5].
  - destruct (delete_last_note
                (world_of standup_tree ["y"])
                (yesno "Are you sure you want to delete the note standup.md" "yes"
                   (world_of standup_tree ["y"])).2
                (yesno "Are you sure you want to delete the note standup.md" "yes"
                   (world_of standup_tree ["y"])).2
                false None ["notes"] "work" "standup.md" "w")
      as (w' & _ & H1 & _ & _ & _ & H4 & _).
    + apply Forall_singleton. repeat split; discriminate.
    + repeat split; discriminate.
    + repeat split; discriminate.
    + reflexivity.
    + reflexivity.
    + intros q Hq. vm_compute in Hq. discriminate Hq.
    + vm_compute. reflexivity.
    + vm_compute. split; reflexivity.
    + exists w'. split; [exact H1|]. rewrite (H4 eq_refl). vm_compute. reflexivity.
  - destruct (delete_last_note
                (world_of standup_tree ["y"])
                (yesno "Are you sure you want to delete the note standup.md" "yes"
                   (world_of standup_tree ["y"])).2
                (yesno "Are you sure you want to delete the note standup.md" "yes"
                   (world_of standup_tree ["y"])).2
                false (Some {| git_tld := ["notes"]; git_path := "/usr/bin/git" |})
                ["notes"] "work" "standup.md" "w")
      as (w' & H0 & H1 & _).
    + apply Forall_singleton. repeat split; discriminate.
    + repeat split; discriminate.
    + repeat split; discriminate.
    + reflexivity.
    + reflexivity.
    + intros q Hq. vm_compute in Hq. discriminate Hq.
    + vm_compute. reflexivity.
    + vm_compute. split; reflexivity.
    + vm_compute in H1. injection H1 as <-.
      eexists. split; [rewrite H0; vm_compute; reflexivity|reflexivity].
Defined.

(** C9, as stated, fails: with the deletion of the note confirmed and
    the question about the template answered with no, the notebook goes
    and its template directory stays. *)
Lemma delete_last_note_template_kept :
  ∃ w', _delete_note "monday.md" ["notes"] None (mk_notebook ["notes"] "journal")
          (world_of journal_tree ["y"; "n"]) = (Ret (), w')
    ∧ Fs.exists_ (fs w') ["notes"; "journal"; "monday.md"] = false
    ∧ Fs.exists_ (fs w') ["notes"; "journal"] = false
    ∧ Fs.isdir (fs w') ["notes"; "templates"; "journal"] = true.
Proof.
  eexists. split; [vm_compute; reflexivity|]. repeat split.
Qed.

End delete_note.

(** ** The statements read on the tree *)

Section on_the_tree.
Implicit Types (w : World) (tld : Fs.path) (d note : string)
  (es : list (string * Fs.node)).

Lemma lookup_Some_names k es m : Fs.lookup_entry k es = Some m → k ∈ es.*1.
Proof.
  induction es as [|[k' v] es IH]; [done|]. cbn [Fs.lookup_entry fmap list_fmap fst].
  case_decide as Hk; [subst; intros _; by left|]. intros H. right. by apply IH.
Qed.

End on_the_tree.

(** * Further properties of the program *)

(** ** Questions *)

Section yesno_more.
Implicit Types (w : World) (message default line text : string)
  (skipped rest lines : list string).

Lemma replicate_snoc_cons {A} (l : list A) (x : A) n :
  (l ++ [x]) ++ replicate n x = l ++ replicate (S n) x.
Proof. by rewrite <-(assoc_L (++)). Qed.

Lemma replicate_end {A} (l : list A) (x : A) n :
  (l ++ replicate n x) ++ [x] = l ++ replicate (S n) x.
Proof.
  rewrite <-(assoc_L (++)). f_equal.
  induction n as [|n IH]; [done|]. simpl. by rewrite IH.
Qed.

Lemma with_streams_again w (a c : list string) (b d : list string) :
  with_stdin a (with_stdout b (with_stdin c (with_stdout d w))) =
    with_stdin a (with_stdout b w).
Proof. done. Qed.

Lemma yesno_loop_skips text default skipped lines w :
  Forall undecided skipped →
  yesno_loop text default (skipped ++ lines) w =
    yesno_loop text default lines
      (with_stdin lines (with_stdout (stdout w ++ replicate (length skipped) text) w)).
Proof.
  intros Hsk. revert w. induction Hsk as [|l skipped (H1 & H2 & H3) Hsk IH]; intros w.
  - simpl. rewrite app_nil_r. by destruct lines, w.
  - cbn [app yesno_loop]. rewrite decide_False by done. rewrite H2, H3.
    rewrite IH. cbn [stdout with_stdin with_stdout length].
    by rewrite replicate_snoc_cons.
Qed.

(** X1.  [yesno] with a default of ["yes"] or ["no"] skips the lines
    that are no answer, asking again for each, and stops at the first
    line that is one: an empty line means true whatever the default; a
    line starting with [y] or [Y] means "the default is yes"; a line
    starting with [n] or [N] means "the default is no".  The lines up
    to the answer are consumed and the question is shown once per line
    read. *)
Theorem yesno_first_answer message default skipped line rest w :
  default = "yes" ∨ default = "no" →
  stdin w = skipped ++ line :: rest →
  Forall undecided skipped →
  ¬ undecided line →
  ∃ answer,
    yesno message default w =
      (Ret answer,
       with_stdin rest
         (with_stdout (stdout w ++ replicate (S (length skipped)) (yesno_text message default))
            w))
    ∧ (Str.strip line = "" → answer = true)
    ∧ (Str.strip line ≠ "" → match_yes (Str.strip line) = true →
       answer = bool_decide (default = "yes"))
    ∧ (Str.strip line ≠ "" → match_yes (Str.strip line) = false →
       answer = bool_decide (default = "no")).
Proof.
  intros Hd Hin Hsk Hline. unfold yesno.
  assert (bool_decide (default ≠ "yes") && bool_decide (default ≠ "no") = false) as ->.
  { destruct Hd as [-> | ->]; done. }
  rewrite Hin, (yesno_loop_skips _ _ _ _ _ Hsk). fold (yesno_text message default).
  cbn [yesno_loop]. rewrite with_streams_again.
  change (stdout (with_stdin (line :: rest) (with_stdout ?l w))) with l.
  cbn [stdout with_stdin with_stdout]. rewrite replicate_end.
  destruct (decide (Str.strip line = "")) as [He|Hne].
  { eexists. split; [done|]. repeat split; done. }
  destruct (match_yes (Str.strip line)) eqn:Hy.
  { eexists. split; [done|]. repeat split; done. }
  destruct (match_no (Str.strip line)) eqn:Hn.
  { eexists. split; [done|]. repeat split; done. }
  exfalso. by apply Hline.
Qed.

Lemma yesno_first_answer_witness :
  yesno "ok?" "no" (world_of standup_tree ["maybe"; " Yes "; "n"]) =
    (Ret false,
     with_stdin ["n"]
       (with_stdout [yesno_text "ok?" "no"; yesno_text "ok?" "no"]
          (world_of standup_tree ["maybe"; " Yes "; "n"]))).
Proof.
  destruct (yesno_first_answer "ok?" "no" ["maybe"] " Yes " ["n"]
              (world_of standup_tree ["maybe"; " Yes "; "n"]))
    as (answer & Hrun & _ & Hyes & _).
  - by right.
  - reflexivity.
  - apply Forall_singleton. repeat split; discriminate.
  - intros (_ & Hy & _). discriminate Hy.
  - rewrite Hrun. rewrite (Hyes ltac:(discriminate) eq_refl). reflexivity.
Defined.

(** X2.  When no line left on standard input is an answer, [yesno]
    reads them all, asks once more and ends in [EOFError]; a default
    other than ["yes"] and ["no"] ends in [ValueError] before anything
    is shown or read. *)
Theorem yesno_without_answer message default w :
  (default = "yes" ∨ default = "no" →
   Forall undecided (stdin w) →
   yesno message default w =
     (Raise EOFError,
      with_stdin []
        (with_stdout
           (stdout w ++ replicate (S (length (stdin w))) (yesno_text message default)) w)))
  ∧ (default ≠ "yes" → default ≠ "no" → yesno message default w = (Raise ValueError, w)).
Proof.
  split.
  - intros Hd Hsk. unfold yesno.
    assert (bool_decide (default ≠ "yes") && bool_decide (default ≠ "no") = false) as ->.
    { destruct Hd as [-> | ->]; done. }
    rewrite <-(app_nil_r (stdin w)) at 1.
    rewrite (yesno_loop_skips _ _ _ _ _ Hsk). fold (yesno_text message default).
    cbn [yesno_loop stdout with_stdin with_stdout].
    by rewrite replicate_end.
  - intros H1 H2. unfold yesno.
    by rewrite !bool_decide_eq_true_2 by done.
Qed.

Lemma yesno_without_answer_witness :
  (yesno "ok?" "yes" (world_of standup_tree ["maybe"; "what"])).1 = Raise EOFError
  ∧ yesno "ok?" "sure" (world_of standup_tree ["y"]) =
      (Raise ValueError, world_of standup_tree ["y"]).
Proof.
  destruct (yesno_without_answer "ok?" "yes" (world_of standup_tree ["maybe"; "what"]))
    as (H & _).
  destruct (yesno_without_answer "ok?" "sure" (world_of standup_tree ["y"]))
    as (_ & H').
  split.
  - rewrite H; [reflexivity|by left|].
    apply Forall_cons; split; [repeat split; discriminate|].
    apply Forall_singleton. repeat split; discriminate.
  - apply H'; discriminate.
Defined.

End yesno_more.

(** ** The token list *)

Section tokens_more.
Implicit Types (s lit tok : string) (items : list string).

Lemma no_placeholder_empty : ¬ has_placeholder "".
Proof.
  intros (pre & run & post & _ & H). apply (f_equal String.length) in H.
  rewrite length_append in H.
  change ("{{" +:+ run +:+ "}}" +:+ post)
    with (String "{" ("{" +:+ run +:+ "}}" +:+ post)) in H.
  simpl in H. lia.
Qed.

Lemma alternating_head lit items :
  alternating (lit :: items) → ¬ has_placeholder lit.
Proof. by inv 1. Qed.

Lemma placeholder_startswith tok : is_placeholder tok → Str.startswith "{{" tok = true.
Proof. by intros (run & _ & ->). Qed.

(** A literal span grows by a character that starts no match. *)
Lemma alternating_grow a s fuel h t :
  Re.match_placeholder (String a s) = None →
  Re.split_fuel fuel s = h :: t →
  alternating (h :: t) → alternating (String a h :: t).
Proof.
  intros Hno Hsplit Halt.
  assert (Hlit : ¬ has_placeholder (String a h)).
  { intros (pre & run & post & Hrun & Heq). destruct pre as [|b pre].
    - rewrite append_nil_l in Heq.
      pose proof (split_fuel_join fuel s) as Hj. rewrite Hsplit in Hj.
      change (Str.join (h :: t)) with (h +:+ Str.join t) in Hj.
      assert (String a s = "{{" +:+ run +:+ "}}" +:+ post +:+ Str.join t) as Hs.
      { rewrite <-Hj, <-append_cons, Heq.
        by rewrite !append_cons, !append_nil_l, !append_assoc. }
      rewrite Hs, (match_placeholder_complete _ _ Hrun) in Hno. done.
    - rewrite append_cons in Heq. injection Heq as -> ->.
      apply (alternating_head _ _ Halt). by exists pre, run, post. }
  inv Halt; by constructor.
Qed.

Lemma split_fuel_alternating fuel s :
  (String.length s ≤ fuel)%nat → alternating (Re.split_fuel fuel s).
Proof.
  revert s. induction fuel as [|fuel IH]; intros s Hlen.
  { destruct s; [|simpl in Hlen; lia]. constructor. apply no_placeholder_empty. }
  cbn [Re.split_fuel].
  destruct (Re.match_placeholder s) as [[tok rest]|] eqn:Hm.
  - pose proof (match_placeholder_shorter _ _ _ Hm) as Hshort.
    apply match_placeholder_sound in Hm as (run & Hrun & -> & ->).
    constructor; [apply no_placeholder_empty|by exists run|]. apply IH. lia.
  - destruct s as [|a s]; [constructor; apply no_placeholder_empty|].
    simpl in Hlen. specialize (IH s ltac:(lia)).
    destruct (Re.split_fuel fuel s) as [|h t] eqn:Hsplit; [inv IH|].
    by eapply alternating_grow.
Qed.

Lemma tokens_alternate_helper s : alternating (Re.split s).
Proof. by apply split_fuel_alternating. Qed.

(** X3.  The items [re.split] gives for a template text are a literal
    span, then placeholders and literal spans in turn: every second
    item is a match of the pattern, no literal span holds a match, and
    the items put together again are the text. *)
Theorem tokens_alternate s :
  alternating (Re.split s) ∧ Str.join (Re.split s) = s
  ∧ Forall is_placeholder (placeholders (Re.split s))
  ∧ Forall (λ lit, ¬ has_placeholder lit) (literals (Re.split s)).
Proof.
  pose proof (tokens_alternate_helper s) as Halt.
  split; [done|]. split; [apply split_join|].
  induction Halt as [lit Hlit|lit tok items Hlit Htok Halt [IH1 IH2]]; simpl.
  - split; [constructor|]. by apply Forall_singleton.
  - split; by constructor.
Qed.

End tokens_more.

(** ** Rendering, further *)

Section render_more.
Implicit Types (self : Template) (note token : string) (w : World)
  (items : list string).

Lemma render_token_hook self note token v :
  Str.startswith "{{" token = true →
  call_hook self note token = Some (Returns v) →
  Template.render_token self note token = v.
Proof.
  unfold call_hook, Template.render_token. intros ->.
  destruct (t_runner self) as [runner|]; [|done].
  destruct (runner !! _) as [[f|]|]; try done. by intros [= ->].
Qed.

Lemma render_items_fill self note (value : string → string) items :
  alternating items →
  Forall (λ lit, Str.startswith "{{" lit = false) (literals items) →
  (∀ tok, tok ∈ placeholders items →
     call_hook self note tok = Some (Returns (PyStr (value tok)))) →
  Template.render_token self note <$> items = PyStr <$> fill value items.
Proof.
  induction 1 as [lit Hlit|lit tok items Hlit Htok Halt IH]; intros Hlits Hhooks.
  - cbn [literals] in Hlits. rewrite Forall_singleton in Hlits.
    cbn [fill fmap list_fmap]. by rewrite (render_token_literal _ _ _ Hlits).
  - cbn [literals placeholders fill] in *.
    apply Forall_cons in Hlits as [Hl Hlits]. rewrite !fmap_cons.
    rewrite (render_token_literal _ _ _ Hl).
    rewrite (render_token_hook _ _ _ (PyStr (value tok)));
      [|by apply placeholder_startswith|apply Hhooks; by left].
    rewrite IH; [done|done|]. intros t Ht. apply Hhooks. by right.
Qed.

(** X4.  When no literal span of the template starts with two braces
    and every placeholder names a function of the render unit that
    returns a string, the rendered text is the items of the template in
    their order, the literal spans as they are and each placeholder
    replaced by what its function returned. *)
Theorem render_interleaves self self' note w w' (value : string → string) :
  (if t_resolved self then ret self else Template._resolve self) w = (Ret self', w') →
  Forall (λ lit, Str.startswith "{{" lit = false) (literals (Template._tokenize self')) →
  (∀ tok, tok ∈ placeholders (Template._tokenize self') →
     call_hook self' note tok = Some (Returns (PyStr (value tok)))) →
  Template.render self note w =
    (Ret (Str.join (fill value (Template._tokenize self')), self'), w').
Proof.
  intros Hres Hlits Hhooks. rewrite (render_eval _ _ _ _ _ Hres).
  destruct (Template._tokenize self') as [|item items] eqn:Htok; [done|].
  assert (Halt : alternating (item :: items)).
  { rewrite <-Htok. unfold Template._tokenize in *.
    destruct (t_template self') as [text|]; [|done].
    destruct (decide (text = "")); [done|]. apply tokens_alternate_helper. }
  rewrite (render_items_fill _ _ value _ Halt Hlits Hhooks).
  by rewrite join_out_strs.
Qed.

Lemma render_interleaves_witness :
  Template.render (loaded_template "Day {{ day }}!" day_runner) "monday"
    (world_of standup_tree []) =
    (Ret ("Day work:monday!", loaded_template "Day {{ day }}!" day_runner),
     world_of standup_tree []).
Proof.
  rewrite (render_interleaves (loaded_template "Day {{ day }}!" day_runner)
             (loaded_template "Day {{ day }}!" day_runner) "monday"
             (world_of standup_tree []) (world_of standup_tree [])
             (λ _, "work:monday")).
  - reflexivity.
  - reflexivity.
  - change (Template._tokenize (loaded_template "Day {{ day }}!" day_runner))
      with ["Day "; "{{ day }}"; "!"]. cbn [literals].
    apply Forall_cons; split; [reflexivity|]. by apply Forall_singleton.
  - change (Template._tokenize (loaded_template "Day {{ day }}!" day_runner))
      with ["Day "; "{{ day }}"; "!"]. cbn [placeholders].
    intros tok ->%list_elem_of_singleton. vm_compute. reflexivity.
Defined.

Lemma resolve_resolved self self' w w' :
  Template._resolve self w = (Ret self', w') → t_resolved self' = true.
Proof.
  unfold Template._resolve. unfold bind at 1.
  destruct (Template._configure self (t_notebook self) w) as [[[c1 s1]| |] w1]; try done.
  unfold bind at 1.
  destruct ((if negb c1 && t_prompt_create s1
             then let* created := Template.create s1
                  in if created then Template._configure s1 (t_notebook s1)
                     else ret (c1, s1)
             else ret (c1, s1)) w1) as [[[c2 s2]| |] w2]; try done.
  unfold bind at 1.
  destruct ((if negb c2
             then let* (_, self0) := Template._configure s2 "default" in ret self0
             else ret s2) w2) as [[s3| |] w3]; try done.
  by intros [= <- _].
Qed.

(** X5.  A template is resolved once.  After a call of [render] has
    returned, the template it leaves is marked resolved, and a further
    call of [render] with it does not go back to the files.  When the
    text it holds has nothing for a render function to fill in (no
    placeholder, and no two opening braces at its start), or when it
    holds no text, the further call returns that text, or the empty
    string, for any note and in any world at all: the template files
    may be gone and the input empty, nothing is read, nothing is asked
    and nothing changes. *)
Theorem render_resolves_once self self' note out w w' :
  Template.render self note w = (Ret (out, self'), w') →
  t_resolved self' = true
  ∧ (∀ text, t_template self' = Some text →
       ¬ has_placeholder text → Str.startswith "{{" text = false →
       ∀ note2 w2, Template.render self' note2 w2 = (Ret (text, self'), w2))
  ∧ (t_template self' = None →
     ∀ note2 w2, Template.render self' note2 w2 = (Ret ("", self'), w2)).
Proof.
  intros Hrun. unfold Template.render in Hrun. unfold bind at 1 in Hrun.
  destruct ((if t_resolved self then ret self else Template._resolve self) w)
    as [[s1| |] w1] eqn:Hres; try done.
  destruct (Template.join_out _) as [text1|] eqn:Hj; [|done].
  injection Hrun as <- <- <-.
  assert (Hr : t_resolved s1 = true).
  { destruct (t_resolved self) eqn:Hs.
    - by injection Hres as <- <-.
    - by eapply resolve_resolved. }
  split; [done|]. split.
  - intros text Htext Hno Hst note2 w2. by apply render_plain_text.
  - intros Hnone note2 w2.
    rewrite (render_eval s1 s1 note2 w2 w2) by by rewrite Hr.
    unfold Template._tokenize. by rewrite Hnone.
Qed.

Lemma render_resolves_once_witness :
  Template.render
    {| t_tld := ["notes"]; t_notebook := "scratch"; t_dir := ["notes"; "templates"];
       t_prompt_create := false; t_resolved := true;
       t_template := Some "Notes"; t_runner := Some ∅ |}
    "tomorrow" (world_of (Fs.Dir []) []) =
    (Ret ("Notes",
          {| t_tld := ["notes"]; t_notebook := "scratch"; t_dir := ["notes"; "templates"];
             t_prompt_create := false; t_resolved := true;
             t_template := Some "Notes"; t_runner := Some ∅ |}),
     world_of (Fs.Dir []) []).
Proof.
  destruct (render_resolves_once scratch_template
              {| t_tld := ["notes"]; t_notebook := "scratch";
                 t_dir := ["notes"; "templates"];
                 t_prompt_create := false; t_resolved := true;
                 t_template := Some "Notes"; t_runner := Some ∅ |}
              "today" "Notes" (world_of journal_tree []) (world_of journal_tree []))
    as (_ & H & _); [vm_compute; reflexivity|].
  apply (H "Notes"); [reflexivity| |reflexivity].
  apply split_single_iff. reflexivity.
Defined.

(** X6.  When both files of the notebook's own pair are there and the
    render unit loads, resolution takes that pair and nothing else:
    whatever the pair named [default] holds, and with no answer needed
    even where interactive creation is allowed, the template that
    resolution returns holds the text of the notebook's own text file
    and the unit of its own source file, and rendering puts its text
    together from the items of that text, calling that unit. *)
Theorem resolve_prefers_own_pair self w text source runner :
  Fs.stat (fs w) (Template.template_file self (t_notebook self)) = Some (Fs.File text) →
  Fs.stat (fs w) (Template.runnable_file self (t_notebook self)) = Some (Fs.File source) →
  exec_module (proc w) (t_notebook self) source = Some runner →
  let loaded :=
    {| t_tld := t_tld self; t_notebook := t_notebook self; t_dir := t_dir self;
       t_prompt_create := t_prompt_create self; t_resolved := true;
       t_template := Some text; t_runner := Some runner |} in
  (Template._resolve self w).1 = Ret loaded
  ∧ (t_resolved self = false →
     ∀ note,
       (Template.render self note w).1 =
         match Template.join_out
                 (Template.render_token loaded note <$>
                    (if decide (text = "") then [] else Re.split text)) with
         | Some out => Ret (out, loaded)
         | None => Raise TypeError
         end).
Proof.
  intros Ht Hr He loaded.
  assert (Hres : Template._resolve self w = (Ret loaded, w)).
  { unfold Template._resolve. unfold bind at 1.
    by rewrite (configure_present _ _ _ _ _ _ Ht Hr He). }
  split; [by rewrite Hres|]. intros Hfresh note.
  rewrite (render_eval self loaded note w w) by by rewrite Hfresh.
  unfold Template._tokenize. cbn [t_template loaded].
  by destruct (Template.join_out _).
Qed.

Lemma resolve_prefers_own_pair_witness :
  (Template.render journal_template "monday.md" (day_world journal_tree [])).1 =
    Ret ("Day: journal:monday.md",
         {| t_tld := ["notes"]; t_notebook := "journal"; t_dir := ["notes"; "templates"];
            t_prompt_create := true; t_resolved := true;
            t_template := Some "Day: {{day}}"; t_runner := Some day_runner |}).
Proof.
  destruct (resolve_prefers_own_pair journal_template (day_world journal_tree [])
              "Day: {{day}}" "def day(nb, n): ..." day_runner) as (_ & H);
    [reflexivity..|].
  rewrite (H eq_refl "monday.md"). vm_compute. reflexivity.
Defined.



End render_more.

(** ** Searching, further *)

Section search_more.
Implicit Types (w : World) (tld : Fs.path) (note : string) (nb : Notebook).

Lemma hit_notebook n note nb m : hit n note nb = Some m → m = Note.init nb note.
Proof. unfold hit. case_match; [by intros [= <-]|done]. Qed.

Lemma omap_hit_notebooks n note (nbs : list Notebook) :
  note_notebook <$> omap (hit n note) nbs `sublist_of` nbs.
Proof.
  induction nbs as [|nb nbs IH]; [done|]. rewrite omap_cons.
  destruct (hit n note nb) as [m|] eqn:Hh.
  - apply hit_notebook in Hh as ->. rewrite fmap_cons. by apply sublist_skip.
  - by apply sublist_cons.
Qed.

(** X8.  Over a root that is a directory with distinct entry names,
    [Notebook.search] returns, in the order of the root's listing, one
    note for every entry of the root that is a directory, does not
    start with a dot, is not [templates] and has a file of the name
    asked for, and nothing else: at most one note per notebook, each
    with the name asked for. *)
Theorem search_reports w tld note names :
  Fs.listdir (fs w) tld = Some names →
  NoDup names →
  ∃ notes, Notebook.search tld note w = (Ret notes, w)
    ∧ (∀ m, m ∈ notes ↔
         ∃ d, d ∈ names ∧ Fs.isdir (fs w) (Fs.join tld d) = true
              ∧ Str.startswith "." d = false ∧ d ≠ "templates"
              ∧ Fs.isfile (fs w) (Fs.join (Fs.join tld d) note) = true
              ∧ m = {| note_name := note;
                       note_notebook := mk_notebook tld d;
                       note_path := Fs.join (Fs.join tld d) note |})
    ∧ NoDup (note_notebook <$> notes)
    ∧ (nb_name ∘ note_notebook <$> notes) `sublist_of` names.
Proof.
  intros Hls Hnd. eexists. split; [by apply search_eval|].
  set (nbs := mk_notebook tld <$> filter (λ d, kept (fs w) tld None d = true) names).
  assert (Hnbs : NoDup nbs).
  { pose proof (mk_notebook_inj tld). apply (NoDup_fmap_2 _). by apply NoDup_filter. }
  assert (Hsub : note_notebook <$> omap (hit (fs w) note) nbs `sublist_of` nbs)
    by apply omap_hit_notebooks.
  split; [|split].
  - intros m. rewrite list_elem_of_omap. split.
    + intros (nb & Hnb & Hh). pose proof Hnb as Hnb'.
      apply list_elem_of_fmap in Hnb' as (d & -> & _). exists d.
      apply searched_iff in Hnb as (H1 & H2 & H3 & H4).
      assert (is_Some (hit (fs w) note (mk_notebook tld d))) as Hf by eauto.
      apply hit_isfile in Hf. apply hit_notebook in Hh as ->. done.
    + intros (d & H1 & H2 & H3 & H4 & Hf & ->). exists (mk_notebook tld d).
      split; [by apply searched_iff|]. by apply hit_Some.
  - by eapply sublist_NoDup.
  - rewrite list_fmap_compose. etrans; [by apply (fmap_sublist nb_name)|].
    unfold nbs. rewrite names_of_mk. apply sublist_filter.
Qed.

Lemma search_reports_witness :
  ∃ notes, Notebook.search ["notes"] "b.md" (world_of unsorted_tree []) =
             (Ret notes, world_of unsorted_tree [])
    ∧ note_path <$> notes = [["notes"; "zeta"; "b.md"]].
Proof.
  destruct (search_reports (world_of unsorted_tree []) ["notes"] "b.md"
              ["zeta"; "README"; ".git"; "templates"; "alpha"])
    as (notes & Hs & _).
  - reflexivity.
  - apply (bool_decide_unpack _). vm_compute. exact I.
  - exists notes. split; [exact Hs|].
    vm_compute in Hs. injection Hs as <-. reflexivity.
Defined.

(** X9.  [find_note] reads and never writes: whatever the root, the
    name and the hint, either the call leaves the world exactly as it
    was, or it has printed one line on the error stream and ended the
    process with status 1. *)
Theorem find_note_reads_only w tld note hint :
  (find_note tld note hint w).2 = w
  ∨ ∃ msg, find_note tld note hint w =
             (SysExit 1, with_stderr (stderr w ++ [msg]) w).
Proof.
  destruct (truthy hint) eqn:Hhint.
  - destruct hint as [h|]; [|done].
    assert (h ≠ "") as Hne.
    { intros ->. done. }
    destruct (Fs.exists_ (fs w) (Fs.join tld h)) eqn:Hex.
    + left. by rewrite find_note_hint_existing.
    + right. eexists. by apply find_note_hint_missing.
  - rewrite (find_note_falsy_hint _ _ _ _ Hhint).
    assert (Hbare : ∀ b, Str.contains "/" b = false →
              (find_note tld b None w).2 = w
              ∨ ∃ msg, find_note tld b None w =
                         (SysExit 1, with_stderr (stderr w ++ [msg]) w)).
    { intros b Hb. destruct (Fs.listdir (fs w) tld) as [names|] eqn:Hls.
      - rewrite (find_note_search _ _ _ _ Hls Hb).
        destruct (omap _ _) as [|m [|m' ms]]; eauto.
      - left. unfold find_note. simpl. rewrite Hb.
        unfold bind at 1. unfold ret at 1. unfold bind at 1.
        unfold Notebook.search, bind. by rewrite (discover_no_root _ _ _ Hls). }
    destruct (Str.contains "/" note) eqn:Hs; [|by apply Hbare].
    destruct (rsplit_pair note Hs) as (a & b & Hp & Hb).
    rewrite (find_note_qualified w tld note a b Hs Hp Hb). by apply Hbare.
Qed.

End search_more.

(** ** Deleting, further *)

Section delete_more.
Implicit Types (w : World) (tld : Fs.path) (nbn note content : string)
  (nb : Notebook) (git : option Git).

(** X10.  [_delete_note] backs out without touching a file: when the
    notebook holds no file of the name it prints "Unable to find note"
    and ends the process with status 1; when the question is answered
    with no it returns, the question being all that happened.  Version
    control is not consulted on either path. *)
Theorem delete_note_backs_out w tld note git nb :
  (Fs.isfile (fs w) (Fs.join (nb_path nb) note) = false →
   _delete_note note tld git nb w =
     (SysExit 1, with_stdout (stdout w ++ ["Unable to find note"]) w))
  ∧ (∀ w1, Fs.isfile (fs w) (Fs.join (nb_path nb) note) = true →
       yesno ("Are you sure you want to delete the note " +:+ note) "yes" w = (Ret false, w1) →
       _delete_note note tld git nb w = (Ret (), w1) ∧ fs w1 = fs w).
Proof.
  split.
  - intros Hf. unfold _delete_note. unfold bind at 1. rewrite find_eval, Hf. done.
  - intros w1 Hf Hy. split; [|by apply (yesno_keeps _ _ _ _ _ Hy)].
    unfold _delete_note. unfold bind at 1. rewrite find_eval, Hf.
    unfold bind at 1. cbn [note_name Note.init]. by rewrite Hy.
Qed.

Lemma delete_note_backs_out_witness :
  _delete_note "friday.md" ["notes"] None (mk_notebook ["notes"] "journal")
    (world_of journal_tree []) =
    (SysExit 1, with_stdout ["Unable to find note"] (world_of journal_tree []))
  ∧ (_delete_note "monday.md" ["notes"] None (mk_notebook ["notes"] "journal")
       (world_of journal_tree ["no"])).1 = Ret ().
Proof.
  destruct (delete_note_backs_out (world_of journal_tree []) ["notes"] "friday.md" None
              (mk_notebook ["notes"] "journal")) as (H1 & _).
  destruct (delete_note_backs_out (world_of journal_tree ["no"]) ["notes"] "monday.md" None
              (mk_notebook ["notes"] "journal")) as (_ & H2).
  split.
  - apply H1. reflexivity.
  - destruct (H2 (yesno "Are you sure you want to delete the note monday.md" "yes"
                    (world_of journal_tree ["no"])).2) as (Hrun & _);
      [reflexivity|reflexivity|]. by rewrite Hrun.
Defined.

(** X11.  In a notebook that holds more than the note, deleting the
    note with the deletion confirmed removes that one entry: the
    notebook's directory stays with every other entry as it was, and
    nothing is asked about templates.  (Entry names, version control
    off.) *)
Theorem delete_note_keeps_notebook w w1 tld nbn note content es :
  Forall plain tld → plain nbn → plain note →
  Fs.get (fs w) (tld ++ [nbn]) = Some (Fs.Dir es) →
  Fs.lookup_entry note es = Some (Fs.File content) →
  Fs.remove_entry note es ≠ [] →
  yesno ("Are you sure you want to delete the note " +:+ note) "yes" w = (Ret true, w1) →
  let nb := mk_notebook tld nbn in
  let fs' := Fs.unlink (note_path (Note.init nb note)) (fs w) in
  _delete_note note tld None nb w = (Ret (), with_fs fs' w1)
  ∧ Fs.exists_ fs' (note_path (Note.init nb note)) = false
  ∧ Fs.listdir fs' (nb_path nb) = Some ((Fs.remove_entry note es).*1)
  ∧ ∀ k, k ≠ note → Fs.get fs' (nb_path nb ++ [k]) = Fs.get (fs w) (nb_path nb ++ [k]).
Proof.
  intros Htld Hnbn Hnote Hnb Hl Hrest Hy1 nb.
  set (P := tld ++ [nbn]). set (N := tld ++ [nbn; note]).
  assert (HP : Forall plain P) by (apply Forall_app; split; [done|by apply Forall_singleton]).
  assert (HN : Forall plain N).
  { apply Forall_app; split; [done|].
    apply Forall_cons; split; [done|by apply Forall_singleton]. }
  assert (HNP : N = P ++ [note]) by (unfold N, P; by rewrite <-(assoc_L (++))).
  assert (HpathP : nb_path nb = P) by (simpl; by apply join_plain).
  assert (HpathN : note_path (Note.init nb note) = N).
  { simpl. by rewrite (join_plain _ _ Hnbn), (join_plain _ _ Hnote). }
  rewrite HpathP, HpathN. fold P in Hnb.
  destruct (yesno_keeps _ _ _ _ _ Hy1) as [Hfs1 Henv1].
  assert (HgN : Fs.get (fs w) N = Some (Fs.File content)).
  { rewrite HNP, get_app, Hnb. cbn [mbind option_bind Fs.get]. by rewrite Hl. }
  assert (HgP : Fs.get (Fs.unlink N (fs w)) P = Some (Fs.Dir (Fs.remove_entry note es))).
  { rewrite HNP. by apply get_unlink_parent. }
  intros fs'. split; [|split; [|split]].
  - unfold _delete_note. unfold bind at 1. rewrite find_eval.
    rewrite HpathP. rewrite (join_plain _ _ Hnote), <-HNP.
    unfold Fs.isfile. rewrite (stat_plain _ _ HN), HgN.
    unfold bind at 1. cbn [note_name Note.init]. rewrite Hy1. cbn [negb].
    unfold bind at 1. unfold Note.delete, os_remove.
    rewrite HpathN, Hfs1, (remove_plain _ _ _ HN HgN).
    unfold bind at 1. unfold Notebook.empty, bind at 1, os_listdir.
    change (note_notebook (Note.init nb note)) with nb.
    rewrite HpathP. cbn [fs with_fs].
    rewrite (listdir_plain _ _ _ HP HgP).
    unfold ret at 1. rewrite bool_decide_eq_false_2.
    + done.
    + intros Hnil. apply fmap_nil_inv in Hnil. done.
  - apply exists_plain; [done|]. apply get_unlink_self. by destruct tld.
  - by apply listdir_plain.
  - intros k Hk. unfold fs'. rewrite !get_app, HgP, Hnb.
    cbn [mbind option_bind Fs.get]. by rewrite lookup_remove_other.
Qed.

Lemma delete_note_keeps_notebook_witness :
  _delete_note "monday.md" ["notes"] None (mk_notebook ["notes"] "journal")
    (world_of pair_tree ["y"]) =
    (Ret (),
     with_fs (Fs.Dir [("notes", Fs.Dir [("journal", Fs.Dir [("tuesday.md", Fs.File "t")])])])
       (yesno "Are you sure you want to delete the note monday.md" "yes"
          (world_of pair_tree ["y"])).2).
Proof.
  destruct (delete_note_keeps_notebook (world_of pair_tree ["y"])
              (yesno "Are you sure you want to delete the note monday.md" "yes"
                 (world_of pair_tree ["y"])).2
              ["notes"] "journal" "monday.md" "m"
              [("monday.md", Fs.File "m"); ("tuesday.md", Fs.File "t")])
    as (Hrun & _).
  - apply Forall_singleton. repeat split; discriminate.
  - repeat split; discriminate.
  - repeat split; discriminate.
  - reflexivity.
  - reflexivity.
  - vm_compute. discriminate.
  - reflexivity.
  - rewrite Hrun. reflexivity.
Defined.



End delete_more.

(** ** Creating directories *)

Section create.
Implicit Types (w : World) (root n m : Fs.node) (p q cur cs : Fs.path) (c k : string)
  (es : list (string * Fs.node)).

Lemma lookup_app_old k es es' v :
  Fs.lookup_entry k es = Some v → Fs.lookup_entry k (es ++ es') = Some v.
Proof.
  induction es as [|[k' v'] es IH]; [done|]. cbn [app Fs.lookup_entry].
  case_decide; [done|apply IH].
Qed.

Lemma lookup_app_new k es v :
  Fs.lookup_entry k es = None → Fs.lookup_entry k (es ++ [(k, v)]) = Some v.
Proof.
  induction es as [|[k' v'] es IH]; cbn [app Fs.lookup_entry].
  - intros _. by rewrite decide_True.
  - case_decide; [done|apply IH].
Qed.

(** What is there before an entry is added is there after it, and of
    the same kind. *)
Lemma get_alter_grow q p (f : list (string * Fs.node) → list (string * Fs.node)) n m :
  (∀ es k v, Fs.lookup_entry k es = Some v → Fs.lookup_entry k (f es) = Some v) →
  Fs.get n q = Some m →
  ∃ m', Fs.get (Fs.alter_dir p f n) q = Some m' ∧ same_kind m m'.
Proof.
  intros Hf. revert p n. induction q as [|k q IH]; intros p n; simpl.
  { intros [= <-]. eexists. split; [done|apply alter_kind]. }
  destruct n as [|es]; [done|]. destruct p as [|c0 p]; simpl.
  - destruct (Fs.lookup_entry k es) as [v|] eqn:Hl; [|done]. simpl.
    rewrite (Hf _ _ _ Hl). simpl. intros H.
    eexists. split; [done|apply same_kind_refl].
  - rewrite lookup_fmap_alter. case_decide as Hk.
    + destruct (Fs.lookup_entry k es) as [v|]; simpl; [apply IH|done].
    + intros H. eexists. split; [done|apply same_kind_refl].
Qed.

Lemma makedirs_from_ok root cur cs es0 :
  Forall plain cs →
  Fs.get root cur = Some (Fs.Dir es0) →
  (∀ q content, q `prefix_of` cs → Fs.get root (cur ++ q) ≠ Some (Fs.File content)) →
  ∃ root', Fs.makedirs_from root cur cs = Some root'
    ∧ (∃ es, Fs.get root' (cur ++ cs) = Some (Fs.Dir es))
    ∧ (∀ q m, Fs.get root q = Some m → ∃ m', Fs.get root' q = Some m' ∧ same_kind m m').
Proof.
  intros Hcs. revert root cur es0.
  induction Hcs as [|c cs Hc Hcs IH]; intros root cur es0 Hcur Hway.
  { exists root. cbn [Fs.makedirs_from]. rewrite Hcur. split; [done|].
    split; [rewrite app_nil_r; eauto|].
    intros q m Hq. exists m. split; [done|apply same_kind_refl]. }
  cbn [Fs.makedirs_from]. rewrite Hcur.
  destruct Hc as (Hc1 & Hc2 & Hc3 & Hc4).
  rewrite decide_False by (intros [?|?]; done). rewrite decide_False by done.
  destruct (Fs.get root (cur ++ [c])) as [mc|] eqn:Hchild.
  - assert (∃ esc, mc = Fs.Dir esc) as [esc ->].
    { destruct mc as [content|esc]; [|eauto]. exfalso.
      apply (Hway [c] content); [by exists cs|done]. }
    destruct (IH root (cur ++ [c]) esc Hchild) as (root' & Hrun & Hdir & Hkeep).
    { intros q content [r ->] Hq. apply (Hway (c :: q) content).
      - by exists r.
      - by rewrite <-(assoc_L (++)) in Hq. }
    exists root'. split; [done|]. split; [|done].
    by rewrite <-(assoc_L (++)) in Hdir.
  - set (add := λ es : list (string * Fs.node), es ++ [(c, Fs.Dir [])]).
    set (root1 := Fs.alter_dir cur add root).
    assert (Hl : Fs.lookup_entry c es0 = None).
    { rewrite get_app, Hcur in Hchild. cbn [mbind option_bind Fs.get] in Hchild.
      by destruct (Fs.lookup_entry c es0). }
    assert (Hnew : Fs.get root1 (cur ++ [c]) = Some (Fs.Dir [])).
    { rewrite get_app. unfold root1. rewrite (get_alter_at _ _ _ _ Hcur).
      cbn [mbind option_bind Fs.get]. unfold add. by rewrite (lookup_app_new _ _ _ Hl). }
    destruct (IH root1 (cur ++ [c]) [] Hnew) as (root' & Hrun & Hdir & Hkeep).
    { intros q content _ Hq. rewrite get_app, Hnew in Hq.
      cbn [mbind option_bind] in Hq. by destruct q. }
    exists root'. split; [done|]. split; [by rewrite <-(assoc_L (++)) in Hdir|].
    intros q m Hq.
    destruct (get_alter_grow q cur add root m) as (m1 & Hm1 & Hk1); [|done|].
    { intros es k v Hv. by apply lookup_app_old. }
    destruct (Hkeep q m1 Hm1) as (m' & Hm' & Hk').
    exists m'. split; [done|by eapply same_kind_trans].
Qed.

Lemma create_directory_no w w1 p :
  yesno (Fs.show p +:+ " does not exist, create?") "yes" w = (Ret false, w1) →
  create_directory p w = (Ret false, w1).
Proof.
  intros Hy. unfold create_directory, prompt_create_directory, bind. by rewrite Hy.
Qed.

Lemma create_directory_yes w w1 p :
  Forall plain p → clear_way (fs w) p →
  (∃ es, fs w = Fs.Dir es) →
  yesno (Fs.show p +:+ " does not exist, create?") "yes" w = (Ret true, w1) →
  ∃ root', create_directory p w = (Ret true, with_fs root' w1)
    ∧ Fs.isdir root' p = true
    ∧ ∀ q m, Fs.get (fs w) q = Some m →
        ∃ m', Fs.get root' q = Some m' ∧ same_kind m m'.
Proof.
  intros Hp Hway [es0 Hroot] Hy.
  destruct (yesno_keeps _ _ _ _ _ Hy) as [Hfs1 _].
  destruct (makedirs_from_ok (fs w) [] p es0 Hp) as (root' & Hrun & [es Hdir] & Hkeep).
  { by rewrite Hroot. }
  { intros q content Hq. by apply Hway. }
  exists root'. split; [|split; [|done]].
  + unfold create_directory, prompt_create_directory. unfold bind at 1. rewrite Hy.
    unfold bind, os_makedirs, Fs.makedirs. by rewrite Hfs1, Hrun.
  + unfold Fs.isdir. rewrite (stat_plain _ _ Hp). simpl in Hdir. by rewrite Hdir.
Qed.

(** X13.  [create_directory] asks before it creates.  Answered with
    no, it returns false and nothing is created.  Answered with yes, it
    makes every directory that is missing on the way, returns true with
    the path a directory, and all that was in the tree is still there:
    every file with its content, every directory a directory.  (A path
    of entry names, with no file standing in the way.) *)
Theorem create_directory_makes_way w w1 p :
  (yesno (Fs.show p +:+ " does not exist, create?") "yes" w = (Ret false, w1) →
   create_directory p w = (Ret false, w1) ∧ fs w1 = fs w)
  ∧ (Forall plain p → clear_way (fs w) p →
     (∃ es, fs w = Fs.Dir es) →
     yesno (Fs.show p +:+ " does not exist, create?") "yes" w = (Ret true, w1) →
     ∃ root', create_directory p w = (Ret true, with_fs root' w1)
       ∧ Fs.isdir root' p = true
       ∧ ∀ q m, Fs.get (fs w) q = Some m →
           ∃ m', Fs.get root' q = Some m' ∧ same_kind m m').
Proof.
  split.
  - intros Hy. split; [by apply create_directory_no|by apply (yesno_keeps _ _ _ _ _ Hy)].
  - apply create_directory_yes.
Qed.

Lemma create_directory_makes_way_witness :
  ∃ root', create_directory ["home"; "u"; "notes"] (world_of bare_tree [""]) =
             (Ret true,
              with_fs root' (yesno "/home/u/notes does not exist, create?" "yes"
                               (world_of bare_tree [""])).2)
    ∧ Fs.isdir root' ["home"; "u"; "notes"] = true
    ∧ Fs.get root' ["home"; "README"] = Some (Fs.File "hi").
Proof.
  destruct (create_directory_makes_way (world_of bare_tree [""])
              (yesno "/home/u/notes does not exist, create?" "yes"
                 (world_of bare_tree [""])).2 ["home"; "u"; "notes"]) as (_ & H).
  destruct H as (root' & Hrun & Hdir & Hkeep).
  - repeat (apply Forall_cons; split; [repeat split; discriminate|]). constructor.
  - intros q content Hq Hg.
    assert (q ∈ [[]; ["home"]; ["home"; "u"]; ["home"; "u"; "notes"]]) as Hcases.
    { destruct Hq as [r Hr]. destruct q as [|a [|b [|c [|d q]]]]; simplify_eq/=;
        set_solver. }
    set_unfold in Hcases. destruct Hcases as [->|[->|[->|[->|[]]]]]; discriminate Hg.
  - eexists. reflexivity.
  - reflexivity.
  - exists root'. split; [exact Hrun|]. split; [exact Hdir|].
    destruct (Hkeep ["home"; "README"] (Fs.File "hi") eq_refl) as (m' & Hm' & Hk).
    destruct m' as [content|]; [|done]. simpl in Hk. by subst.
Defined.

(** X14.  [Notebook(tld, name, prompt_create=True)]: a directory
    that exists is taken as it is, with no question and no template
    attached.  A directory that is missing is offered for creation:
    answered with no, the process ends with status 1 after "Cannot
    continue without creating ..."; answered with yes, the directory
    is made, nothing that was there is lost, and the notebook comes
    with a template for which interactive creation is allowed. *)
Theorem notebook_init_prompt w w1 tld nbn :
  (Fs.exists_ (fs w) (Fs.join tld nbn) = true →
   ∀ prompt_create, Notebook.init tld nbn prompt_create w = (Ret (mk_notebook tld nbn), w))
  ∧ (Fs.exists_ (fs w) (Fs.join tld nbn) = false →
     yesno (Fs.show (Fs.join tld nbn) +:+ " does not exist, create?") "yes" w
       = (Ret false, w1) →
     Notebook.init tld nbn true w =
       (SysExit 1,
        with_stderr (stderr w1 ++ ["Cannot continue without creating " +:+ nbn]) w1)
     ∧ fs w1 = fs w)
  ∧ (Fs.exists_ (fs w) (Fs.join tld nbn) = false →
     Forall plain (Fs.join tld nbn) → clear_way (fs w) (Fs.join tld nbn) →
     (∃ es, fs w = Fs.Dir es) →
     yesno (Fs.show (Fs.join tld nbn) +:+ " does not exist, create?") "yes" w
       = (Ret true, w1) →
     ∃ root' t,
       Notebook.init tld nbn true w =
         (Ret (Notebook.set_template (mk_notebook tld nbn) t), with_fs root' w1)
       ∧ t_prompt_create t = true ∧ t_notebook t = nbn ∧ t_resolved t = false
       ∧ Fs.isdir root' (Fs.join tld nbn) = true
       ∧ ∀ q m, Fs.get (fs w) q = Some m →
           ∃ m', Fs.get root' q = Some m' ∧ same_kind m m').
Proof.
  split; [|split].
  - intros Hex pc. unfold Notebook.init, Notebook._assert_existence, bind,
      check_directory, os_path_exists. simpl. by rewrite Hex.
  - intros Hex Hy. split; [|by apply (yesno_keeps _ _ _ _ _ Hy)].
    unfold Notebook.init, Notebook._assert_existence. unfold bind at 1.
    unfold check_directory, os_path_exists. cbn [nb_path nb_name]. rewrite Hex.
    unfold bind at 1. by rewrite (create_directory_no _ _ _ Hy).
  - intros Hex Hp Hway Hroot Hy.
    destruct (create_directory_yes _ _ _ Hp Hway Hroot Hy) as (root' & Hrun & Hdir & Hkeep).
    exists root'. eexists. split; [|split; [|split; [|split; [|split]]]]; last 2 first.
    + exact Hdir.
    + exact Hkeep.
    + unfold Notebook.init, Notebook._assert_existence. unfold bind at 1.
      unfold check_directory, os_path_exists. cbn [nb_path nb_name]. rewrite Hex.
      unfold bind at 1. rewrite Hrun. cbn [negb].
      unfold bind, Template.init, ret. cbn [nb_tld nb_name]. reflexivity.
    + reflexivity.
    + reflexivity.
    + reflexivity.
Qed.

Lemma notebook_init_prompt_witness :
  (Notebook.init ["home"] "notes" true (world_of bare_tree ["n"])).1 = SysExit 1
  ∧ ∃ root' t,
      Notebook.init ["home"] "notes" true (world_of bare_tree ["y"]) =
        (Ret (Notebook.set_template (mk_notebook ["home"] "notes") t),
         with_fs root' (yesno "/home/notes does not exist, create?" "yes"
                          (world_of bare_tree ["y"])).2)
      ∧ t_prompt_create t = true
      ∧ Fs.isdir root' ["home"; "notes"] = true.
Proof.
  split.
  - destruct (notebook_init_prompt (world_of bare_tree ["n"])
                (yesno "/home/notes does not exist, create?" "yes"
                   (world_of bare_tree ["n"])).2 ["home"] "notes") as (_ & H & _).
    destruct H as [H _]; [reflexivity|reflexivity|]. by rewrite H.
  - destruct (notebook_init_prompt (world_of bare_tree ["y"])
                (yesno "/home/notes does not exist, create?" "yes"
                   (world_of bare_tree ["y"])).2 ["home"] "notes") as (_ & _ & H).
    destruct H as (root' & t & Hrun & Hpc & _ & _ & Hdir & _).
    + reflexivity.
    + repeat (apply Forall_cons; split; [repeat split; discriminate|]). constructor.
    + intros q content Hq Hg.
      change (Fs.join ["home"] "notes") with ["home"; "notes"] in Hq.
      assert (q ∈ [[]; ["home"]; ["home"; "notes"]]) as Hcases.
      { destruct Hq as [r Hr]. destruct q as [|a [|b [|c q]]]; simplify_eq/=;
          set_solver. }
      set_unfold in Hcases. destruct Hcases as [->|[->|[->|[]]]]; discriminate Hg.
    + eexists. reflexivity.
    + reflexivity.
    + exists root', t. done.
Defined.

(** X16.  [Template.create] by its steps.  Declined, it changes
    nothing.  Accepted with the notebook's template directory in
    place, the editor named by [EDITOR], or [vim] when that is unset,
    is started once on the two files named after the notebook in that
    directory, on the tree as it stands.  Accepted with the directory
    missing, a second question is asked: answered with no, nothing is
    created and no editor is started; answered with yes, the directory
    is made first and the editor is started on the tree that has it,
    where all that was there before is still there.  An editor that
    cannot be started makes the call raise, with the tree as it was
    when the editor was called; otherwise the tree is the one the
    editor leaves.  The value returned is falsy wherever the call
    returns. *)
Theorem template_create_steps self w w1 :
  let ntd := Fs.join (t_dir self) (t_notebook self) in
  let files := [Fs.join ntd (t_notebook self +:+ ".txt");
                Fs.join ntd (t_notebook self +:+ ".py")] in
  let editor := default EDITOR_DEFAULT (environ w !! EDITOR_ENV_NAME) in
  let edit := λ wa : World,
    match editor_call (proc wa) editor files (fs wa) with
    | Some n => (Ret false, with_fs n wa)
    | None => (Raise OSError, wa)
    end in
  (yesno "Do you want to create a template?" "yes" w = (Ret false, w1) →
   Template.create self w = (Ret false, w1) ∧ fs w1 = fs w)
  ∧ (yesno "Do you want to create a template?" "yes" w = (Ret true, w1) →
     Fs.exists_ (fs w) ntd = true →
     Template.create self w = edit w1 ∧ fs w1 = fs w)
  ∧ (yesno "Do you want to create a template?" "yes" w = (Ret true, w1) →
     Fs.exists_ (fs w) ntd = false →
     ∀ w2,
       yesno (Fs.show ntd +:+ " does not exist, create?") "yes" w1 = (Ret false, w2) →
       Template.create self w = (Ret false, w2) ∧ fs w2 = fs w)
  ∧ (yesno "Do you want to create a template?" "yes" w = (Ret true, w1) →
     Fs.exists_ (fs w) ntd = false →
     Forall plain ntd → clear_way (fs w) ntd → (∃ es, fs w = Fs.Dir es) →
     ∀ w2,
       yesno (Fs.show ntd +:+ " does not exist, create?") "yes" w1 = (Ret true, w2) →
       ∃ root',
         Template.create self w = edit (with_fs root' w2)
         ∧ Fs.isdir root' ntd = true
         ∧ ∀ q m, Fs.get (fs w) q = Some m →
             ∃ m', Fs.get root' q = Some m' ∧ same_kind m m').
Proof.
  intros ntd files editor edit. split; [|split; [|split]].
  - intros Hy. split; [|by apply (yesno_keeps _ _ _ _ _ Hy)].
    unfold Template.create. unfold bind at 1. by rewrite Hy.
  - intros Hy Hex. destruct (yesno_keeps _ _ _ _ _ Hy) as [Hfs Henv].
    split; [|done].
    unfold Template.create. unfold bind at 1. rewrite Hy. cbn [negb].
    unfold bind at 1. unfold check_directory, os_path_exists. fold ntd.
    rewrite Hfs, Hex. unfold bind at 1. unfold ret at 1. cbn [negb].
    unfold bind, environ_get, subprocess_call, ret. fold files.
    unfold edit, editor. rewrite Henv.
    by destruct (editor_call _ _ _ _).
  - intros Hy Hex w2 Hn. destruct (yesno_keeps _ _ _ _ _ Hy) as [Hfs Henv].
    destruct (yesno_keeps _ _ _ _ _ Hn) as [Hfs2 _].
    split; [|by rewrite Hfs2].
    unfold Template.create. unfold bind at 1. rewrite Hy. cbn [negb].
    unfold bind at 1. unfold check_directory, os_path_exists. fold ntd.
    rewrite Hfs, Hex. unfold bind at 1.
    by rewrite (create_directory_no _ _ _ Hn).
  - intros Hy Hex Hp Hway Hroot w2 Hyes.
    destruct (yesno_keeps _ _ _ _ _ Hy) as [Hfs Henv].
    destruct (yesno_keeps _ _ _ _ _ Hyes) as [_ Henv2].
    rewrite <- Hfs in Hway, Hroot.
    destruct (create_directory_yes _ _ _ Hp Hway Hroot Hyes) as (root' & Hrun & Hdir & Hkeep).
    exists root'. split; [|split; [done|by rewrite <- Hfs]].
    unfold Template.create. unfold bind at 1. rewrite Hy. cbn [negb].
    unfold bind at 1. unfold check_directory, os_path_exists. fold ntd.
    rewrite Hfs, Hex. unfold bind at 1. rewrite Hrun. cbn [negb].
    unfold bind, environ_get, subprocess_call, ret. fold files.
    unfold edit, editor. cbn [environ fs proc with_fs]. rewrite Henv2, Henv.
    by destruct (editor_call _ _ _ _).
Qed.

Lemma template_create_steps_witness :
  Template.create journal_template (world_of journal_tree ["n"]) =
    (Ret false,
     (yesno "Do you want to create a template?" "yes" (world_of journal_tree ["n"])).2)
  ∧ Template.create journal_template (world_of journal_tree ["y"]) =
      (Ret false,
       (yesno "Do you want to create a template?" "yes" (world_of journal_tree ["y"])).2)
  ∧ Template.create journal_template (no_editor_world journal_tree ["y"]) =
      (Raise OSError,
       (yesno "Do you want to create a template?" "yes"
          (no_editor_world journal_tree ["y"])).2)
  ∧ Template.create journal_template (world_of standup_tree ["y"; "n"]) =
      (Ret false,
       (yesno "/notes/templates/journal does not exist, create?" "yes"
          (yesno "Do you want to create a template?" "yes"
             (world_of standup_tree ["y"; "n"])).2).2).
Proof.
  split; [|split; [|split]].
  - destruct (template_create_steps journal_template (world_of journal_tree ["n"])
                (yesno "Do you want to create a template?" "yes"
                   (world_of journal_tree ["n"])).2) as (H & _).
    destruct H as [H _]; [reflexivity|]. exact H.
  - destruct (template_create_steps journal_template (world_of journal_tree ["y"])
                (yesno "Do you want to create a template?" "yes"
                   (world_of journal_tree ["y"])).2) as (_ & H & _).
    destruct H as [H _]; [reflexivity..|]. rewrite H. reflexivity.
  - destruct (template_create_steps journal_template (no_editor_world journal_tree ["y"])
                (yesno "Do you want to create a template?" "yes"
                   (no_editor_world journal_tree ["y"])).2) as (_ & H & _).
    destruct H as [H _]; [reflexivity..|]. rewrite H. reflexivity.
  - destruct (template_create_steps journal_template (world_of standup_tree ["y"; "n"])
                (yesno "Do you want to create a template?" "yes"
                   (world_of standup_tree ["y"; "n"])).2) as (_ & _ & H & _).
    destruct (H eq_refl eq_refl _ eq_refl) as [H' _]. exact H'.
Defined.

End create.

(** ** Listing *)

Section listing.
Implicit Types (w : World) (tld : Fs.path) (d : string) (nb : Notebook)
  (git : option Git) (decorate oneline : bool).

Lemma isdir_listdir n p : Fs.isdir n p = true → ∃ l, Fs.listdir n p = Some l.
Proof.
  unfold Fs.isdir, Fs.listdir. destruct (Fs.stat n p) as [[|es]|]; try done. eauto.
Qed.

Lemma with_stdout_twice w (l1 l2 : list string) :
  with_stdout l2 (with_stdout l1 w) = with_stdout l2 w.
Proof. done. Qed.

Lemma with_stdout_same w : with_stdout (stdout w) w = w.
Proof. by destruct w. Qed.

Lemma list_notes_eval decorate oneline git nb (names : list string) w :
  decorate = false ∨ git = None →
  list_notes decorate oneline git nb (Note.init nb <$> names) w =
    (Ret (), with_stdout (stdout w ++ (note_line decorate oneline (nb_name nb) <$> names)) w).
Proof.
  intros Hgit. revert w. induction names as [|name names IH]; intros w.
  { cbn. by rewrite app_nil_r, with_stdout_same. }
  rewrite fmap_cons. cbn [list_notes]. unfold bind at 1.
  assert (decoration_of decorate git (Note.init nb name) w =
          (Ret (if decorate then "[u] " else ""), w)) as ->.
  { unfold decoration_of. destruct Hgit as [-> | ->]; [done|by destruct decorate]. }
  unfold bind at 1.
  assert ((if oneline
           then print ((if decorate then "[u] " else "") +:+ nb_name nb +:+ "/"
                       +:+ note_name (Note.init nb name))
           else print ("  * " +:+ (if decorate then "[u] " else "")
                       +:+ note_name (Note.init nb name))) w =
          (Ret (), with_stdout (stdout w ++ [note_line decorate oneline (nb_name nb) name]) w))
    as ->.
  { unfold note_line. by destruct oneline. }
  rewrite IH. cbn [stdout with_stdout]. rewrite with_stdout_twice.
  by rewrite <-(assoc_L (++)).
Qed.

Lemma list_notebooks_eval decorate oneline git tld (ds : list string) n i w :
  decorate = false ∨ git = None →
  Forall (λ d, Fs.isdir (fs w) (Fs.join tld d) = true) ds →
  i + length ds = n →
  list_notebooks decorate oneline git n i (mk_notebook tld <$> ds) w =
    (Ret (), with_stdout (stdout w ++ listing decorate oneline (fs w) tld ds) w).
Proof.
  intros Hgit Hds. revert i w Hds.
  induction ds as [|d ds IH]; intros i w Hds Hlen.
  { cbn. by rewrite app_nil_r, with_stdout_same. }
  apply Forall_cons in Hds as [Hd Hds].
  destruct (isdir_listdir _ _ Hd) as [l Hl].
  rewrite fmap_cons. cbn [list_notebooks]. unfold bind at 1.
  set (header := if oneline then [] else [d +:+ "/"]).
  assert ((if negb oneline then print (nb_name (mk_notebook tld d) +:+ "/") else ret ()) w =
          (Ret (), with_stdout (stdout w ++ header) w)) as ->.
  { unfold header. destruct oneline; cbn; [by rewrite app_nil_r, with_stdout_same|done]. }
  unfold bind at 1. rewrite (sift_eval _ _ l) by done.
  unfold bind at 1. rewrite (list_notes_eval _ _ _ _ _ _ Hgit).
  cbn [stdout with_stdout nb_name mk_notebook]. rewrite with_stdout_twice.
  unfold bind at 1.
  set (sep := if oneline then [] else [""]).
  set (out := (stdout w ++ header) ++ _).
  assert ((if negb oneline && negb (i =? n - 1)%nat then print "" else ret ())
            (with_stdout out w) =
          (Ret (), with_stdout (out ++ (if decide (ds = []) then [] else sep)) w)) as ->.
  { assert ((i =? n - 1)%nat = bool_decide (ds = [])) as ->.
    { destruct ds; simpl in *.
      - apply Nat.eqb_eq. lia.
      - apply Nat.eqb_neq. lia. }
    unfold sep. destruct oneline; cbn [negb andb].
    - destruct (decide (ds = [])); by rewrite app_nil_r.
    - destruct (decide (ds = [])) as [Hnil|Hne].
      + rewrite bool_decide_eq_true_2 by done. cbn [negb]. by rewrite app_nil_r.
      + by rewrite bool_decide_eq_false_2 by done. }
  rewrite (IH (S i)); [|done|simpl in Hlen; lia].
  cbn [stdout with_stdout fs]. rewrite with_stdout_twice. do 2 f_equal.
  unfold out, listing. fold sep. rewrite fmap_cons.
  assert (Hblock : notebook_block decorate oneline (fs w) tld d =
                   header ++ (note_line decorate oneline d <$> Notebook.sorted l)).
  { unfold notebook_block, entries, header. rewrite Hl. by destruct oneline. }
  rewrite Hblock. destruct ds as [|d' ds].
  - cbn. by rewrite !app_nil_r, <-!(assoc_L (++)).
  - cbn [intercalate fmap list_fmap]. rewrite decide_False by done.
    by rewrite <-!(assoc_L (++)).
Qed.

(** X15.  [command_list], once the configuration step has returned
    and as long as no note has to be looked up in version control (no
    [--decorate], or version control off): the notebooks shown are the
    entries of the root that are directories, do not start with a dot,
    are not [templates] and, when a notebook is named, bear that name.
    With none to show the process ends with status 1 and prints
    nothing.  Otherwise the lines printed are, notebook after notebook
    in the order of discovery, the notes in ascending order, one line
    each; in the long form each notebook starts with a header line and
    an empty line stands between notebooks and not after the last. *)
Theorem command_list_output (get_git_config : Fs.path → M (option Git))
    notebook decorate oneline tld w w0 git names :
  get_git_config tld w = (Ret git, w0) →
  decorate = false ∨ git = None →
  Fs.listdir (fs w0) tld = Some names →
  ∃ shown,
    (∀ d, d ∈ shown ↔
       d ∈ names ∧ Fs.isdir (fs w0) (Fs.join tld d) = true
       ∧ Str.startswith "." d = false ∧ d ≠ "templates"
       ∧ (∀ name, notebook = Some name → name ≠ "" → d = name))
    ∧ shown `sublist_of` names
    ∧ (shown = [] →
       command_list get_git_config notebook decorate oneline tld w = (SysExit 1, w0))
    ∧ (shown ≠ [] →
       command_list get_git_config notebook decorate oneline tld w =
         (Ret (), with_stdout (stdout w0 ++ listing decorate oneline (fs w0) tld shown) w0)).
Proof.
  intros Hcfg Hgit Hls.
  set (filter_by_name := λ candidate : string,
         negb (truthy notebook) || bool_decide (candidate = default "" notebook)).
  set (shown := filter (λ d, kept (fs w0) tld (Some filter_by_name) d = true) names).
  assert (Hrun : command_list get_git_config notebook decorate oneline tld w =
            (if bool_decide (mk_notebook tld <$> shown = []) then sys_exit 1
             else list_notebooks decorate oneline git (length (mk_notebook tld <$> shown)) 0
                    (mk_notebook tld <$> shown)) w0).
  { unfold command_list. unfold bind at 1. rewrite Hcfg. unfold bind at 1.
    by rewrite (discover_eval _ _ _ _ Hls). }
  exists shown. split; [|split; [apply sublist_filter|split]].
  - intros d. unfold shown. rewrite list_elem_of_filter, kept_iff.
    split.
    + intros ((H1 & H2 & H3 & H4) & Hin). repeat split; try done.
      intros name -> Hne. specialize (H4 _ eq_refl). unfold filter_by_name in H4.
      cbn [truthy default] in H4. rewrite bool_decide_eq_false_2 in H4 by done.
      cbn [negb orb] in H4. by apply bool_decide_eq_true in H4.
    + intros (Hin & H1 & H2 & H3 & H4). split; [|done]. repeat split; try done.
      intros f [= <-]. unfold filter_by_name.
      destruct notebook as [name|]; [|done]. cbn [truthy default].
      destruct (decide (name = "")) as [->|Hne]; [done|].
      rewrite bool_decide_eq_false_2 by done. cbn [negb orb].
      apply bool_decide_eq_true. by apply H4.
  - intros Hnil. rewrite Hrun, Hnil. done.
  - intros Hne. rewrite Hrun. rewrite bool_decide_eq_false_2.
    2:{ intros Hnil. by apply fmap_nil_inv in Hnil. }
    rewrite length_fmap. apply list_notebooks_eval; [done| |done].
    apply Forall_forall. intros d Hd. unfold shown in Hd.
    apply list_elem_of_filter in Hd as [Hk _]. by apply kept_iff in Hk as (H1 & _).
Qed.

Lemma command_list_output_witness :
  command_list git_off None false false ["notes"] (world_of unsorted_tree []) =
    (Ret (),
     with_stdout ["zeta/"; "  * a.md"; "  * b.md"; ""; "alpha/"] (world_of unsorted_tree []))
  ∧ command_list git_off (Some "zeta") true true ["notes"] (world_of unsorted_tree []) =
      (Ret (),
       with_stdout ["[u] zeta/a.md"; "[u] zeta/b.md"] (world_of unsorted_tree []))
  ∧ command_list git_off (Some "templates") false false ["notes"]
      (world_of unsorted_tree []) = (SysExit 1, world_of unsorted_tree []).
Proof.
  split; [|split].
  - destruct (command_list_output git_off None false false ["notes"]
                (world_of unsorted_tree []) (world_of unsorted_tree []) None
                ["zeta"; "README"; ".git"; "templates"; "alpha"])
      as (shown & _ & _ & _ & H); [reflexivity|by left|reflexivity|].
    reflexivity.
  - destruct (command_list_output git_off (Some "zeta") true true ["notes"]
                (world_of unsorted_tree []) (world_of unsorted_tree []) None
                ["zeta"; "README"; ".git"; "templates"; "alpha"])
      as (shown & _ & _ & _ & H); [reflexivity|by right|reflexivity|].
    reflexivity.
  - destruct (command_list_output git_off (Some "templates") false false ["notes"]
                (world_of unsorted_tree []) (world_of unsorted_tree []) None
                ["zeta"; "README"; ".git"; "templates"; "alpha"])
      as (shown & _ & _ & H & _); [reflexivity|by left|reflexivity|].
    reflexivity.
Defined.

End listing.
